(** * Device management: lifecycle operations over the device store

    A shallow embedding of [dal/device_dao.py] (class [DeviceDAO]) and of
    [controllers/device_controller.py] (the HTTP endpoints), with the
    properties of the device lifecycle proved about them.

    Conventions of the embedding.
    - The SQL session is a record [Session]: the [devices] table and the
      [device_logs] table as lists of rows in insertion order, and the
      counter the store draws primary keys from.  A query without an
      ORDER BY clause is read as a scan of the table in that order.
    - [session.commit()] may raise; every function that commits takes the
      outcome of its commit as a boolean.  A failed commit is rolled back:
      the session is returned as it was.
    - [one_or_none()] raises [MultipleResultsFound] on more than one row;
      [Exc] is the error monad that carries such exceptions.
    - [datetime.utcnow()] is the clock reading passed in as [utcnow].
    - The message broker is a list of the messages handed to the
      publisher, and the publisher's answer is a boolean of the
      environment.
    - [logger] calls and the authenticated user have no effect on the
      store and are left out.  [DeviceResponse] copies the fields of a
      device; an endpoint's body carries the device itself.
    - [updated_at] is refreshed by a column hook of the entity, which is
      declared outside these two files; no function here assigns it and
      the embedding leaves it as stored. *)

From Stdlib Require Import ZArith List String Bool Lia DecimalString Sorted.
Import ListNotations.
Open Scope string_scope.
Open Scope list_scope.
Open Scope Z_scope.

(** ** Python values *)

(** The values a JSON body field can hold, as far as the endpoints look at
    them. *)
#[warnings="-register-all"] Inductive PyVal : Type :=
| PyNone
| PyInt (n : Z)
| PyStr (s : string)
| PyDict (items : list (string * PyVal)).

(** Python's truth value of an object. *)
Definition truthy (v : PyVal) : bool :=
  match v with
  | PyNone => false
  | PyInt n => negb (n =? 0)
  | PyStr s => negb (s =? "")%string
  | PyDict items => match items with [] => false | _ :: _ => true end
  end.

(** Truth value of an [Optional[str]]. *)
Definition truthy_str (o : option string) : bool :=
  match o with
  | None => false
  | Some s => negb (s =? "")%string
  end.

(** [a or b]. *)
Definition py_or (a b : PyVal) : PyVal := if truthy a then a else b.

(** [str(n)] for an integer, as used by the f-strings. *)
Definition str (z : Z) : string := NilZero.string_of_int (Z.to_int z).

(** ** Exceptions *)

(** The exceptions the code of the two files can raise by itself:
    [one_or_none()] on several rows and an enumeration called on a value
    it does not have.  Errors of the database driver (a lost connection,
    an integer outside the range of the column) are outside the
    embedding, and no statement is made about them. *)
Inductive Exn : Type :=
| MultipleResultsFound
| ValueError.

Inductive Exc (A : Type) : Type :=
| Return (a : A)
| Raise (e : Exn).
Arguments Return {A} a.
Arguments Raise {A} e.

Definition bind {A B : Type} (m : Exc A) (k : A -> Exc B) : Exc B :=
  match m with
  | Return a => k a
  | Raise e => Raise e
  end.

Notation "x <- m ;; k" := (bind m (fun x => k))
  (at level 61, m at next level, right associativity).

(** [Query.one_or_none()]. *)
Definition one_or_none {A : Type} (rows : list A) : Exc (option A) :=
  match rows with
  | [] => Return None
  | [row] => Return (Some row)
  | _ :: _ :: _ => Raise MultipleResultsFound
  end.

(** ** Entities and DTO enumerations *)

(** Modelled from the spec: [entities/device.py] is not among the sources;
    the members of the status enumeration are those of the data model
    (in_stock, reserved, deployed, maintenance, retired). *)
Inductive DeviceStatus : Type :=
| IN_STOCK | RESERVED | DEPLOYED | MAINTENANCE | RETIRED.

(** Modelled from the spec: the members of the type enumeration
    (sensor, actuator, gateway, other). *)
Inductive DeviceType : Type :=
| SENSOR | ACTUATOR | GATEWAY | OTHER.

(** Modelled from the spec: [dto/device_dto.py] is not among the sources;
    the DTO enumerations mirror the entity enumerations member by
    member. *)
Inductive DeviceStatusDto : Type :=
| Dto_IN_STOCK | Dto_RESERVED | Dto_DEPLOYED | Dto_MAINTENANCE | Dto_RETIRED.

(** Modelled from the spec: the DTO enumeration of device types, member
    by member that of the entity. *)
Inductive DeviceTypeDto : Type :=
| Dto_SENSOR | Dto_ACTUATOR | Dto_GATEWAY | Dto_OTHER.

(** [member.value] on each enumeration.  The endpoints write the status
    values as literals ("deployed", "in_stock", "maintenance",
    "reserved"); the others are the names of the data model. *)
Definition DeviceStatus_value (st : DeviceStatus) : string :=
  match st with
  | IN_STOCK => "in_stock"
  | RESERVED => "reserved"
  | DEPLOYED => "deployed"
  | MAINTENANCE => "maintenance"
  | RETIRED => "retired"
  end.

Definition DeviceStatusDto_value (st : DeviceStatusDto) : string :=
  match st with
  | Dto_IN_STOCK => "in_stock"
  | Dto_RESERVED => "reserved"
  | Dto_DEPLOYED => "deployed"
  | Dto_MAINTENANCE => "maintenance"
  | Dto_RETIRED => "retired"
  end.

Definition DeviceType_value (t : DeviceType) : string :=
  match t with
  | SENSOR => "sensor"
  | ACTUATOR => "actuator"
  | GATEWAY => "gateway"
  | OTHER => "other"
  end.

Definition DeviceTypeDto_value (t : DeviceTypeDto) : string :=
  match t with
  | Dto_SENSOR => "sensor"
  | Dto_ACTUATOR => "actuator"
  | Dto_GATEWAY => "gateway"
  | Dto_OTHER => "other"
  end.

(** The members of [DeviceStatus], in declaration order. *)
Definition DeviceStatus_members : list DeviceStatus :=
  [IN_STOCK; RESERVED; DEPLOYED; MAINTENANCE; RETIRED].

Definition DeviceType_members : list DeviceType :=
  [SENSOR; ACTUATOR; GATEWAY; OTHER].

(** [DeviceStatus(value)]: the member with that value, [ValueError] when
    there is none. *)
Definition DeviceStatus_call (value : string) : Exc DeviceStatus :=
  match find (fun st => (DeviceStatus_value st =? value)%string)
             DeviceStatus_members with
  | Some st => Return st
  | None => Raise ValueError
  end.

(** [DeviceType(value)]. *)
Definition DeviceType_call (value : string) : Exc DeviceType :=
  match find (fun t => (DeviceType_value t =? value)%string)
             DeviceType_members with
  | Some t => Return t
  | None => Raise ValueError
  end.

Definition DeviceStatus_eqb (a b : DeviceStatus) : bool :=
  match a, b with
  | IN_STOCK, IN_STOCK | RESERVED, RESERVED | DEPLOYED, DEPLOYED
  | MAINTENANCE, MAINTENANCE | RETIRED, RETIRED => true
  | _, _ => false
  end.

Definition DeviceType_eqb (a b : DeviceType) : bool :=
  match a, b with
  | SENSOR, SENSOR | ACTUATOR, ACTUATOR | GATEWAY, GATEWAY
  | OTHER, OTHER => true
  | _, _ => false
  end.

(** The [Device] entity.  [id] and [status] are [None] on an entity that
    was built and not yet flushed. *)
Record Device : Type := mkDevice {
  id : option Z;
  name : PyVal;
  type : option DeviceType;
  serial_number : string;
  description : PyVal;
  status : option DeviceStatus;
  location : PyVal;
  specifications : PyVal;
  purchase_date : option Z;
  deploy_date : option Z;
  last_maintenance_date : option Z;
  created_at : option Z;
  updated_at : option Z
}.

(** Attribute assignments [device.f = v]. *)
Definition set_id (v : option Z) (d : Device) : Device :=
  mkDevice v (name d) (type d) (serial_number d) (description d) (status d)
    (location d) (specifications d) (purchase_date d) (deploy_date d)
    (last_maintenance_date d) (created_at d) (updated_at d).

Definition set_name (v : PyVal) (d : Device) : Device :=
  mkDevice (id d) v (type d) (serial_number d) (description d) (status d)
    (location d) (specifications d) (purchase_date d) (deploy_date d)
    (last_maintenance_date d) (created_at d) (updated_at d).

Definition set_description (v : PyVal) (d : Device) : Device :=
  mkDevice (id d) (name d) (type d) (serial_number d) v (status d)
    (location d) (specifications d) (purchase_date d) (deploy_date d)
    (last_maintenance_date d) (created_at d) (updated_at d).

Definition set_status (v : option DeviceStatus) (d : Device) : Device :=
  mkDevice (id d) (name d) (type d) (serial_number d) (description d) v
    (location d) (specifications d) (purchase_date d) (deploy_date d)
    (last_maintenance_date d) (created_at d) (updated_at d).

Definition set_location (v : PyVal) (d : Device) : Device :=
  mkDevice (id d) (name d) (type d) (serial_number d) (description d)
    (status d) v (specifications d) (purchase_date d) (deploy_date d)
    (last_maintenance_date d) (created_at d) (updated_at d).

Definition set_specifications (v : PyVal) (d : Device) : Device :=
  mkDevice (id d) (name d) (type d) (serial_number d) (description d)
    (status d) (location d) v (purchase_date d) (deploy_date d)
    (last_maintenance_date d) (created_at d) (updated_at d).

Definition set_deploy_date (v : option Z) (d : Device) : Device :=
  mkDevice (id d) (name d) (type d) (serial_number d) (description d)
    (status d) (location d) (specifications d) (purchase_date d) v
    (last_maintenance_date d) (created_at d) (updated_at d).

Definition set_last_maintenance_date (v : option Z) (d : Device) : Device :=
  mkDevice (id d) (name d) (type d) (serial_number d) (description d)
    (status d) (location d) (specifications d) (purchase_date d)
    (deploy_date d) v (created_at d) (updated_at d).

Definition set_created_at (v : option Z) (d : Device) : Device :=
  mkDevice (id d) (name d) (type d) (serial_number d) (description d)
    (status d) (location d) (specifications d) (purchase_date d)
    (deploy_date d) (last_maintenance_date d) v (updated_at d).

(** The [DeviceLog] entity, with the six fields [log_action] fills.  Its
    own key and timestamp are assigned by the store and not tracked. *)
Record DeviceLog : Type := mkDeviceLog {
  log_device_id : Z;
  action : string;
  old_status : option string;
  new_status : option string;
  performed_by : option Z;
  notes : option string
}.

(** ** The session *)

Record Session : Type := mkSession {
  devices : list Device;
  device_logs : list DeviceLog;
  next_device_id : Z
}.

Definition empty_session : Session := mkSession [] [] 1.

(** [Device.id == device_id] as a row filter; a NULL key matches nothing. *)
Definition id_is (device_id : Z) (d : Device) : bool :=
  match id d with
  | Some i => i =? device_id
  | None => false
  end.

(** [Device.serial_number == serial]. *)
Definition serial_is (serial : string) (d : Device) : bool :=
  (serial_number d =? serial)%string.

(** [Device.status == st]. *)
Definition status_is (st : DeviceStatus) (d : Device) : bool :=
  match status d with
  | Some st' => DeviceStatus_eqb st' st
  | None => false
  end.

(** [Device.type == t]. *)
Definition type_is (t : DeviceType) (d : Device) : bool :=
  match type d with
  | Some t' => DeviceType_eqb t' t
  | None => false
  end.

(** Flushing a modified entity: the row it was loaded from (the one with
    its key) takes the entity's fields. *)
Definition flush_update (device : Device) (rows : list Device) : list Device :=
  map (fun row => match id device with
                  | Some i => if id_is i row then device else row
                  | None => row
                  end) rows.

(** Modelled from the spec: the column defaults of [entities/device.py] are
    not among the sources.  Per the repository's create operation the
    inserted record has status in_stock, an id assigned by the store and
    its [created_at] set. *)
Definition flush_insert (utcnow : Z) (key : Z) (device : Device) : Device :=
  set_created_at (Some utcnow)
    (set_status (Some IN_STOCK) (set_id (Some key) device)).

(** [OFFSET n] and [LIMIT n] on a result, for [n >= 0].  The endpoints
    only pass non-negative values.  What a negative one does depends on
    the database (one engine returns every row, another refuses the
    query); the definitions read it as zero, and no statement of this
    file is about a negative offset or limit. *)
Definition sql_offset {A : Type} (n : Z) (rows : list A) : list A :=
  skipn (Z.to_nat n) rows.

Definition sql_limit {A : Type} (n : Z) (rows : list A) : list A :=
  firstn (Z.to_nat n) rows.

(** ** dal/device_dao.py *)

Module DeviceDAO.

(** The [try: commit; refresh; return device / except: rollback; return
    None] block that ends every updating method.  The refresh also
    reloads [updated_at], which the store has set anew; its value is not
    followed, the entity carries the old one, and no statement of this
    file is about it. *)
Definition commit_refresh (session : Session) (commit_ok : bool)
    (device : Device) : option Device * Session :=
  if commit_ok
  then (Some device,
        mkSession (flush_update device (devices session))
                  (device_logs session) (next_device_id session))
  else (None, session).

(** Returns the success flag, the entity as the caller sees it afterwards
    (refreshed when stored) and the session. *)
Definition create_device (session : Session) (utcnow : Z) (commit_ok : bool)
    (device : Device) : Exc (bool * Device * Session) :=
  existing <- one_or_none
                (filter (serial_is (serial_number device)) (devices session)) ;;
  match existing with
  | Some _ => Return (false, device, session)
  | None =>
      if commit_ok
      then
        let stored := flush_insert utcnow (next_device_id session) device in
        Return (true, stored,
                mkSession (devices session ++ [stored]) (device_logs session)
                          (next_device_id session + 1))
      else Return (false, device, session)
  end.

Definition get_all_devices (session : Session)
    (status : option DeviceStatusDto) (device_type : option DeviceTypeDto)
    (page page_size : Z) : Exc (list Device * Z) :=
  let query := devices session in
  query <- match status with
           | Some st =>
               v <- DeviceStatus_call (DeviceStatusDto_value st) ;;
               Return (filter (status_is v) query)
           | None => Return query
           end ;;
  query <- match device_type with
           | Some t =>
               v <- DeviceType_call (DeviceTypeDto_value t) ;;
               Return (filter (type_is v) query)
           | None => Return query
           end ;;
  let total := Z.of_nat (List.length query) in
  let offset := (page - 1) * page_size in
  Return (sql_limit page_size (sql_offset offset query), total).

Definition get_device_by_id (session : Session) (device_id : Z)
    : Exc (option Device) :=
  one_or_none (filter (id_is device_id) (devices session)).

Definition get_device_by_serial (session : Session) (serial : string)
    : Exc (option Device) :=
  one_or_none (filter (serial_is serial) (devices session)).

Definition allowed_fields : list string :=
  ["name"; "description"; "location"; "specifications"].

(** The attributes of a [Device]. *)
Definition Device_attributes : list string :=
  ["id"; "name"; "type"; "serial_number"; "description"; "status";
   "location"; "specifications"; "purchase_date"; "deploy_date";
   "last_maintenance_date"; "created_at"; "updated_at"].

Definition hasattr (device : Device) (field : string) : bool :=
  existsb (String.eqb field) Device_attributes.

(** [setattr(device, field, value)] on the four attributes the guard of
    [update_device] lets through; it is not called on any other. *)
Definition setattr (device : Device) (field : string) (value : PyVal)
    : Device :=
  if (field =? "name")%string then set_name value device
  else if (field =? "description")%string then set_description value device
  else if (field =? "location")%string then set_location value device
  else if (field =? "specifications")%string
       then set_specifications value device
  else device.

(** The body of the loop [for field, value in kwargs.items()]. *)
Definition assign_allowed (device : Device) (item : string * PyVal)
    : Device :=
  let '(field, value) := item in
  if existsb (String.eqb field) allowed_fields && hasattr device field
  then setattr device field value
  else device.

(** [kwargs] is the keyword dictionary, in the order the items are
    iterated. *)
Definition update_device (session : Session) (commit_ok : bool)
    (device_id : Z) (kwargs : list (string * PyVal))
    : Exc (option Device * Session) :=
  device <- one_or_none (filter (id_is device_id) (devices session)) ;;
  match device with
  | None => Return (None, session)
  | Some device =>
      let device := fold_left assign_allowed kwargs device in
      Return (commit_refresh session commit_ok device)
  end.

Definition update_device_status (session : Session) (commit_ok : bool)
    (device_id : Z) (new_status : DeviceStatusDto) (location : option string)
    : Exc (option Device * Session) :=
  device <- one_or_none (filter (id_is device_id) (devices session)) ;;
  match device with
  | None => Return (None, session)
  | Some device =>
      st <- DeviceStatus_call (DeviceStatusDto_value new_status) ;;
      let device := set_status (Some st) device in
      let device :=
        match location with
        | Some l => if truthy_str location
                    then set_location (PyStr l) device else device
        | None => device
        end in
      Return (commit_refresh session commit_ok device)
  end.

Definition delete_device (session : Session) (commit_ok : bool)
    (device_id : Z) : Exc (bool * Session) :=
  device <- one_or_none (filter (id_is device_id) (devices session)) ;;
  match device with
  | None => Return (false, session)
  | Some device =>
      let device := set_status (Some RETIRED) device in
      match commit_refresh session commit_ok device with
      | (Some _, session') => Return (true, session')
      | (None, session') => Return (false, session')
      end
  end.

Definition get_devices_by_status (session : Session)
    (status : DeviceStatusDto) : Exc (list Device) :=
  v <- DeviceStatus_call (DeviceStatusDto_value status) ;;
  Return (filter (status_is v) (devices session)).

(** [device.status in statuses]; [status_is] is
    [device.status == st]. *)
Definition status_in (device : Device) (statuses : list DeviceStatus)
    : bool :=
  match status device with
  | Some st => existsb (DeviceStatus_eqb st) statuses
  | None => false
  end.

Definition deploy_device (session : Session) (utcnow : Z) (commit_ok : bool)
    (device_id : Z) (deployment_location : string)
    : Exc (option Device * Session) :=
  device <- one_or_none (filter (id_is device_id) (devices session)) ;;
  match device with
  | None => Return (None, session)
  | Some device =>
      let allowed_statuses := [IN_STOCK; RESERVED; MAINTENANCE] in
      if negb (status_in device allowed_statuses)
      then Return (None, session)
      else
        let device := set_status (Some DEPLOYED) device in
        let device := set_location (PyStr deployment_location) device in
        let device := set_deploy_date (Some utcnow) device in
        Return (commit_refresh session commit_ok device)
  end.

Definition recall_device (session : Session) (commit_ok : bool)
    (device_id : Z) (warehouse_location : option string)
    : Exc (option Device * Session) :=
  device <- one_or_none (filter (id_is device_id) (devices session)) ;;
  match device with
  | None => Return (None, session)
  | Some device =>
      if negb (status_is DEPLOYED device)
      then Return (None, session)
      else
        let device := set_status (Some IN_STOCK) device in
        let device :=
          match warehouse_location with
          | Some l => if truthy_str warehouse_location
                      then set_location (PyStr l) device else device
          | None => device
          end in
        let device := set_deploy_date None device in
        Return (commit_refresh session commit_ok device)
  end.

Definition send_to_maintenance (session : Session) (utcnow : Z)
    (commit_ok : bool) (device_id : Z) : Exc (option Device * Session) :=
  device <- one_or_none (filter (id_is device_id) (devices session)) ;;
  match device with
  | None => Return (None, session)
  | Some device =>
      let device := set_status (Some MAINTENANCE) device in
      let device := set_last_maintenance_date (Some utcnow) device in
      Return (commit_refresh session commit_ok device)
  end.

Definition reserve_device (session : Session) (commit_ok : bool)
    (device_id : Z) : Exc (option Device * Session) :=
  device <- one_or_none (filter (id_is device_id) (devices session)) ;;
  match device with
  | None => Return (None, session)
  | Some device =>
      if negb (status_is IN_STOCK device)
      then Return (None, session)
      else
        let device := set_status (Some RESERVED) device in
        Return (commit_refresh session commit_ok device)
  end.

Definition log_action (session : Session) (commit_ok : bool)
    (device_id : Z) (action : string) (old_status new_status : option string)
    (performed_by : option Z) (notes : option string) : bool * Session :=
  let log :=
    mkDeviceLog device_id action old_status new_status performed_by notes in
  if commit_ok
  then (true,
        mkSession (devices session) (device_logs session ++ [log])
                  (next_device_id session))
  else (false, session).

End DeviceDAO.

(** ** Request bodies of dto/device_dto.py *)

(** Modelled from the spec: [dto/device_dto.py] is not among the sources.
    The body of the create request, with the six fields the endpoint
    copies into the entity. *)
Module DeviceRequest.
Record t : Type := mk {
  name : string;
  type : DeviceTypeDto;
  serial_number : string;
  description : PyVal;
  location : PyVal;
  specifications : PyVal
}.
End DeviceRequest.

(** Modelled from the spec: the body of the update request, the four
    mutable fields [{name?, description?, location?, specifications?}];
    a field that is not set holds [PyNone]. *)
Module DeviceUpdateRequest.
Record t : Type := mk {
  name : PyVal;
  description : PyVal;
  location : PyVal;
  specifications : PyVal
}.
End DeviceUpdateRequest.

(** Modelled from the spec: the body of the direct status set, with the
    fields the endpoint reads. *)
Module DeviceStatusUpdateRequest.
Record t : Type := mk {
  status : DeviceStatusDto;
  location : option string;
  notes : option string
}.
End DeviceStatusUpdateRequest.

(** Modelled from the spec: the body of the deploy request. *)
Module DeployRequest.
Record t : Type := mk { location : string; notes : option string }.
End DeployRequest.

(** Modelled from the spec: the body of the recall request; the location
    is optional. *)
Module RecallRequest.
Record t : Type := mk { location : option string; notes : option string }.
End RecallRequest.

(** Modelled from the spec: the body of the maintenance request. *)
Module MaintenanceRequest.
Record t : Type := mk { notes : option string }.
End MaintenanceRequest.

(** Modelled from the spec: the body of the reserve request. *)
Module ReserveRequest.
Record t : Type := mk { notes : option string }.
End ReserveRequest.

(** Modelled from the spec: the telemetry event, a device id and an
    arbitrary sensor payload.  [data] is what [model_dump] keeps once the
    base fields are excluded. *)
Module TelemetryRequest.
Record t : Type := mk { device_id : Z; data : PyVal }.
End TelemetryRequest.

(** Modelled from the spec: the generic device event, a device id, an
    event type and arbitrary details. *)
Module DeviceEventRequest.
Record t : Type := mk { device_id : Z; event_type : string; details : PyVal }.
End DeviceEventRequest.

(** ** The publisher of services/rabbitmq_publisher.py *)

(** Modelled from the spec: [services/rabbitmq_publisher.py] is not among
    the sources.  The two kinds of message the endpoints hand to the
    notifier, with the arguments of [publish_telemetry] and
    [publish_device_event]. *)
Inductive Message : Type :=
| Telemetry (device_id : option Z) (device_name : PyVal) (data : PyVal)
| DeviceEvent (device_id : option Z) (device_name : PyVal)
    (event_type : string) (details : PyVal).

(** Modelled from the spec: the notifier is a capability
    [publish(topic, payload) -> success|failure].  Every call is recorded,
    in order; its answer is decided by the surroundings. *)
Definition publish (calls : list Message) (publish_ok : bool) (m : Message)
    : bool * list Message :=
  (publish_ok, calls ++ [m]).

(** ** controllers/device_controller.py *)

Module device_controller.

(** What the endpoints act on: the database behind [get_db_session] and
    the module-level [rabbitmq_publisher]. *)
Record World : Type := mkWorld {
  session : Session;
  publisher_calls : list Message
}.

Definition initial_world : World := mkWorld empty_session [].

(** What the surroundings decide during one request: the clock, whether
    the commit of the DAO method and the commit of [log_action] go
    through, and the publisher's answer. *)
Record Env : Type := mkEnv {
  env_utcnow : Z;
  env_commit_ok : bool;
  env_log_commit_ok : bool;
  env_publish_ok : bool
}.

Inductive Body : Type :=
| DeviceResponse (device : Device)
| DeviceListResponse (devices : list Device) (total page page_size : Z)
| DeviceResponseList (devices : list Device)
| ActionResponse (success : bool) (message : string)
    (device : option Device)
| DeviceTypeResponse (device_id : Z) (type_value : string).

(** An endpoint answers with a body, raises [HTTPException], or lets an
    exception of the DAO escape. *)
Inductive Response : Type :=
| Ok (body : Body)
| HTTPException (status_code : Z) (detail : string)
| Unhandled (e : Exn).

(** Runs a DAO computation; an exception escapes and leaves [w]. *)
Definition try_dao {A : Type} (w : World) (m : Exc A)
    (k : A -> Response * World) : Response * World :=
  match m with
  | Return a => k a
  | Raise e => (Unhandled e, w)
  end.

Definition with_session (w : World) (s : Session) : World :=
  mkWorld s (publisher_calls w).

(** [device.status.value if device.status else None]. *)
Definition status_value (device : Device) : option string :=
  option_map DeviceStatus_value (status device).

Definition py_of_notes (notes : option string) : PyVal :=
  match notes with
  | Some s => PyStr s
  | None => PyNone
  end.

Definition not_found (device_id : Z) : Response :=
  HTTPException 404 ("Device with ID " ++ str device_id ++ " not found")%string.

(** The bounds [Query(1, ge=1)] and [Query(20, ge=1, le=100)] reject a
    request before the function body runs; the framework answers 422,
    and its error body is not reproduced. *)
Definition get_all_devices (w : World)
    (status : option DeviceStatusDto) (device_type : option DeviceTypeDto)
    (page page_size : Z) : Response * World :=
  if (page <? 1) || (page_size <? 1) || (100 <? page_size)
  then (HTTPException 422 "validation error", w)
  else
    try_dao w
      (DeviceDAO.get_all_devices (session w) status device_type page page_size)
      (fun '(devices, total) =>
         (Ok (DeviceListResponse devices total page page_size), w)).

Definition get_in_stock_devices (w : World) : Response * World :=
  try_dao w (DeviceDAO.get_devices_by_status (session w) Dto_IN_STOCK)
    (fun devices => (Ok (DeviceResponseList devices), w)).

Definition get_deployed_devices (w : World) : Response * World :=
  try_dao w (DeviceDAO.get_devices_by_status (session w) Dto_DEPLOYED)
    (fun devices => (Ok (DeviceResponseList devices), w)).

Definition get_maintenance_devices (w : World) : Response * World :=
  try_dao w (DeviceDAO.get_devices_by_status (session w) Dto_MAINTENANCE)
    (fun devices => (Ok (DeviceResponseList devices), w)).

Definition get_device_by_id (w : World) (device_id : Z) : Response * World :=
  try_dao w (DeviceDAO.get_device_by_id (session w) device_id)
    (fun device =>
       match device with
       | None => (not_found device_id, w)
       | Some device => (Ok (DeviceResponse device), w)
       end).

Definition create_device (w : World) (env : Env)
    (device_request : DeviceRequest.t) : Response * World :=
  try_dao w (DeviceType_call
               (DeviceTypeDto_value (DeviceRequest.type device_request)))
    (fun t =>
       let device :=
         mkDevice None (PyStr (DeviceRequest.name device_request)) (Some t)
           (DeviceRequest.serial_number device_request)
           (DeviceRequest.description device_request) None
           (DeviceRequest.location device_request)
           (DeviceRequest.specifications device_request)
           None None None None None in
       try_dao w
         (DeviceDAO.create_device (session w) (env_utcnow env)
            (env_commit_ok env) device)
         (fun '(success, device, session') =>
            if negb success
            then (HTTPException 400
                    "Device with this serial number already exists",
                  with_session w session')
            else (Ok (DeviceResponse device), with_session w session'))).

Definition update_device (w : World) (env : Env) (device_id : Z)
    (update_request : DeviceUpdateRequest.t) : Response * World :=
  try_dao w
    (DeviceDAO.update_device (session w) (env_commit_ok env) device_id
       [("name", DeviceUpdateRequest.name update_request);
        ("description", DeviceUpdateRequest.description update_request);
        ("location", DeviceUpdateRequest.location update_request);
        ("specifications",
         DeviceUpdateRequest.specifications update_request)])
    (fun '(device, session') =>
       match device with
       | None => (not_found device_id, with_session w session')
       | Some device => (Ok (DeviceResponse device), with_session w session')
       end).

Definition delete_device (w : World) (env : Env) (device_id : Z)
    : Response * World :=
  try_dao w (DeviceDAO.delete_device (session w) (env_commit_ok env) device_id)
    (fun '(success, session') =>
       if negb success
       then (not_found device_id, with_session w session')
       else (Ok (ActionResponse true
                   ("Device " ++ str device_id ++ " has been retired")%string
                   None),
             with_session w session')).

(** The part the five status endpoints share after their DAO call:
    [log_action], whose result is dropped. *)
Definition log_transition (w : World) (env : Env) (session' : Session)
    (device_id : Z) (action : string) (old_status new_status : option string)
    (notes : option string) : World :=
  with_session w
    (snd (DeviceDAO.log_action session' (env_log_commit_ok env) device_id
            action old_status new_status None notes)).

Definition update_device_status (w : World) (env : Env) (device_id : Z)
    (status_request : DeviceStatusUpdateRequest.t) : Response * World :=
  try_dao w (DeviceDAO.get_device_by_id (session w) device_id)
    (fun old_device =>
       match old_device with
       | None => (not_found device_id, w)
       | Some old_device =>
           let old_status := status_value old_device in
           try_dao w
             (DeviceDAO.update_device_status (session w) (env_commit_ok env)
                device_id (DeviceStatusUpdateRequest.status status_request)
                (DeviceStatusUpdateRequest.location status_request))
             (fun '(device, session') =>
                match device with
                | None =>
                    (HTTPException 400 "Failed to update device status",
                     with_session w session')
                | Some device =>
                    (Ok (DeviceResponse device),
                     log_transition w env session' device_id "status_change"
                       old_status
                       (Some (DeviceStatusDto_value
                                (DeviceStatusUpdateRequest.status
                                   status_request)))
                       (DeviceStatusUpdateRequest.notes status_request))
                end)
       end).

Definition deploy_device (w : World) (env : Env) (device_id : Z)
    (deploy_request : DeployRequest.t) : Response * World :=
  try_dao w (DeviceDAO.get_device_by_id (session w) device_id)
    (fun old_device =>
       match old_device with
       | None => (not_found device_id, w)
       | Some old_device =>
           let old_status := status_value old_device in
           try_dao w
             (DeviceDAO.deploy_device (session w) (env_utcnow env)
                (env_commit_ok env) device_id
                (DeployRequest.location deploy_request))
             (fun '(device, session') =>
                match device with
                | None =>
                    (HTTPException 400
                       "Device cannot be deployed. It must be in 'in_stock', 'reserved', or 'maintenance' status.",
                     with_session w session')
                | Some device =>
                    (Ok (ActionResponse true
                           ("Device " ++ str device_id ++ " deployed to "
                            ++ DeployRequest.location deploy_request)%string
                           (Some device)),
                     log_transition w env session' device_id "deployed"
                       old_status (Some "deployed")
                       (DeployRequest.notes deploy_request))
                end)
       end).

Definition recall_device (w : World) (env : Env) (device_id : Z)
    (recall_request : RecallRequest.t) : Response * World :=
  try_dao w (DeviceDAO.get_device_by_id (session w) device_id)
    (fun old_device =>
       match old_device with
       | None => (not_found device_id, w)
       | Some old_device =>
           let old_status := status_value old_device in
           try_dao w
             (DeviceDAO.recall_device (session w) (env_commit_ok env)
                device_id (RecallRequest.location recall_request))
             (fun '(device, session') =>
                match device with
                | None =>
                    (HTTPException 400
                       "Device cannot be recalled. It must be in 'deployed' status.",
                     with_session w session')
                | Some device =>
                    (Ok (ActionResponse true
                           ("Device " ++ str device_id
                            ++ " recalled to stock")%string
                           (Some device)),
                     log_transition w env session' device_id "recalled"
                       old_status (Some "in_stock")
                       (RecallRequest.notes recall_request))
                end)
       end).

Definition send_to_maintenance (w : World) (env : Env) (device_id : Z)
    (maintenance_request : MaintenanceRequest.t) : Response * World :=
  try_dao w (DeviceDAO.get_device_by_id (session w) device_id)
    (fun old_device =>
       match old_device with
       | None => (not_found device_id, w)
       | Some old_device =>
           let old_status := status_value old_device in
           try_dao w
             (DeviceDAO.send_to_maintenance (session w) (env_utcnow env)
                (env_commit_ok env) device_id)
             (fun '(device, session') =>
                match device with
                | None =>
                    (HTTPException 400 "Device cannot be sent to maintenance.",
                     with_session w session')
                | Some device =>
                    (Ok (ActionResponse true
                           ("Device " ++ str device_id
                            ++ " sent to maintenance")%string
                           (Some device)),
                     log_transition w env session' device_id "maintenance"
                       old_status (Some "maintenance")
                       (MaintenanceRequest.notes maintenance_request))
                end)
       end).

Definition reserve_device (w : World) (env : Env) (device_id : Z)
    (reserve_request : ReserveRequest.t) : Response * World :=
  try_dao w (DeviceDAO.get_device_by_id (session w) device_id)
    (fun old_device =>
       match old_device with
       | None => (not_found device_id, w)
       | Some old_device =>
           let old_status := status_value old_device in
           try_dao w
             (DeviceDAO.reserve_device (session w) (env_commit_ok env)
                device_id)
             (fun '(device, session') =>
                match device with
                | None =>
                    (HTTPException 400
                       "Device cannot be reserved. It must be in 'in_stock' status.",
                     with_session w session')
                | Some device =>
                    let w' :=
                      log_transition w env session' device_id "reserved"
                        old_status (Some "reserved")
                        (ReserveRequest.notes reserve_request) in
                    let '(_, calls) :=
                      publish (publisher_calls w') (env_publish_ok env)
                        (DeviceEvent (id device) (name device)
                           "device_reserved"
                           (PyDict
                              [("notes",
                                py_of_notes
                                  (ReserveRequest.notes reserve_request))])) in
                    (Ok (ActionResponse true
                           ("Device " ++ str device_id ++ " reserved")%string
                           (Some device)),
                     mkWorld (session w') calls)
                end)
       end).

Definition receive_telemetry (w : World) (env : Env)
    (request : TelemetryRequest.t) : Response * World :=
  try_dao w
    (DeviceDAO.get_device_by_id (session w)
       (TelemetryRequest.device_id request))
    (fun device =>
       match device with
       | None =>
           (HTTPException 404
              ("Device " ++ str (TelemetryRequest.device_id request)
               ++ " not found")%string, w)
       | Some device =>
           if negb (status_is DEPLOYED device)
           then (HTTPException 400
                   "Device must be 'deployed' to send telemetry", w)
           else
             let telemetry_dict := TelemetryRequest.data request in
             let '(success, calls) :=
               publish (publisher_calls w) (env_publish_ok env)
                 (Telemetry (id device) (name device) telemetry_dict) in
             if negb success
             then (HTTPException 500 "Failed to publish telemetry",
                   mkWorld (session w) calls)
             else (Ok (ActionResponse true "Telemetry received and published"
                         None),
                   mkWorld (session w) calls)
       end).

(** [receive_event] takes no session: it acts on the publisher alone. *)
Definition receive_event (calls : list Message) (env : Env)
    (request : DeviceEventRequest.t) : Response * list Message :=
  let '(success, calls) :=
    publish calls (env_publish_ok env)
      (DeviceEvent (Some (DeviceEventRequest.device_id request))
         (PyStr ("Device-" ++ str (DeviceEventRequest.device_id request))%string)
         (DeviceEventRequest.event_type request)
         (py_or (DeviceEventRequest.details request) (PyDict []))) in
  if negb success
  then (HTTPException 500 "Failed to publish event", calls)
  else (Ok (ActionResponse true "Event received and published" None), calls).

Definition get_device_type (w : World) (device_id : Z) : Response * World :=
  try_dao w (DeviceDAO.get_device_by_id (session w) device_id)
    (fun device =>
       match device with
       | None =>
           (HTTPException 404
              ("Device " ++ str device_id ++ " not found")%string, w)
       | Some device =>
           (Ok (DeviceTypeResponse device_id
                  (match type device with
                   | Some t => DeviceType_value t
                   | None => "other"
                   end)), w)
       end).

(** The routes of the router, one constructor per endpoint. *)
Inductive Request : Type :=
| GET_devices (status : option DeviceStatusDto)
    (device_type : option DeviceTypeDto) (page page_size : Z)
| GET_in_stock
| GET_deployed
| GET_maintenance
| GET_device (device_id : Z)
| POST_device (body : DeviceRequest.t)
| PUT_device (device_id : Z) (body : DeviceUpdateRequest.t)
| DELETE_device (device_id : Z)
| PUT_status (device_id : Z) (body : DeviceStatusUpdateRequest.t)
| PUT_deploy (device_id : Z) (body : DeployRequest.t)
| PUT_recall (device_id : Z) (body : RecallRequest.t)
| PUT_maintenance (device_id : Z) (body : MaintenanceRequest.t)
| PUT_reserve (device_id : Z) (body : ReserveRequest.t)
| POST_telemetry (body : TelemetryRequest.t)
| POST_events (body : DeviceEventRequest.t)
| GET_type (device_id : Z).

Definition handle (w : World) (env : Env) (request : Request)
    : Response * World :=
  match request with
  | GET_devices status device_type page page_size =>
      get_all_devices w status device_type page page_size
  | GET_in_stock => get_in_stock_devices w
  | GET_deployed => get_deployed_devices w
  | GET_maintenance => get_maintenance_devices w
  | GET_device device_id => get_device_by_id w device_id
  | POST_device body => create_device w env body
  | PUT_device device_id body => update_device w env device_id body
  | DELETE_device device_id => delete_device w env device_id
  | PUT_status device_id body => update_device_status w env device_id body
  | PUT_deploy device_id body => deploy_device w env device_id body
  | PUT_recall device_id body => recall_device w env device_id body
  | PUT_maintenance device_id body => send_to_maintenance w env device_id body
  | PUT_reserve device_id body => reserve_device w env device_id body
  | POST_telemetry body => receive_telemetry w env body
  | POST_events body =>
      let '(response, calls) := receive_event (publisher_calls w) env body in
      (response, mkWorld (session w) calls)
  | GET_type device_id => get_device_type w device_id
  end.

(** The worlds the service can be in: what a sequence of requests makes
    of the empty database, whatever the surroundings do. *)
Inductive reachable : World -> Prop :=
| reachable_initial : reachable initial_world
| reachable_handle (w : World) (env : Env) (request : Request) :
    reachable w -> reachable (snd (handle w env request)).

End device_controller.

(** ** Invariant of the store and notions used by the statements *)

(** The key of a stored row. *)
Definition key (d : Device) : Z :=
  match id d with
  | Some i => i
  | None => 0
  end.

(** What holds of the database between requests: every row has a key
    drawn from the counter, rows appear in the order their keys were
    drawn, no serial number occurs twice, every row has a status, and
    every log entry refers to a key that was drawn. *)
Record consistent (s : Session) : Prop := mkConsistent {
  counter_positive : 0 < next_device_id s;
  keys_assigned :
    Forall (fun d => id d = Some (key d) /\ 0 < key d < next_device_id s)
           (devices s);
  keys_increasing : StronglySorted Z.lt (map key (devices s));
  serials_unique : NoDup (map serial_number (devices s));
  status_assigned : Forall (fun d => status d <> None) (devices s);
  logs_refer :
    Forall (fun l => 0 < log_device_id l < next_device_id s) (device_logs s)
}.

(** The fields an update of the mutable fields leaves as they are.
    [updated_at] is not among them: the store refreshes it on every
    committed change, and the embedding does not follow its value. *)
Definition fixed_fields_equal (d d' : Device) : Prop :=
  id d' = id d /\ type d' = type d /\ serial_number d' = serial_number d
  /\ status d' = status d /\ purchase_date d' = purchase_date d
  /\ deploy_date d' = deploy_date d
  /\ last_maintenance_date d' = last_maintenance_date d
  /\ created_at d' = created_at d.

(** The loop of [DeviceDAO.update_device] over the keyword items. *)
Definition apply_kwargs (kwargs : list (string * PyVal)) (device : Device)
    : Device :=
  fold_left DeviceDAO.assign_allowed kwargs device.

(** What every updating DAO method guarantees of the session it
    returns. *)
Definition keeps (s s' : Session) : Prop :=
  consistent s' /\ next_device_id s' = next_device_id s
  /\ device_logs s' = device_logs s.

(** The endpoints that record their transition in the audit log, with
    the device, the action name and the notes they record. *)
Definition audited_transition (request : device_controller.Request)
    : option (Z * string * option string) :=
  match request with
  | device_controller.PUT_status i body =>
      Some (i, "status_change", DeviceStatusUpdateRequest.notes body)
  | device_controller.PUT_deploy i body =>
      Some (i, "deployed", DeployRequest.notes body)
  | device_controller.PUT_recall i body =>
      Some (i, "recalled", RecallRequest.notes body)
  | device_controller.PUT_maintenance i body =>
      Some (i, "maintenance", MaintenanceRequest.notes body)
  | device_controller.PUT_reserve i body =>
      Some (i, "reserved", ReserveRequest.notes body)
  | _ => None
  end.

(** The values of the enumerated status set. *)
Definition status_values : list string :=
  ["in_stock"; "reserved"; "deployed"; "maintenance"; "retired"].

(** The audit entries of one device, oldest first. *)
Definition logs_of (s : Session) (device_id : Z) : list DeviceLog :=
  filter (fun l => log_device_id l =? device_id) (device_logs s).

(** A record matches a list filter when it has the requested status and
    the requested type, each compared by value; an absent criterion
    matches every record. *)
Definition matches (status_filter : option DeviceStatusDto)
    (type_filter : option DeviceTypeDto) (d : Device) : bool :=
  match status_filter with
  | None => true
  | Some st =>
      match status d with
      | Some st' => (DeviceStatus_value st' =? DeviceStatusDto_value st)%string
      | None => false
      end
  end
  &&
  match type_filter with
  | None => true
  | Some t =>
      match type d with
      | Some t' => (DeviceType_value t' =? DeviceTypeDto_value t)%string
      | None => false
      end
  end.

(** The rows of a page as [DeviceDAO.get_all_devices] returns them. *)
Definition page_rows (s : Session) (status_filter : option DeviceStatusDto)
    (type_filter : option DeviceTypeDto) (page page_size : Z) : list Device :=
  match DeviceDAO.get_all_devices s status_filter type_filter page page_size
  with
  | Return (rows, _) => rows
  | Raise _ => []
  end.

(** ceil(n / p). *)
Definition page_count (n p : Z) : Z := (n + p - 1) / p.


(** ** Sample data for the concrete instances *)

Module Sample.
Import device_controller.

(** Surroundings in which every commit and every publish goes through. *)
Definition env_ok : Env := mkEnv 1000 true true true.

Definition probe_request : DeviceRequest.t :=
  DeviceRequest.mk "Probe" Dto_SENSOR "SN-1" PyNone (PyStr "Lab")
    (PyDict [("range", PyInt 5)]).

Definition valve_request : DeviceRequest.t :=
  DeviceRequest.mk "Valve" Dto_ACTUATOR "SN-2" (PyStr "inlet") PyNone PyNone.

(** The database after one device was registered. *)
Definition world_one : World :=
  snd (handle initial_world env_ok (POST_device probe_request)).

(** The device stored in [world_one]. *)
Definition probe : Device :=
  mkDevice (Some 1) (PyStr "Probe") (Some SENSOR) "SN-1" PyNone
    (Some IN_STOCK) (PyStr "Lab") (PyDict [("range", PyInt 5)])
    None None None (Some 1000) None.

(** The entity the controller builds for a second request with the same
    serial number. *)
Definition probe_again : Device :=
  mkDevice None (PyStr "Probe") (Some SENSOR) "SN-1" PyNone None
    (PyStr "Lab") (PyDict [("range", PyInt 5)]) None None None None None.

(** The database after that device was retired. *)
Definition world_retired : World :=
  snd (handle world_one env_ok (DELETE_device 1)).

Definition probe_retired : Device := set_status (Some RETIRED) probe.

(** The database after three devices were registered. *)
Definition gateway_request : DeviceRequest.t :=
  DeviceRequest.mk "Hub" Dto_GATEWAY "SN-3" PyNone PyNone PyNone.

Definition world_three : World :=
  snd (handle
         (snd (handle world_one env_ok (POST_device valve_request)))
         env_ok (POST_device gateway_request)).

Definition hub : Device :=
  mkDevice (Some 3) (PyStr "Hub") (Some GATEWAY) "SN-3" PyNone
    (Some IN_STOCK) PyNone PyNone None None None (Some 1000) None.

(** A field update that renames the device and repeats its other
    fields. *)
Definition rename_request : DeviceUpdateRequest.t :=
  DeviceUpdateRequest.mk (PyStr "Probe-2") PyNone (PyStr "Lab")
    (PyDict [("range", PyInt 5)]).

End Sample.

(** ** Further notions used by the statements *)

(** The fields no lifecycle transition assigns: everything but status,
    location, the two transition dates, and [updated_at], which the
    store refreshes on every committed change and which is not
    followed. *)
Definition descriptive_fields_equal (d d' : Device) : Prop :=
  id d' = id d /\ name d' = name d /\ type d' = type d
  /\ serial_number d' = serial_number d /\ description d' = description d
  /\ specifications d' = specifications d
  /\ purchase_date d' = purchase_date d
  /\ created_at d' = created_at d.

(** The location an optional location argument leaves on a device whose
    location was [old]: the argument when it is a non-empty string. *)
Definition location_after (loc : option string) (old : PyVal) : PyVal :=
  match loc with
  | Some l => if (l =? "")%string then old else PyStr l
  | None => old
  end.

(** More sample data. *)
Module MoreSamples.
Import device_controller.

(** The database after the probe was deployed. *)
Definition world_deployed : World :=
  snd (handle Sample.world_one Sample.env_ok
         (PUT_deploy 1 (DeployRequest.mk "Field-7" None))).

Definition probe_deployed : Device :=
  set_deploy_date (Some 1000)
    (set_location (PyStr "Field-7")
       (set_status (Some DEPLOYED) Sample.probe)).

(** Surroundings in which the commit of the DAO method fails. *)
Definition env_commit_fails : Env := mkEnv 1000 false true true.

(** Surroundings in which only the commit of the DAO method goes
    through. *)
Definition env_side_effects_fail : Env := mkEnv 1000 true false false.

End MoreSamples.

(** The requests that hand a message to the publisher. *)
Definition publishing_request (request : device_controller.Request) : bool :=
  match request with
  | device_controller.PUT_reserve _ _
  | device_controller.POST_telemetry _
  | device_controller.POST_events _ => true
  | _ => false
  end.

(** The requests served by the GET routes. *)
Definition get_request (request : device_controller.Request) : bool :=
  match request with
  | device_controller.GET_devices _ _ _ _
  | device_controller.GET_in_stock
  | device_controller.GET_deployed
  | device_controller.GET_maintenance
  | device_controller.GET_device _
  | device_controller.GET_type _ => true
  | _ => false
  end.

(** What identifies a record and is fixed when it is created. *)
Definition identity (d : Device)
    : option Z * string * option DeviceType * option Z * option Z :=
  (id d, serial_number d, type d, purchase_date d, created_at d).

(** The number of rows [DeviceDAO.get_devices_by_status] returns. *)
Definition count_by_status (s : Session) (status : DeviceStatusDto) : nat :=
  match DeviceDAO.get_devices_by_status s status with
  | Return rows => List.length rows
  | Raise _ => 0%nat
  end.

(** [allowed_fields] as a test on a keyword. *)
Definition allowed_keyword (item : string * PyVal) : bool :=
  existsb (String.eqb (fst item)) DeviceDAO.allowed_fields.
(** ** Lemmas on the queries *)

Section Queries.

Lemma one_or_none_some {A : Type} (rows : list A) (row : A) :
  one_or_none rows = Return (Some row) -> rows = [row].
Proof.
  destruct rows as [|a [|b rest]]; simpl; intros H; inversion H; reflexivity.
Qed.

Lemma one_or_none_none {A : Type} (rows : list A) :
  one_or_none rows = Return None -> rows = [].
Proof.
  destruct rows as [|a [|b rest]]; simpl; intros H; inversion H; reflexivity.
Qed.

Lemma id_is_true (i : Z) (d : Device) : id_is i d = true <-> id d = Some i.
Proof.
  unfold id_is. destruct (id d) as [j|]; split; intros H.
  - apply Z.eqb_eq in H. now subst.
  - inversion H. apply Z.eqb_refl.
  - discriminate.
  - discriminate.
Qed.

Lemma filter_singleton_in {A : Type} (p : A -> bool) (l : list A) (x : A) :
  filter p l = [x] -> In x l /\ p x = true.
Proof.
  intros H. apply filter_In. rewrite H. now left.
Qed.

Lemma get_device_by_id_found (s : Session) (i : Z) (d : Device) :
  DeviceDAO.get_device_by_id s i = Return (Some d) ->
  filter (id_is i) (devices s) = [d] /\ In d (devices s) /\ id d = Some i.
Proof.
  unfold DeviceDAO.get_device_by_id. intros H.
  apply one_or_none_some in H. split; [exact H|].
  apply filter_singleton_in in H. destruct H as [Hin Hid].
  split; [exact Hin|]. now apply id_is_true.
Qed.

(** After a flush, a query by key sees the entity in place of its row and
    every other row as before. *)
Lemma filter_flush_update (d' : Device) (i j : Z) (rows : list Device) :
  id d' = Some i ->
  filter (id_is j) (flush_update d' rows) =
  if j =? i then map (fun _ => d') (filter (id_is i) rows)
  else filter (id_is j) rows.
Proof.
  intros Hid. unfold flush_update. rewrite Hid.
  induction rows as [|r rows IH]; simpl.
  - now destruct (j =? i).
  - destruct (id_is i r) eqn:Hr.
    + destruct (Z.eqb_spec j i) as [->|Hne].
      * assert (Hd : id_is i d' = true) by now apply id_is_true.
        rewrite Hd. simpl. now rewrite IH.
      * assert (Hd : id_is j d' = false).
        { unfold id_is. rewrite Hid. now apply Z.eqb_neq. }
        assert (Hr' : id_is j r = false).
        { apply id_is_true in Hr. unfold id_is. rewrite Hr.
          now apply Z.eqb_neq. }
        rewrite Hd, Hr'. exact IH.
    + destruct (Z.eqb_spec j i) as [->|Hne].
      * rewrite Hr. exact IH.
      * destruct (id_is j r); [now rewrite IH | exact IH].
Qed.

Lemma get_after_commit (s : Session) (i j : Z) (d d' : Device) :
  DeviceDAO.get_device_by_id s i = Return (Some d) ->
  id d' = Some i ->
  DeviceDAO.get_device_by_id (snd (DeviceDAO.commit_refresh s true d')) j =
  if j =? i then Return (Some d') else DeviceDAO.get_device_by_id s j.
Proof.
  intros Hget Hid. apply get_device_by_id_found in Hget.
  destruct Hget as [Hf _].
  unfold DeviceDAO.get_device_by_id. simpl.
  rewrite (filter_flush_update d' i j _ Hid).
  destruct (j =? i); [now rewrite Hf | reflexivity].
Qed.

Lemma flush_update_length (d' : Device) (rows : list Device) :
  List.length (flush_update d' rows) = List.length rows.
Proof. unfold flush_update. apply length_map. Qed.

End Queries.

(** ** The invariant is kept by every request *)

Section Invariant.

Lemma NoDup_map_injective {A B : Type} (f : A -> B) (l : list A) (x y : A) :
  NoDup (map f l) -> In x l -> In y l -> f x = f y -> x = y.
Proof.
  induction l as [|a l IH]; simpl; intros Hnd Hx Hy Hf; [contradiction|].
  inversion Hnd as [|? ? Hnotin Hnd']; subst.
  destruct Hx as [->|Hx], Hy as [->|Hy].
  - reflexivity.
  - exfalso. apply Hnotin. rewrite Hf. now apply in_map.
  - exfalso. apply Hnotin. rewrite <- Hf. now apply in_map.
  - now apply IH.
Qed.

Lemma StronglySorted_lt_NoDup (l : list Z) :
  StronglySorted Z.lt l -> NoDup l.
Proof.
  induction 1 as [|a l Hs IH Hall]; constructor; [|exact IH].
  intros Hin. rewrite Forall_forall in Hall. specialize (Hall a Hin). lia.
Qed.

Lemma key_of_id (d : Device) (i : Z) : id d = Some i -> key d = i.
Proof. unfold key. now intros ->. Qed.

(** A flush changes no key and, when keys are distinct, no serial number,
    provided the entity kept the key and serial number of its row. *)
Lemma flush_update_keys (d d' : Device) (rows : list Device) :
  id d' = id d ->
  map key (flush_update d' rows) = map key rows.
Proof.
  intros Hid. unfold flush_update. rewrite map_map. apply map_ext.
  intros r. destruct (id d') as [i|] eqn:Hi; [|reflexivity].
  destruct (id_is i r) eqn:Hr; [|reflexivity].
  apply id_is_true in Hr. now rewrite (key_of_id _ _ Hi), (key_of_id _ _ Hr).
Qed.

Lemma flush_update_serials (d d' : Device) (rows : list Device) :
  NoDup (map key rows) -> In d rows ->
  id d' = id d -> serial_number d' = serial_number d ->
  map serial_number (flush_update d' rows) = map serial_number rows.
Proof.
  intros Hnd Hin Hid Hser. unfold flush_update. rewrite map_map.
  apply map_ext_in. intros r Hr.
  destruct (id d') as [i|] eqn:Hi; [|reflexivity].
  destruct (id_is i r) eqn:Hri; [|reflexivity].
  apply id_is_true in Hri.
  assert (r = d) as ->; [|exact Hser].
  apply (NoDup_map_injective key rows); try assumption.
  symmetry in Hid.
  now rewrite (key_of_id _ _ Hid), (key_of_id _ _ Hri).
Qed.

Lemma flush_update_Forall (P : Device -> Prop) (d' : Device)
    (rows : list Device) :
  Forall P rows -> P d' -> Forall P (flush_update d' rows).
Proof.
  intros Hall Hd. unfold flush_update. apply Forall_map.
  apply Forall_impl with (2 := Hall). intros r Hr.
  destruct (id d'); [|exact Hr]. now destruct (id_is z r).
Qed.

Lemma consistent_commit_refresh (s : Session) (ok : bool) (d d' : Device) :
  consistent s -> In d (devices s) ->
  id d' = id d -> serial_number d' = serial_number d -> status d' <> None ->
  consistent (snd (DeviceDAO.commit_refresh s ok d')).
Proof.
  intros Hc Hin Hid Hser Hst. unfold DeviceDAO.commit_refresh.
  destruct ok; [|exact Hc]. simpl.
  destruct Hc as [Hpos Hk Hinc Hnd Hs Hl].
  assert (Hd : id d = Some (key d) /\ 0 < key d < next_device_id s).
  { rewrite Forall_forall in Hk. now apply Hk. }
  constructor; simpl.
  - exact Hpos.
  - apply flush_update_Forall; [exact Hk|].
    unfold key at 1 2 3. rewrite Hid. exact Hd.
  - now rewrite (flush_update_keys d d').
  - rewrite (flush_update_serials d d'); try assumption.
    now apply StronglySorted_lt_NoDup.
  - now apply flush_update_Forall.
  - exact Hl.
Qed.

Lemma commit_refresh_frame (s : Session) (ok : bool) (d' : Device) :
  next_device_id (snd (DeviceDAO.commit_refresh s ok d')) = next_device_id s
  /\ device_logs (snd (DeviceDAO.commit_refresh s ok d')) = device_logs s.
Proof. unfold DeviceDAO.commit_refresh. now destruct ok. Qed.

Lemma consistent_log_action (s : Session) (ok : bool) (i : Z)
    (act : string) (o n : option string) (by_ : option Z)
    (nt : option string) :
  consistent s -> 0 < i < next_device_id s ->
  consistent (snd (DeviceDAO.log_action s ok i act o n by_ nt)).
Proof.
  intros Hc Hi. unfold DeviceDAO.log_action. destruct ok; [|exact Hc].
  destruct Hc as [Hpos Hk Hinc Hnd Hs Hl]. constructor; simpl; try assumption.
  apply Forall_app. split; [exact Hl|]. now repeat constructor.
Qed.

Lemma StronglySorted_snoc (l : list Z) (x : Z) :
  StronglySorted Z.lt l -> Forall (fun y => y < x) l ->
  StronglySorted Z.lt (l ++ [x]).
Proof.
  induction 1 as [|a l Hs IH Hall]; intros Hlt; simpl.
  - repeat constructor.
  - inversion Hlt; subst. constructor; [now apply IH|].
    apply Forall_app. split; [exact Hall|]. now repeat constructor.
Qed.

Lemma filter_nil_forall {A : Type} (p : A -> bool) (l : list A) :
  filter p l = [] -> forall x, In x l -> p x = false.
Proof.
  intros H x Hin. destruct (p x) eqn:Hp; [|reflexivity].
  assert (Hx : In x (filter p l)) by now apply filter_In.
  rewrite H in Hx. contradiction.
Qed.

Lemma consistent_create_device (s s' : Session) (utcnow : Z) (ok r : bool)
    (device device' : Device) :
  consistent s ->
  DeviceDAO.create_device s utcnow ok device = Return (r, device', s') ->
  consistent s'.
Proof.
  intros Hc. unfold DeviceDAO.create_device.
  destruct (one_or_none _) as [[e|]|] eqn:Hq; simpl; intros H;
    try discriminate.
  - inversion H; now subst.
  - destruct ok; inversion H; subst; [|exact Hc].
    apply one_or_none_none in Hq.
    destruct Hc as [Hpos Hk Hinc Hnd Hs Hl]. constructor; simpl.
    + lia.
    + apply Forall_app. split.
      * apply Forall_impl with (2 := Hk).
        intros d [H1 H2]. split; [exact H1|lia].
      * repeat constructor; unfold key; simpl; lia.
    + rewrite map_app. apply StronglySorted_snoc; [exact Hinc|].
      apply Forall_map. apply Forall_impl with (2 := Hk).
      intros d [_ H2]. unfold key at 2. simpl. lia.
    + rewrite map_app. simpl. apply NoDup_app.
      * exact Hnd.
      * repeat constructor. intros [].
      * intros sn Hin [<-|[]]. apply in_map_iff in Hin.
        destruct Hin as [d [Hd Hin]].
        pose proof (filter_nil_forall _ _ Hq d Hin) as Hf.
        unfold serial_is in Hf. rewrite Hd, String.eqb_refl in Hf.
        discriminate.
    + apply Forall_app. split; [exact Hs|].
      repeat constructor. simpl. discriminate.
    + apply Forall_impl with (2 := Hl). intros l Hlt. lia.
Qed.

Lemma setattr_fixed (d : Device) (field : string) (value : PyVal) :
  fixed_fields_equal d (DeviceDAO.setattr d field value).
Proof.
  unfold DeviceDAO.setattr, fixed_fields_equal.
  repeat match goal with
         | |- context [if ?b then _ else _] => destruct b
         end; simpl; repeat split; reflexivity.
Qed.

Lemma fixed_fields_equal_refl (d : Device) : fixed_fields_equal d d.
Proof. unfold fixed_fields_equal. repeat split; reflexivity. Qed.

Lemma fixed_fields_equal_trans (a b c : Device) :
  fixed_fields_equal a b -> fixed_fields_equal b c -> fixed_fields_equal a c.
Proof.
  unfold fixed_fields_equal.
  intros (?&?&?&?&?&?&?&?) (?&?&?&?&?&?&?&?). repeat split; congruence.
Qed.

Lemma assign_allowed_fixed (d : Device) (item : string * PyVal) :
  fixed_fields_equal d (DeviceDAO.assign_allowed d item).
Proof.
  destruct item as [field value]. unfold DeviceDAO.assign_allowed.
  destruct (_ && _); [apply setattr_fixed | apply fixed_fields_equal_refl].
Qed.

Lemma apply_kwargs_fixed (kwargs : list (string * PyVal)) (d : Device) :
  fixed_fields_equal d (apply_kwargs kwargs d).
Proof.
  unfold apply_kwargs. revert d.
  induction kwargs as [|item kwargs IH]; intros d; cbn [fold_left].
  - apply fixed_fields_equal_refl.
  - eapply fixed_fields_equal_trans; [apply (assign_allowed_fixed d item)|].
    apply IH.
Qed.

Lemma keeps_refl (s : Session) : consistent s -> keeps s s.
Proof. intros Hc. split; [exact Hc | split; reflexivity]. Qed.

Lemma keeps_commit (s : Session) (ok : bool) (d d' : Device)
    (r : option Device) (s' : Session) :
  consistent s -> In d (devices s) ->
  id d' = id d -> serial_number d' = serial_number d -> status d' <> None ->
  DeviceDAO.commit_refresh s ok d' = (r, s') ->
  keeps s s'.
Proof.
  intros Hc Hin Hid Hser Hst Heq.
  assert (Hs' : s' = snd (DeviceDAO.commit_refresh s ok d')) by now rewrite Heq.
  subst s'. split; [now apply (consistent_commit_refresh s ok d d')|].
  apply commit_refresh_frame.
Qed.

Ltac dao_found Hq d Hin :=
  match goal with
  | |- context [one_or_none ?rows] =>
      destruct (one_or_none rows) as [[d|]|] eqn:Hq; simpl;
      [ apply one_or_none_some, filter_singleton_in in Hq;
        destruct Hq as [Hin _]
      | | ]
  end.

Ltac dao_keeps Hc d Hin :=
  let H := fresh "H" in
  intros H;
  first
    [ discriminate H
    | inversion H; subst; now apply keeps_refl
    | inversion H as [H'];
      apply (keeps_commit _ _ d _ _ _ Hc Hin) in H';
      [ exact H' | reflexivity | reflexivity | simpl; try discriminate ] ].

Lemma status_of_row (s : Session) (d : Device) :
  consistent s -> In d (devices s) -> status d <> None.
Proof.
  intros Hc Hin. pose proof (status_assigned s Hc) as Hs.
  rewrite Forall_forall in Hs. now apply Hs.
Qed.

Lemma keeps_update_device (s s' : Session) (ok : bool) (i : Z)
    (kwargs : list (string * PyVal)) (r : option Device) :
  consistent s ->
  DeviceDAO.update_device s ok i kwargs = Return (r, s') -> keeps s s'.
Proof.
  intros Hc. unfold DeviceDAO.update_device.
  dao_found Hq d Hin; [| dao_keeps Hc d Hin | dao_keeps Hc d Hin].
  fold (apply_kwargs kwargs d).
  pose proof (apply_kwargs_fixed kwargs d) as (Hid & _ & Hser & Hst & _).
  intros H. inversion H as [H'].
  apply (keeps_commit _ _ d _ _ _ Hc Hin) in H'; try assumption.
  rewrite Hst. now apply (status_of_row s).
Qed.

Lemma keeps_update_device_status (s s' : Session) (ok : bool) (i : Z)
    (st : DeviceStatusDto) (loc : option string) (r : option Device) :
  consistent s ->
  DeviceDAO.update_device_status s ok i st loc = Return (r, s') ->
  keeps s s'.
Proof.
  intros Hc. unfold DeviceDAO.update_device_status.
  dao_found Hq d Hin; [| dao_keeps Hc d Hin | dao_keeps Hc d Hin].
  destruct (DeviceStatus_call _); simpl; [|discriminate].
  destruct loc as [l|]; [destruct (truthy_str (Some l))|];
    dao_keeps Hc d Hin.
Qed.

Lemma keeps_delete_device (s s' : Session) (ok : bool) (i : Z) (r : bool) :
  consistent s ->
  DeviceDAO.delete_device s ok i = Return (r, s') -> keeps s s'.
Proof.
  intros Hc. unfold DeviceDAO.delete_device.
  dao_found Hq d Hin; [| dao_keeps Hc d Hin | dao_keeps Hc d Hin].
  destruct (DeviceDAO.commit_refresh _ _ _) as [[x|] sx] eqn:He;
    intros H; inversion H; subst;
    apply (keeps_commit _ _ d _ _ _ Hc Hin) in He;
    try exact He; try reflexivity; simpl; discriminate.
Qed.

Lemma keeps_deploy_device (s s' : Session) (utcnow : Z) (ok : bool)
    (i : Z) (loc : string) (r : option Device) :
  consistent s ->
  DeviceDAO.deploy_device s utcnow ok i loc = Return (r, s') -> keeps s s'.
Proof.
  intros Hc. unfold DeviceDAO.deploy_device.
  dao_found Hq d Hin; [| dao_keeps Hc d Hin | dao_keeps Hc d Hin].
  destruct (negb _); dao_keeps Hc d Hin.
Qed.

Lemma keeps_recall_device (s s' : Session) (ok : bool) (i : Z)
    (loc : option string) (r : option Device) :
  consistent s ->
  DeviceDAO.recall_device s ok i loc = Return (r, s') -> keeps s s'.
Proof.
  intros Hc. unfold DeviceDAO.recall_device.
  dao_found Hq d Hin; [| dao_keeps Hc d Hin | dao_keeps Hc d Hin].
  destruct (negb _); [dao_keeps Hc d Hin|].
  destruct loc as [l|]; [destruct (truthy_str (Some l))|];
    dao_keeps Hc d Hin.
Qed.

Lemma keeps_send_to_maintenance (s s' : Session) (utcnow : Z) (ok : bool)
    (i : Z) (r : option Device) :
  consistent s ->
  DeviceDAO.send_to_maintenance s utcnow ok i = Return (r, s') -> keeps s s'.
Proof.
  intros Hc. unfold DeviceDAO.send_to_maintenance.
  dao_found Hq d Hin; [| dao_keeps Hc d Hin | dao_keeps Hc d Hin].
  dao_keeps Hc d Hin.
Qed.

Lemma keeps_reserve_device (s s' : Session) (ok : bool) (i : Z)
    (r : option Device) :
  consistent s ->
  DeviceDAO.reserve_device s ok i = Return (r, s') -> keeps s s'.
Proof.
  intros Hc. unfold DeviceDAO.reserve_device.
  dao_found Hq d Hin; [| dao_keeps Hc d Hin | dao_keeps Hc d Hin].
  destruct (negb _); dao_keeps Hc d Hin.
Qed.

End Invariant.

(** ** Every reachable world is consistent *)

Section Reachable.

Import device_controller.

Lemma found_key_bounds (s : Session) (i : Z) (d : Device) :
  consistent s -> DeviceDAO.get_device_by_id s i = Return (Some d) ->
  0 < i < next_device_id s.
Proof.
  intros Hc Hget. apply get_device_by_id_found in Hget.
  destruct Hget as (_ & Hin & Hid).
  pose proof (keys_assigned s Hc) as Hk. rewrite Forall_forall in Hk.
  destruct (Hk d Hin) as [_ Hb]. now rewrite (key_of_id d i Hid) in Hb.
Qed.

Lemma consistent_log_transition (w : World) (env : Env) (s' : Session)
    (i : Z) (act : string) (o n nt : option string) :
  keeps (session w) s' -> 0 < i < next_device_id (session w) ->
  consistent (session (log_transition w env s' i act o n nt)).
Proof.
  intros (Hc & Hnext & _) Hi. unfold log_transition. simpl.
  apply consistent_log_action; [exact Hc | now rewrite Hnext].
Qed.

Lemma consistent_initial : consistent (session initial_world).
Proof.
  constructor; simpl; constructor.
Qed.

Ltac transition_case Hc lemma :=
  unfold try_dao;
  match goal with
  | |- context [DeviceDAO.get_device_by_id ?s ?i] =>
      destruct (DeviceDAO.get_device_by_id s i) as [[old|]|] eqn:Hold;
      cbn [snd]; try exact Hc;
      match goal with
      | |- context [match ?m with Return _ => _ | Raise _ => _ end] =>
          destruct m as [[[d'|] s']|] eqn:Hop; cbn [snd]; try exact Hc;
          apply lemma in Hop; try exact Hc;
          [ try (destruct (publish _ _ _); cbn [session]);
            apply consistent_log_transition;
            [ exact Hop | exact (found_key_bounds _ _ _ Hc Hold) ]
          | exact (proj1 Hop) ]
      end
  end.

Lemma consistent_handle (w : World) (env : Env) (request : Request) :
  consistent (session w) ->
  consistent (session (snd (handle w env request))).
Proof.
  intros Hc. destruct request; cbn [handle].
  - unfold get_all_devices, try_dao.
    destruct (_ || _); [exact Hc|].
    destruct (DeviceDAO.get_all_devices _ _ _ _ _) as [[rows total]|];
      exact Hc.
  - unfold get_in_stock_devices, try_dao.
    destruct (DeviceDAO.get_devices_by_status _ _); exact Hc.
  - unfold get_deployed_devices, try_dao.
    destruct (DeviceDAO.get_devices_by_status _ _); exact Hc.
  - unfold get_maintenance_devices, try_dao.
    destruct (DeviceDAO.get_devices_by_status _ _); exact Hc.
  - unfold get_device_by_id, try_dao.
    destruct (DeviceDAO.get_device_by_id _ _) as [[d|]|]; exact Hc.
  - unfold create_device, try_dao.
    destruct (DeviceType_call _) as [t|]; [|exact Hc].
    destruct (DeviceDAO.create_device _ _ _ _) as [[[r d] s']|] eqn:Hop;
      [|exact Hc].
    apply consistent_create_device in Hop; [|exact Hc].
    now destruct (negb r).
  - unfold update_device, try_dao.
    destruct (DeviceDAO.update_device _ _ _ _) as [[[d|] s']|] eqn:Hop;
      try exact Hc; apply keeps_update_device in Hop;
      try exact Hc; exact (proj1 Hop).
  - unfold delete_device, try_dao.
    destruct (DeviceDAO.delete_device _ _ _) as [[r s']|] eqn:Hop;
      try exact Hc.
    apply keeps_delete_device in Hop; [|exact Hc].
    destruct (negb r); exact (proj1 Hop).
  - unfold update_device_status.
    transition_case Hc keeps_update_device_status.
  - unfold deploy_device. transition_case Hc keeps_deploy_device.
  - unfold recall_device. transition_case Hc keeps_recall_device.
  - unfold send_to_maintenance.
    transition_case Hc keeps_send_to_maintenance.
  - unfold reserve_device. transition_case Hc keeps_reserve_device.
  - unfold receive_telemetry, try_dao.
    destruct (DeviceDAO.get_device_by_id _ _) as [[d|]|];
      try exact Hc.
    destruct (negb (status_is _ _)); [exact Hc|].
    unfold publish. destruct (negb _); exact Hc.
  - destruct (receive_event _ _ _). exact Hc.
  - unfold get_device_type, try_dao.
    destruct (DeviceDAO.get_device_by_id _ _) as [[d|]|]; exact Hc.
Qed.

Lemma reachable_consistent (w : World) :
  reachable w -> consistent (session w).
Proof.
  induction 1 as [|w env request _ IH].
  - exact consistent_initial.
  - now apply consistent_handle.
Qed.

End Reachable.

(** ** Serial numbers are unique *)

Section SerialNumbers.

Import device_controller.

Lemma filter_unique {A B : Type} (f : A -> B) (p : A -> bool)
    (l : list A) (x : A) :
  NoDup (map f l) -> In x l -> p x = true ->
  (forall y, In y l -> p y = true -> f y = f x) ->
  filter p l = [x].
Proof.
  induction l as [|a l IH]; simpl; intros Hnd Hin Hp Hsame; [contradiction|].
  inversion Hnd as [|? ? Hnotin Hnd']; subst.
  destruct Hin as [->|Hin].
  - rewrite Hp. f_equal.
    destruct (filter p l) as [|y rest] eqn:Hf; [reflexivity|].
    exfalso. apply Hnotin.
    assert (Hy : In y (filter p l)) by (rewrite Hf; now left).
    apply filter_In in Hy. destruct Hy as [Hy Hpy].
    rewrite <- (Hsame y (or_intror Hy) Hpy). now apply in_map.
  - destruct (p a) eqn:Hpa.
    + exfalso. apply Hnotin.
      rewrite (Hsame a (or_introl eq_refl) Hpa). now apply in_map.
    + apply IH; try assumption.
      intros y Hy. apply Hsame. now right.
Qed.

Lemma serial_is_true (sn : string) (d : Device) :
  serial_is sn d = true <-> serial_number d = sn.
Proof. unfold serial_is. apply String.eqb_eq. Qed.

Lemma filter_serial_unique (s : Session) (d : Device) :
  consistent s -> In d (devices s) ->
  filter (serial_is (serial_number d)) (devices s) = [d].
Proof.
  intros Hc Hin. apply (filter_unique serial_number).
  - exact (serials_unique s Hc).
  - exact Hin.
  - now apply serial_is_true.
  - intros y _ Hy. now apply serial_is_true.
Qed.

Lemma at_most_one_per_serial (s : Session) (sn : string) :
  consistent s ->
  (List.length (filter (serial_is sn) (devices s)) <= 1)%nat.
Proof.
  intros Hc. destruct (filter (serial_is sn) (devices s)) as [|d rest] eqn:Hf.
  - simpl. lia.
  - assert (Hd : In d (filter (serial_is sn) (devices s)))
      by (rewrite Hf; now left).
    apply filter_In in Hd. destruct Hd as [Hin Hsn].
    apply serial_is_true in Hsn. subst sn.
    rewrite (filter_serial_unique s d Hc Hin) in Hf.
    inversion Hf. simpl. lia.
Qed.

Lemma with_session_same (w : World) : with_session w (session w) = w.
Proof. now destruct w. Qed.

Lemma DeviceType_call_dto (t : DeviceTypeDto) :
  exists t', DeviceType_call (DeviceTypeDto_value t) = Return t'.
Proof. destruct t; eexists; reflexivity. Qed.

Lemma DeviceStatus_call_dto (st : DeviceStatusDto) :
  exists st', DeviceStatus_call (DeviceStatusDto_value st) = Return st'
              /\ DeviceStatus_value st' = DeviceStatusDto_value st.
Proof. destruct st; eexists; split; reflexivity. Qed.

(** In any session at all, [create_device] never reports success and
    never changes the session when a stored device has the serial
    number. *)
Lemma create_device_never_duplicates (s : Session) (utcnow : Z) (ok : bool)
    (device existing : Device) :
  In existing (devices s) ->
  serial_number device = serial_number existing ->
  forall r device' s',
    DeviceDAO.create_device s utcnow ok device = Return (r, device', s') ->
    r = false /\ device' = device /\ s' = s.
Proof.
  intros Hin Hser r device' s'. unfold DeviceDAO.create_device.
  destruct (filter (serial_is (serial_number device)) (devices s))
    as [|x [|y rest]] eqn:Hf; cbn [one_or_none bind].
  - pose proof (filter_nil_forall _ _ Hf existing Hin) as Hn.
    unfold serial_is in Hn. rewrite Hser, String.eqb_refl in Hn.
    discriminate.
  - intros H. inversion H. tauto.
  - discriminate.
Qed.

(** C1.  In every world the service can reach, a create request whose
    serial number is that of a stored device fails: the DAO returns False
    and the endpoint answers 400 "Device with this serial number already
    exists", and the database is left exactly as it was, so no second
    record with that serial number is inserted.  Hence every reachable
    world holds at most one device per serial number.  Even in a session
    that is not reachable the DAO neither reports success nor changes
    anything when the serial number is stored. *)
Theorem create_device_rejects_duplicate_serial
    (w : World) (env : Env) (request : DeviceRequest.t)
    (utcnow : Z) (commit_ok : bool) (device existing : Device) :
  reachable w ->
  In existing (devices (session w)) ->
  serial_number device = serial_number existing ->
  DeviceRequest.serial_number request = serial_number existing ->
  DeviceDAO.create_device (session w) utcnow commit_ok device
  = Return (false, device, session w)
  /\ create_device w env request
     = (HTTPException 400 "Device with this serial number already exists", w)
  /\ (forall serial : string,
        (List.length (filter (serial_is serial) (devices (session w)))
         <= 1)%nat)
  /\ (forall (s : Session) (stored : Device) r device' s',
        In stored (devices s) ->
        serial_number stored = serial_number device ->
        DeviceDAO.create_device s utcnow commit_ok device
        = Return (r, device', s') ->
        r = false /\ s' = s).
Proof.
  intros Hr Hin Hdev Hreq.
  pose proof (reachable_consistent w Hr) as Hc.
  split; [|split; [|split]]; cycle 3.
  { intros s stored r device' s' Hs Hst Hrun.
    destruct (create_device_never_duplicates s utcnow commit_ok device
                stored Hs (eq_sym Hst) r device' s' Hrun) as (? & _ & ?).
    now split. }
  - unfold DeviceDAO.create_device.
    rewrite Hdev, (filter_serial_unique _ _ Hc Hin). reflexivity.
  - unfold create_device, try_dao.
    destruct (DeviceType_call_dto (DeviceRequest.type request)) as [t ->].
    unfold DeviceDAO.create_device. cbn [serial_number].
    rewrite Hreq, (filter_serial_unique _ _ Hc Hin). simpl.
    now rewrite with_session_same.
  - intros serial. now apply at_most_one_per_serial.
Qed.

Lemma create_device_rejects_duplicate_serial_witness :
  DeviceDAO.create_device (session Sample.world_one) 2000 true
    Sample.probe_again
  = Return (false, Sample.probe_again, session Sample.world_one)
  /\ create_device Sample.world_one Sample.env_ok Sample.probe_request
     = (HTTPException 400 "Device with this serial number already exists",
        Sample.world_one)
  /\ forall serial : string,
       (List.length
          (filter (serial_is serial) (devices (session Sample.world_one)))
        <= 1)%nat.
Proof.
  refine (let H := create_device_rejects_duplicate_serial Sample.world_one
                     Sample.env_ok Sample.probe_request 2000 true
                     Sample.probe_again Sample.probe _ _ _ _ in
          conj (proj1 H) (conj (proj1 (proj2 H)) (proj1 (proj2 (proj2 H))))).
  - exact (reachable_handle initial_world Sample.env_ok
             (POST_device Sample.probe_request) reachable_initial).
  - simpl. left. reflexivity.
  - reflexivity.
  - reflexivity.
Defined.

End SerialNumbers.

(** ** The guarded transitions: reserve and deploy *)

Section Transitions.

Import device_controller.

Lemma status_is_true (st : DeviceStatus) (d : Device) :
  status_is st d = true <-> status d = Some st.
Proof.
  unfold status_is. destruct (status d) as [st'|]; split; intros H;
    try discriminate.
  - destruct st', st; simpl in H; try discriminate; reflexivity.
  - inversion H. now destruct st.
Qed.

Lemma status_in_deployable (d : Device) :
  DeviceDAO.status_in d [IN_STOCK; RESERVED; MAINTENANCE] = true <->
  status d = Some IN_STOCK \/ status d = Some RESERVED
  \/ status d = Some MAINTENANCE.
Proof.
  unfold DeviceDAO.status_in.
  destruct (status d) as [[]|]; simpl; split; intros H;
    try discriminate; try reflexivity; try tauto;
    destruct H as [H|[H|H]]; discriminate.
Qed.

(** What a committed flush of [d'] in place of the row [d] with key [i]
    does to the session: that row and nothing else. *)
Lemma commit_effect (s : Session) (i : Z) (d d' : Device) :
  DeviceDAO.get_device_by_id s i = Return (Some d) ->
  id d' = Some i ->
  let s' := snd (DeviceDAO.commit_refresh s true d') in
  DeviceDAO.get_device_by_id s' i = Return (Some d')
  /\ (forall j, j <> i ->
        DeviceDAO.get_device_by_id s' j = DeviceDAO.get_device_by_id s j)
  /\ device_logs s' = device_logs s
  /\ next_device_id s' = next_device_id s
  /\ List.length (devices s') = List.length (devices s).
Proof.
  intros Hget Hid s'. split; [|split; [|split; [|split]]].
  - unfold s'. rewrite (get_after_commit s i i d d' Hget Hid).
    now rewrite Z.eqb_refl.
  - intros j Hj. unfold s'. rewrite (get_after_commit s i j d d' Hget Hid).
    apply Z.eqb_neq in Hj. now rewrite Hj.
  - reflexivity.
  - reflexivity.
  - apply flush_update_length.
Qed.

Lemma reserve_device_eq (s : Session) (ok : bool) (i : Z) (d : Device) :
  DeviceDAO.get_device_by_id s i = Return (Some d) ->
  DeviceDAO.reserve_device s ok i =
  Return (if status_is IN_STOCK d
          then DeviceDAO.commit_refresh s ok (set_status (Some RESERVED) d)
          else (None, s)).
Proof.
  unfold DeviceDAO.get_device_by_id, DeviceDAO.reserve_device.
  intros ->. cbn [bind].
  now destruct (status_is IN_STOCK d).
Qed.

Lemma deploy_device_eq (s : Session) (utcnow : Z) (ok : bool) (i : Z)
    (loc : string) (d : Device) :
  DeviceDAO.get_device_by_id s i = Return (Some d) ->
  DeviceDAO.deploy_device s utcnow ok i loc =
  Return (if DeviceDAO.status_in d [IN_STOCK; RESERVED; MAINTENANCE]
          then DeviceDAO.commit_refresh s ok
                 (set_deploy_date (Some utcnow)
                    (set_location (PyStr loc)
                       (set_status (Some DEPLOYED) d)))
          else (None, s)).
Proof.
  unfold DeviceDAO.get_device_by_id, DeviceDAO.deploy_device.
  intros ->. cbn [bind].
  now destruct (DeviceDAO.status_in d _).
Qed.

(** The location a recall leaves on the device. *)
Lemma recall_device_eq (s : Session) (ok : bool) (i : Z)
    (loc : option string) (d : Device) :
  DeviceDAO.get_device_by_id s i = Return (Some d) ->
  DeviceDAO.recall_device s ok i loc =
  Return (if status_is DEPLOYED d
          then DeviceDAO.commit_refresh s ok
                 (set_deploy_date None
                    (match loc with
                     | Some l =>
                         if truthy_str loc
                         then set_location (PyStr l)
                                (set_status (Some IN_STOCK) d)
                         else set_status (Some IN_STOCK) d
                     | None => set_status (Some IN_STOCK) d
                     end))
          else (None, s)).
Proof.
  unfold DeviceDAO.get_device_by_id, DeviceDAO.recall_device.
  intros ->. cbn [bind].
  now destruct (status_is DEPLOYED d).
Qed.

Lemma send_to_maintenance_eq (s : Session) (utcnow : Z) (ok : bool)
    (i : Z) (d : Device) :
  DeviceDAO.get_device_by_id s i = Return (Some d) ->
  DeviceDAO.send_to_maintenance s utcnow ok i =
  Return (DeviceDAO.commit_refresh s ok
            (set_last_maintenance_date (Some utcnow)
               (set_status (Some MAINTENANCE) d))).
Proof.
  unfold DeviceDAO.get_device_by_id, DeviceDAO.send_to_maintenance.
  now intros ->.
Qed.

Lemma delete_device_eq (s : Session) (ok : bool) (i : Z) (d : Device) :
  DeviceDAO.get_device_by_id s i = Return (Some d) ->
  DeviceDAO.delete_device s ok i =
  Return (ok, snd (DeviceDAO.commit_refresh s ok
                     (set_status (Some RETIRED) d))).
Proof.
  unfold DeviceDAO.get_device_by_id, DeviceDAO.delete_device.
  intros ->. cbn [bind]. unfold DeviceDAO.commit_refresh. now destruct ok.
Qed.

(** A query by key looks at the [devices] table only. *)
Lemma get_device_by_id_devices (s1 s2 : Session) (i : Z) :
  devices s1 = devices s2 ->
  DeviceDAO.get_device_by_id s1 i = DeviceDAO.get_device_by_id s2 i.
Proof. unfold DeviceDAO.get_device_by_id. now intros ->. Qed.

Lemma log_action_devices (s : Session) (ok : bool) (i : Z) (act : string)
    (o n : option string) (by_ : option Z) (nt : option string) :
  devices (snd (DeviceDAO.log_action s ok i act o n by_ nt)) = devices s.
Proof. unfold DeviceDAO.log_action. now destruct ok. Qed.

(** C2.  For a stored device, reserve succeeds exactly when the status is
    in_stock (the store committing): the DAO returns the device with its
    status set to reserved and every other field as before, no other row,
    no audit entry and no key counter is touched by the DAO call; from
    any other status the DAO returns None and the endpoint answers 400
    with the world unchanged.  After a successful reserve, a second
    reserve of the same device answers 400 and changes nothing. *)
Theorem reserve_device_only_from_in_stock
    (w : World) (env env2 : Env) (i : Z) (d : Device)
    (req req2 : ReserveRequest.t) :
  DeviceDAO.get_device_by_id (session w) i = Return (Some d) ->
  let s := session w in
  let d' := set_status (Some RESERVED) d in
  let s' := snd (DeviceDAO.commit_refresh s true d') in
  let illegal :=
    HTTPException 400
      "Device cannot be reserved. It must be in 'in_stock' status." in
  ((exists d1 s1, DeviceDAO.reserve_device s true i = Return (Some d1, s1))
   <-> status d = Some IN_STOCK)
  /\ (status d = Some IN_STOCK ->
      DeviceDAO.reserve_device s true i = Return (Some d', s')
      /\ DeviceDAO.get_device_by_id s' i = Return (Some d')
      /\ (forall j, j <> i ->
            DeviceDAO.get_device_by_id s' j = DeviceDAO.get_device_by_id s j)
      /\ device_logs s' = device_logs s
      /\ next_device_id s' = next_device_id s
      /\ List.length (devices s') = List.length (devices s))
  /\ (status d <> Some IN_STOCK ->
      (forall ok, DeviceDAO.reserve_device s ok i = Return (None, s))
      /\ reserve_device w env i req = (illegal, w))
  /\ (status d = Some IN_STOCK -> env_commit_ok env = true ->
      fst (reserve_device w env i req)
      = Ok (ActionResponse true ("Device " ++ str i ++ " reserved")%string
              (Some d'))
      /\ reserve_device (snd (reserve_device w env i req)) env2 i req2
         = (illegal, snd (reserve_device w env i req))).
Proof.
  intros Hget s d' s' illegal. subst s. set (s := session w) in *.
  assert (Hid : id d' = Some i)
    by (apply get_device_by_id_found in Hget; tauto).
  pose proof (reserve_device_eq s true i d Hget) as Heq.
  split; [|split; [|split]].
  - rewrite Heq. split.
    + intros (d1 & s1 & H). apply status_is_true.
      destruct (status_is IN_STOCK d); [reflexivity | discriminate].
    + intros H. apply status_is_true in H. rewrite H.
      now exists d', s'.
  - intros H. apply status_is_true in H. rewrite Heq, H.
    split; [reflexivity|]. exact (commit_effect s i d d' Hget Hid).
  - intros H.
    assert (Hn : status_is IN_STOCK d = false).
    { destruct (status_is IN_STOCK d) eqn:E; [|reflexivity].
      apply status_is_true in E. contradiction. }
    split.
    + intros ok. now rewrite (reserve_device_eq s ok i d Hget), Hn.
    + unfold reserve_device, try_dao. fold s. rewrite Hget.
      rewrite (reserve_device_eq s _ i d Hget), Hn.
      unfold illegal, s. now rewrite with_session_same.
  - intros H Hok. apply status_is_true in H.
    unfold reserve_device at 1 3 4, try_dao. fold s. rewrite Hget.
    rewrite (reserve_device_eq s _ i d Hget), H, Hok.
    cbn [DeviceDAO.commit_refresh fst snd publish].
    split; [reflexivity|].
    match goal with
    | |- reserve_device ?w1 _ _ _ = _ =>
        assert (Hget1 : DeviceDAO.get_device_by_id (session w1) i
                        = Return (Some d'))
    end.
    { cbn [session]. unfold log_transition. cbn [session with_session].
      rewrite (get_device_by_id_devices _ _ i (log_action_devices _ _ _ _ _ _ _ _)).
      exact (proj1 (commit_effect s i d d' Hget Hid)). }
    unfold reserve_device, try_dao. rewrite Hget1.
    rewrite (reserve_device_eq _ _ i d' Hget1).
    reflexivity.
Qed.

Lemma reserve_device_only_from_in_stock_witness :
  DeviceDAO.get_device_by_id (session Sample.world_one) 1
  = Return (Some Sample.probe)
  /\ fst (reserve_device Sample.world_one Sample.env_ok 1
            (ReserveRequest.mk None))
     = Ok (ActionResponse true "Device 1 reserved"
             (Some (set_status (Some RESERVED) Sample.probe)))
  /\ fst (reserve_device
            (snd (reserve_device Sample.world_one Sample.env_ok 1
                    (ReserveRequest.mk None)))
            Sample.env_ok 1 (ReserveRequest.mk (Some "again")))
     = HTTPException 400
         "Device cannot be reserved. It must be in 'in_stock' status.".
Proof.
  assert (Hget : DeviceDAO.get_device_by_id (session Sample.world_one) 1
                 = Return (Some Sample.probe)) by reflexivity.
  split; [exact Hget|].
  destruct (reserve_device_only_from_in_stock Sample.world_one Sample.env_ok
              Sample.env_ok 1 Sample.probe (ReserveRequest.mk None)
              (ReserveRequest.mk (Some "again")) Hget) as (_ & _ & _ & H).
  destruct (H eq_refl eq_refl) as [H1 H2].
  split; [exact H1 | now rewrite H2].
Defined.

(** C3.  For a stored device, deploy succeeds exactly when the status is
    in_stock, reserved or maintenance (the store committing); on success
    the stored device has status deployed, the requested location and
    [deploy_date] set to the clock reading, every other field as before;
    from any other status the DAO returns None, the endpoint answers 400
    and the world, the device included, is unchanged. *)
Theorem deploy_device_allowed_sources
    (w : World) (env : Env) (i : Z) (d : Device) (req : DeployRequest.t) :
  DeviceDAO.get_device_by_id (session w) i = Return (Some d) ->
  let s := session w in
  let utcnow := env_utcnow env in
  let loc := DeployRequest.location req in
  let d' :=
    set_deploy_date (Some utcnow)
      (set_location (PyStr loc) (set_status (Some DEPLOYED) d)) in
  let s' := snd (DeviceDAO.commit_refresh s true d') in
  let allowed :=
    status d = Some IN_STOCK \/ status d = Some RESERVED
    \/ status d = Some MAINTENANCE in
  ((exists d1 s1,
      DeviceDAO.deploy_device s utcnow true i loc = Return (Some d1, s1))
   <-> allowed)
  /\ (allowed ->
      DeviceDAO.deploy_device s utcnow true i loc = Return (Some d', s')
      /\ status d' = Some DEPLOYED /\ location d' = PyStr loc
      /\ deploy_date d' = Some utcnow
      /\ DeviceDAO.get_device_by_id s' i = Return (Some d')
      /\ (env_commit_ok env = true ->
          fst (deploy_device w env i req)
          = Ok (ActionResponse true
                  ("Device " ++ str i ++ " deployed to " ++ loc)%string
                  (Some d'))))
  /\ (~ allowed ->
      (forall ok,
         DeviceDAO.deploy_device s utcnow ok i loc = Return (None, s))
      /\ deploy_device w env i req
         = (HTTPException 400
              "Device cannot be deployed. It must be in 'in_stock', 'reserved', or 'maintenance' status.",
            w)
      /\ DeviceDAO.get_device_by_id
           (session (snd (deploy_device w env i req))) i
         = Return (Some d)).
Proof.
  intros Hget s utcnow loc d' s' allowed.
  subst s. set (s := session w) in *.
  assert (Hid : id d' = Some i)
    by (apply get_device_by_id_found in Hget; tauto).
  pose proof (deploy_device_eq s utcnow true i loc d Hget) as Heq.
  pose proof (status_in_deployable d) as Hall. fold allowed in Hall.
  split; [|split].
  - rewrite Heq. split.
    + intros (d1 & s1 & H). apply Hall.
      destruct (DeviceDAO.status_in d _) in H |- *;
        [reflexivity | discriminate].
    + intros H. apply Hall in H. rewrite H. now exists d', s'.
  - intros H. apply Hall in H. rewrite Heq, H.
    split; [reflexivity|]. repeat (split; [reflexivity|]).
    split; [exact (proj1 (commit_effect s i d d' Hget Hid))|].
    intros Hok. unfold deploy_device, try_dao. fold s. rewrite Hget.
    rewrite (deploy_device_eq s _ _ i _ d Hget), H, Hok. reflexivity.
  - intros H.
    assert (Hn : DeviceDAO.status_in d [IN_STOCK; RESERVED; MAINTENANCE]
                 = false).
    { apply not_true_is_false. intros E. apply H. now apply Hall. }
    assert (Hc : deploy_device w env i req
                 = (HTTPException 400
                      "Device cannot be deployed. It must be in 'in_stock', 'reserved', or 'maintenance' status.",
                    w)).
    { unfold deploy_device, try_dao. fold s. rewrite Hget.
      rewrite (deploy_device_eq s _ _ i _ d Hget), Hn.
      unfold s. now rewrite with_session_same. }
    split; [|split].
    + intros ok. now rewrite (deploy_device_eq s utcnow ok i loc d Hget), Hn.
    + exact Hc.
    + rewrite Hc. exact Hget.
Qed.

Lemma deploy_device_allowed_sources_witness :
  DeviceDAO.get_device_by_id (session Sample.world_one) 1
  = Return (Some Sample.probe)
  /\ ((exists d1 s1,
         DeviceDAO.deploy_device (session Sample.world_one) 1000 true 1
           "Warehouse-A" = Return (Some d1, s1))
      <-> (status Sample.probe = Some IN_STOCK
           \/ status Sample.probe = Some RESERVED
           \/ status Sample.probe = Some MAINTENANCE)).
Proof.
  assert (Hget : DeviceDAO.get_device_by_id (session Sample.world_one) 1
                 = Return (Some Sample.probe)) by reflexivity.
  split; [exact Hget|].
  exact (proj1 (deploy_device_allowed_sources Sample.world_one Sample.env_ok
                  1 Sample.probe (DeployRequest.mk "Warehouse-A" None)
                  Hget)).
Defined.

End Transitions.

(** ** The unguarded transitions: maintenance and retire *)

Section Unguarded.

Import device_controller.

(** C5.  For a stored device in any status whatever, the store
    committing: send_to_maintenance succeeds, the stored device gets
    status maintenance and [last_maintenance_date] set to the clock
    reading; retire (delete) succeeds and sets status retired without
    removing the row, so that afterwards the device is still returned by
    a lookup by id, with status retired. *)
Theorem maintenance_and_retire_from_any_status
    (w : World) (env : Env) (i : Z) (d : Device)
    (req : MaintenanceRequest.t) :
  DeviceDAO.get_device_by_id (session w) i = Return (Some d) ->
  env_commit_ok env = true ->
  let s := session w in
  let utcnow := env_utcnow env in
  let dm :=
    set_last_maintenance_date (Some utcnow)
      (set_status (Some MAINTENANCE) d) in
  let dr := set_status (Some RETIRED) d in
  (DeviceDAO.send_to_maintenance s utcnow true i
   = Return (Some dm, snd (DeviceDAO.commit_refresh s true dm))
   /\ status dm = Some MAINTENANCE
   /\ last_maintenance_date dm = Some utcnow
   /\ DeviceDAO.get_device_by_id
        (snd (DeviceDAO.commit_refresh s true dm)) i = Return (Some dm)
   /\ fst (send_to_maintenance w env i req)
      = Ok (ActionResponse true
              ("Device " ++ str i ++ " sent to maintenance")%string
              (Some dm)))
  /\ (DeviceDAO.delete_device s true i
      = Return (true, snd (DeviceDAO.commit_refresh s true dr))
      /\ status dr = Some RETIRED
      /\ List.length (devices (snd (DeviceDAO.commit_refresh s true dr)))
         = List.length (devices s)
      /\ fst (delete_device w env i)
         = Ok (ActionResponse true
                 ("Device " ++ str i ++ " has been retired")%string None)
      /\ get_device_by_id (snd (delete_device w env i)) i
         = (Ok (DeviceResponse dr), snd (delete_device w env i))).
Proof.
  intros Hget Hok s utcnow dm dr. subst s. set (s := session w) in *.
  assert (Hidm : id dm = Some i)
    by (apply get_device_by_id_found in Hget; tauto).
  assert (Hidr : id dr = Some i)
    by (apply get_device_by_id_found in Hget; tauto).
  split.
  - split; [exact (send_to_maintenance_eq s utcnow true i d Hget)|].
    repeat (split; [reflexivity|]).
    split; [exact (proj1 (commit_effect s i d dm Hget Hidm))|].
    unfold send_to_maintenance, try_dao. fold s. rewrite Hget.
    rewrite (send_to_maintenance_eq s _ _ i d Hget), Hok. reflexivity.
  - split; [exact (delete_device_eq s true i d Hget)|].
    split; [reflexivity|].
    split; [apply flush_update_length|].
    unfold delete_device, try_dao. fold s.
    rewrite (delete_device_eq s _ i d Hget), Hok.
    cbn [negb fst snd]. split; [reflexivity|].
    unfold get_device_by_id, try_dao. cbn [session with_session].
    pose proof (proj1 (commit_effect s i d dr Hget Hidr)) as Hr.
    cbv zeta in Hr. fold dr. now rewrite Hr.
Qed.

Lemma maintenance_and_retire_from_any_status_witness :
  status Sample.probe_retired = Some RETIRED
  /\ fst (send_to_maintenance Sample.world_retired Sample.env_ok 1
            (MaintenanceRequest.mk None))
     = Ok (ActionResponse true "Device 1 sent to maintenance"
             (Some (set_last_maintenance_date (Some 1000)
                      (set_status (Some MAINTENANCE) Sample.probe_retired))))
  /\ fst (delete_device Sample.world_retired Sample.env_ok 1)
     = Ok (ActionResponse true "Device 1 has been retired" None)
  /\ fst (get_device_by_id
            (snd (delete_device Sample.world_retired Sample.env_ok 1)) 1)
     = Ok (DeviceResponse Sample.probe_retired).
Proof.
  destruct (maintenance_and_retire_from_any_status Sample.world_retired
              Sample.env_ok 1 Sample.probe_retired
              (MaintenanceRequest.mk None) eq_refl eq_refl)
    as [(_ & _ & _ & _ & Hm) (_ & _ & _ & Hd & Hg)].
  split; [reflexivity|].
  split; [exact Hm|]. split; [exact Hd|]. now rewrite Hg.
Defined.

End Unguarded.

(** ** Deploy, then recall *)

Section RoundTrip.

Import device_controller.

Lemma filter_id_fresh (s : Session) :
  consistent s -> filter (id_is (next_device_id s)) (devices s) = [].
Proof.
  intros Hc. pose proof (keys_assigned s Hc) as Hk.
  induction (devices s) as [|r rows IH]; [reflexivity|].
  inversion Hk as [|? ? [Hid Hb] Hk']; subst. simpl.
  assert (Hr : id_is (next_device_id s) r = false).
  { unfold id_is. rewrite Hid. apply Z.eqb_neq. lia. }
  rewrite Hr. now apply IH.
Qed.

Lemma logs_of_fresh (s : Session) :
  consistent s -> logs_of s (next_device_id s) = [].
Proof.
  intros Hc. pose proof (logs_refer s Hc) as Hl. unfold logs_of.
  induction (device_logs s) as [|l logs IH]; [reflexivity|].
  inversion Hl as [|? ? Hb Hl']; subst. simpl.
  assert (Hn : (log_device_id l =? next_device_id s) = false)
    by (apply Z.eqb_neq; lia).
  rewrite Hn. now apply IH.
Qed.

(** A query by key after a flush, on the table itself. *)
Lemma filter_after_flush (rows : list Device) (i : Z) (d d' : Device) :
  filter (id_is i) rows = [d] -> id d' = Some i ->
  filter (id_is i) (flush_update d' rows) = [d'].
Proof.
  intros Hf Hid. rewrite (filter_flush_update d' i i rows Hid).
  now rewrite Z.eqb_refl, Hf.
Qed.

(** The entity [create_device] builds from a request. *)
Lemma create_device_stores (w : World) (env : Env)
    (request : DeviceRequest.t) :
  consistent (session w) ->
  DeviceDAO.get_device_by_serial (session w)
    (DeviceRequest.serial_number request) = Return None ->
  env_commit_ok env = true ->
  exists d0 : Device,
    id d0 = Some (next_device_id (session w))
    /\ status d0 = Some IN_STOCK
    /\ create_device w env request
       = (Ok (DeviceResponse d0),
          mkWorld
            (mkSession (devices (session w) ++ [d0])
               (device_logs (session w)) (next_device_id (session w) + 1))
            (publisher_calls w)).
Proof.
  intros Hc Hnew Hok.
  destruct (DeviceType_call_dto (DeviceRequest.type request)) as [t Ht].
  unfold DeviceDAO.get_device_by_serial in Hnew.
  unfold create_device, try_dao. rewrite Ht.
  unfold DeviceDAO.create_device. cbn [serial_number].
  rewrite Hnew. cbn [bind]. rewrite Hok. cbn [negb].
  eexists. split; [|split; [|reflexivity]]; reflexivity.
Qed.

Lemma deploy_device_run (w : World) (env : Env) (i : Z) (d : Device)
    (req : DeployRequest.t) :
  DeviceDAO.get_device_by_id (session w) i = Return (Some d) ->
  DeviceDAO.status_in d [IN_STOCK; RESERVED; MAINTENANCE] = true ->
  env_commit_ok env = true -> env_log_commit_ok env = true ->
  let d' :=
    set_deploy_date (Some (env_utcnow env))
      (set_location (PyStr (DeployRequest.location req))
         (set_status (Some DEPLOYED) d)) in
  deploy_device w env i req
  = (Ok (ActionResponse true
           ("Device " ++ str i ++ " deployed to "
            ++ DeployRequest.location req)%string (Some d')),
     mkWorld
       (mkSession (flush_update d' (devices (session w)))
          (device_logs (session w)
           ++ [mkDeviceLog i "deployed" (status_value d) (Some "deployed")
                 None (DeployRequest.notes req)])
          (next_device_id (session w)))
       (publisher_calls w)).
Proof.
  intros Hget Hst Hok Hlog d'.
  unfold deploy_device, try_dao. rewrite Hget.
  rewrite (deploy_device_eq _ _ _ i _ d Hget), Hst, Hok.
  unfold log_transition, DeviceDAO.log_action. rewrite Hlog. reflexivity.
Qed.

Lemma recall_device_run (w : World) (env : Env) (i : Z) (d : Device)
    (req : RecallRequest.t) :
  DeviceDAO.get_device_by_id (session w) i = Return (Some d) ->
  status d = Some DEPLOYED ->
  env_commit_ok env = true -> env_log_commit_ok env = true ->
  exists d' : Device,
    id d' = id d /\ status d' = Some IN_STOCK /\ deploy_date d' = None
    /\ recall_device w env i req
       = (Ok (ActionResponse true
                ("Device " ++ str i ++ " recalled to stock")%string
                (Some d')),
          mkWorld
            (mkSession (flush_update d' (devices (session w)))
               (device_logs (session w)
                ++ [mkDeviceLog i "recalled" (status_value d)
                      (Some "in_stock") None (RecallRequest.notes req)])
               (next_device_id (session w)))
            (publisher_calls w)).
Proof.
  intros Hget Hst Hok Hlog.
  unfold recall_device, try_dao. rewrite Hget.
  rewrite (recall_device_eq _ _ i _ d Hget).
  apply status_is_true in Hst. rewrite Hst, Hok.
  unfold log_transition, DeviceDAO.log_action. rewrite Hlog.
  eexists. split; [|split; [|split; [|reflexivity]]];
    destruct (RecallRequest.location req) as [l|];
    try destruct (truthy_str (Some l)); reflexivity.
Qed.

(** C4.  A device is created (status in_stock), deployed to a location
    and then recalled, every commit going through.  The recalled device
    has status in_stock and no [deploy_date], and the audit log holds
    exactly two entries for it: "deployed" with statuses in_stock to
    deployed, then "recalled" with statuses deployed to in_stock. *)
Theorem deploy_then_recall_round_trip
    (w : World) (env0 env1 env2 : Env) (request : DeviceRequest.t)
    (dreq : DeployRequest.t) (rreq : RecallRequest.t) :
  reachable w ->
  DeviceDAO.get_device_by_serial (session w)
    (DeviceRequest.serial_number request) = Return None ->
  env_commit_ok env0 = true ->
  env_commit_ok env1 = true -> env_log_commit_ok env1 = true ->
  env_commit_ok env2 = true -> env_log_commit_ok env2 = true ->
  let i := next_device_id (session w) in
  let w0 := snd (create_device w env0 request) in
  let w1 := snd (deploy_device w0 env1 i dreq) in
  let w2 := snd (recall_device w1 env2 i rreq) in
  exists d0 d1 d2 : Device,
    fst (create_device w env0 request) = Ok (DeviceResponse d0)
    /\ id d0 = Some i /\ status d0 = Some IN_STOCK
    /\ fst (deploy_device w0 env1 i dreq)
       = Ok (ActionResponse true
               ("Device " ++ str i ++ " deployed to "
                ++ DeployRequest.location dreq)%string (Some d1))
    /\ status d1 = Some DEPLOYED
    /\ location d1 = PyStr (DeployRequest.location dreq)
    /\ deploy_date d1 = Some (env_utcnow env1)
    /\ fst (recall_device w1 env2 i rreq)
       = Ok (ActionResponse true
               ("Device " ++ str i ++ " recalled to stock")%string (Some d2))
    /\ status d2 = Some IN_STOCK /\ deploy_date d2 = None
    /\ DeviceDAO.get_device_by_id (session w2) i = Return (Some d2)
    /\ logs_of (session w2) i
       = [mkDeviceLog i "deployed" (Some "in_stock") (Some "deployed") None
            (DeployRequest.notes dreq);
          mkDeviceLog i "recalled" (Some "deployed") (Some "in_stock") None
            (RecallRequest.notes rreq)].
Proof.
  intros Hr Hnew H0 H1 H1l H2 H2l. cbv zeta.
  pose proof (reachable_consistent w Hr) as Hc.
  set (i := next_device_id (session w)).
  destruct (create_device_stores w env0 request Hc Hnew H0)
    as (d0 & Hid0 & Hst0 & Hcreate).
  fold i in Hid0, Hcreate. rewrite Hcreate. cbn [fst snd].
  set (rows0 := devices (session w) ++ [d0]).
  set (w0 := mkWorld _ _).
  assert (Hget0 : DeviceDAO.get_device_by_id (session w0) i
                  = Return (Some d0)).
  { unfold DeviceDAO.get_device_by_id, w0, rows0. cbn [session devices].
    rewrite filter_app. unfold i at 1. rewrite (filter_id_fresh _ Hc).
    cbn [filter app]. apply id_is_true in Hid0. now rewrite Hid0. }
  assert (Hdep0 : DeviceDAO.status_in d0 [IN_STOCK; RESERVED; MAINTENANCE]
                  = true)
    by (unfold DeviceDAO.status_in; now rewrite Hst0).
  pose proof (deploy_device_run w0 env1 i d0 dreq Hget0 Hdep0 H1 H1l)
    as Hdeploy.
  cbv zeta in Hdeploy. rewrite Hdeploy. cbn [fst snd].
  set (d1 := set_deploy_date _ _) in *.
  set (w1 := mkWorld _ _).
  assert (Hid1 : id d1 = Some i) by exact Hid0.
  assert (Hget1 : DeviceDAO.get_device_by_id (session w1) i
                  = Return (Some d1)).
  { unfold DeviceDAO.get_device_by_id in *. unfold w1. cbn [session devices].
    apply one_or_none_some in Hget0.
    now rewrite (filter_after_flush _ i d0 d1 Hget0 Hid1). }
  destruct (recall_device_run w1 env2 i d1 rreq Hget1 eq_refl H2 H2l)
    as (d2 & Hid2 & Hst2 & Hdate2 & Hrecall).
  rewrite Hrecall. cbn [fst snd].
  exists d0, d1, d2.
  repeat (split; [first [reflexivity | assumption]|]).
  split.
  - unfold DeviceDAO.get_device_by_id in *. cbn [session devices].
    apply one_or_none_some in Hget1. rewrite Hid1 in Hid2.
    now rewrite (filter_after_flush _ i d1 d2 Hget1 Hid2).
  - unfold logs_of, w1, w0. cbn [device_logs session]. rewrite !filter_app.
    fold (logs_of (session w) i). unfold i at 1.
    rewrite (logs_of_fresh _ Hc). cbn [filter log_device_id app].
    fold i. rewrite Z.eqb_refl.
    unfold status_value. rewrite Hst0. reflexivity.
Qed.

Lemma deploy_then_recall_round_trip_witness :
  let w0 := snd (create_device initial_world Sample.env_ok
                   Sample.probe_request) in
  let w1 := snd (deploy_device w0 Sample.env_ok 1
                   (DeployRequest.mk "L1" (Some "install"))) in
  let w2 := snd (recall_device w1 Sample.env_ok 1
                   (RecallRequest.mk None None)) in
  logs_of (session w2) 1
  = [mkDeviceLog 1 "deployed" (Some "in_stock") (Some "deployed") None
       (Some "install");
     mkDeviceLog 1 "recalled" (Some "deployed") (Some "in_stock") None None].
Proof.
  destruct (deploy_then_recall_round_trip initial_world Sample.env_ok
              Sample.env_ok Sample.env_ok Sample.probe_request
              (DeployRequest.mk "L1" (Some "install"))
              (RecallRequest.mk None None)
              reachable_initial eq_refl eq_refl eq_refl eq_refl eq_refl
              eq_refl)
    as (d0 & d1 & d2 & _ & _ & _ & _ & _ & _ & _ & _ & _ & _ & _ & H).
  exact H.
Defined.

End RoundTrip.

(** ** Status values and the audit log *)

Section Audit.

Import device_controller.

Lemma DeviceStatus_value_enumerated (st : DeviceStatus) :
  In (DeviceStatus_value st) status_values.
Proof. destruct st; simpl; tauto. Qed.

Lemma update_device_status_eq (s : Session) (ok : bool) (i : Z)
    (dto : DeviceStatusDto) (loc : option string) (d : Device) :
  DeviceDAO.get_device_by_id s i = Return (Some d) ->
  exists st : DeviceStatus,
    DeviceStatus_value st = DeviceStatusDto_value dto
    /\ DeviceDAO.update_device_status s ok i dto loc =
       Return (DeviceDAO.commit_refresh s ok
                 (match loc with
                  | Some l =>
                      if truthy_str loc
                      then set_location (PyStr l) (set_status (Some st) d)
                      else set_status (Some st) d
                  | None => set_status (Some st) d
                  end)).
Proof.
  unfold DeviceDAO.get_device_by_id, DeviceDAO.update_device_status.
  intros ->. cbn [bind].
  destruct (DeviceStatus_call_dto dto) as (st & -> & Hv).
  exists st. split; [exact Hv|]. reflexivity.
Qed.

(** What a transition endpoint leaves once its flush and its log entry
    are committed. *)
Lemma transition_audited (w : World) (env : Env) (s' : Session) (i : Z)
    (d d' : Device) (act : string) (n nt : option string) :
  DeviceDAO.get_device_by_id (session w) i = Return (Some d) ->
  id d' = id d -> status_value d' = n ->
  env_log_commit_ok env = true ->
  s' = session (log_transition w env
                  (snd (DeviceDAO.commit_refresh (session w) true d'))
                  i act (status_value d) n nt) ->
  exists new : Device,
    DeviceDAO.get_device_by_id s' i = Return (Some new)
    /\ device_logs s'
       = device_logs (session w)
         ++ [mkDeviceLog i act (status_value d) (status_value new) None nt].
Proof.
  intros Hget Hid Hn Hlog ->.
  assert (Hid' : id d' = Some i)
    by (rewrite Hid; apply get_device_by_id_found in Hget; tauto).
  exists d'.
  unfold log_transition, DeviceDAO.log_action. rewrite Hlog.
  cbn [snd session with_session DeviceDAO.commit_refresh]. split.
  - unfold DeviceDAO.get_device_by_id in *. cbn [devices].
    apply one_or_none_some in Hget.
    now rewrite (filter_after_flush _ i d d' Hget Hid').
  - cbn [device_logs]. now rewrite Hn.
Qed.

Lemma exists_after_refl {A : Type} (x : A) (P : Device -> Prop) :
  (exists new, P new) -> exists new, x = x /\ P new.
Proof. intros [new H]. now exists new. Qed.

Ltac audited_case Hget Hbody :=
  match type of Hbody with
  | context [DeviceDAO.get_device_by_id ?s ?i] =>
      let Hex := fresh "Hex" in
      assert (Hex : exists d, DeviceDAO.get_device_by_id s i
                              = Return (Some d))
        by (destruct (DeviceDAO.get_device_by_id s i) as [[d|]|];
            try discriminate Hbody; now eexists);
      destruct Hex as [d Hget]; rewrite Hget in Hbody |- *
  end.

Ltac audited_finish Hget Hlog d :=
  exists d; apply exists_after_refl;
  eapply (transition_audited _ _ _ _ d _ _ _ _ Hget);
  [ | | exact Hlog | reflexivity ];
  repeat match goal with
         | |- context [match ?x with Some _ => _ | None => _ end] =>
             destruct x
         | |- context [if ?b then _ else _] => destruct b
         end;
  try reflexivity.

(** C6, as amended.  After any request the status of every stored device
    is one of the five enumerated values.  Each of the endpoints status
    change, deploy, recall, send to maintenance and reserve that answers
    with success has written, its log commit going through, exactly one
    audit entry for the device, carrying the action and the status
    before and after.  An update of the mutable fields writes no audit
    entry. *)
Theorem status_enumerated_and_transitions_audited
    (w : World) (env : Env) (request : Request) :
  reachable w ->
  let w' := snd (handle w env request) in
  Forall (fun d => exists st, status d = Some st
                              /\ In (DeviceStatus_value st) status_values)
         (devices (session w'))
  /\ (forall i act nt body,
        audited_transition request = Some (i, act, nt) ->
        fst (handle w env request) = Ok body ->
        env_log_commit_ok env = true ->
        exists old new : Device,
          DeviceDAO.get_device_by_id (session w) i = Return (Some old)
          /\ DeviceDAO.get_device_by_id (session w') i = Return (Some new)
          /\ device_logs (session w')
             = device_logs (session w)
               ++ [mkDeviceLog i act (status_value old) (status_value new)
                     None nt])
  /\ (forall i body,
        request = PUT_device i body ->
        device_logs (session w') = device_logs (session w)).
Proof.
  intros Hr w'. pose proof (reachable_consistent w Hr) as Hc.
  split; [|split].
  - pose proof (consistent_handle w env request Hc) as Hc'. fold w' in Hc'.
    apply Forall_impl with (2 := status_assigned _ Hc').
    intros d Hd. destruct (status d) as [st|]; [|contradiction].
    exists st. split; [reflexivity | apply DeviceStatus_value_enumerated].
  - intros i act nt body Hact Hbody Hlog. subst w'.
    destruct request; try discriminate Hact;
      cbn [handle audited_transition] in *;
      inversion Hact; subst i act nt; clear Hact.
    + unfold update_device_status, try_dao in *.
      audited_case Hget Hbody.
      destruct (update_device_status_eq (session w) (env_commit_ok env)
                  device_id (DeviceStatusUpdateRequest.status body0)
                  (DeviceStatusUpdateRequest.location body0) d Hget)
        as (st & Hv & Heq).
      rewrite Heq in *. rewrite <- Hv.
      destruct (env_commit_ok env); [|discriminate Hbody].
      change (Some (DeviceStatus_value st))
        with (option_map DeviceStatus_value (Some st)).
      cbn [DeviceDAO.commit_refresh fst snd].
      audited_finish Hget Hlog d.
    + unfold deploy_device, try_dao in *.
      audited_case Hget Hbody.
      rewrite (deploy_device_eq _ _ _ _ _ d Hget) in *.
      destruct (DeviceDAO.status_in d _); [|discriminate Hbody].
      destruct (env_commit_ok env); [|discriminate Hbody].
      cbn [DeviceDAO.commit_refresh fst snd].
      audited_finish Hget Hlog d.
    + unfold recall_device, try_dao in *.
      audited_case Hget Hbody.
      rewrite (recall_device_eq _ _ _ _ d Hget) in *.
      destruct (status_is DEPLOYED d); [|discriminate Hbody].
      destruct (env_commit_ok env); [|discriminate Hbody].
      cbn [DeviceDAO.commit_refresh fst snd].
      audited_finish Hget Hlog d.
    + unfold send_to_maintenance, try_dao in *.
      audited_case Hget Hbody.
      rewrite (send_to_maintenance_eq _ _ _ _ d Hget) in *.
      destruct (env_commit_ok env); [|discriminate Hbody].
      cbn [DeviceDAO.commit_refresh fst snd].
      audited_finish Hget Hlog d.
    + unfold reserve_device, try_dao in *.
      audited_case Hget Hbody.
      rewrite (reserve_device_eq _ _ _ d Hget) in *.
      destruct (status_is IN_STOCK d); [|discriminate Hbody].
      destruct (env_commit_ok env); [|discriminate Hbody].
      cbn [DeviceDAO.commit_refresh fst snd publish session].
      audited_finish Hget Hlog d.
  - intros i body ->. subst w'. cbn [handle].
    unfold update_device, try_dao.
    destruct (DeviceDAO.update_device _ _ _ _) as [[[d|] s']|] eqn:Hop;
      cbn [snd session with_session]; try reflexivity;
      apply keeps_update_device in Hop; try exact Hc;
      exact (proj2 (proj2 Hop)).
Qed.

Lemma world_one_reachable : reachable Sample.world_one.
Proof.
  exact (reachable_handle initial_world Sample.env_ok
           (POST_device Sample.probe_request) reachable_initial).
Qed.

Lemma status_enumerated_and_transitions_audited_witness :
  device_logs
    (session (snd (handle Sample.world_one Sample.env_ok
                     (PUT_device 1 Sample.rename_request))))
  = device_logs (session Sample.world_one)
  /\ exists old new : Device,
       DeviceDAO.get_device_by_id (session Sample.world_one) 1
       = Return (Some old)
       /\ DeviceDAO.get_device_by_id
            (session (snd (handle Sample.world_one Sample.env_ok
                             (PUT_reserve 1 (ReserveRequest.mk None))))) 1
          = Return (Some new)
       /\ device_logs
            (session (snd (handle Sample.world_one Sample.env_ok
                             (PUT_reserve 1 (ReserveRequest.mk None)))))
          = device_logs (session Sample.world_one)
            ++ [mkDeviceLog 1 "reserved" (status_value old)
                  (status_value new) None None].
Proof.
  split.
  - exact (proj2 (proj2 (status_enumerated_and_transitions_audited
                           Sample.world_one Sample.env_ok
                           (PUT_device 1 Sample.rename_request)
                           world_one_reachable))
             1 Sample.rename_request eq_refl).
  - exact (proj1 (proj2 (status_enumerated_and_transitions_audited
                           Sample.world_one Sample.env_ok
                           (PUT_reserve 1 (ReserveRequest.mk None))
                           world_one_reachable))
             1 "reserved" None _ eq_refl eq_refl eq_refl).
Defined.

(** C6, as stated, fails: an update of the mutable fields renames the
    stored device and the audit log stays empty, although every commit
    goes through. *)
Lemma field_update_leaves_no_audit_entry :
  let w' := snd (handle Sample.world_one Sample.env_ok
                   (PUT_device 1 Sample.rename_request)) in
  DeviceDAO.get_device_by_id (session Sample.world_one) 1
  = Return (Some Sample.probe)
  /\ DeviceDAO.get_device_by_id (session w') 1
     = Return (Some (set_name (PyStr "Probe-2") Sample.probe))
  /\ set_name (PyStr "Probe-2") Sample.probe <> Sample.probe
  /\ device_logs (session w') = [].
Proof.
  cbv zeta.
  split; [reflexivity | split; [reflexivity | split; [|reflexivity]]].
  intros H. discriminate H.
Qed.

End Audit.

(** ** Telemetry and device events *)

Section Events.

Import device_controller.

(** C7.  Telemetry for a device that does not exist is answered with 404;
    telemetry for a device whose status is not deployed is answered with
    400; in both cases nothing is handed to the publisher and the world
    is unchanged.  For a deployed device exactly one telemetry message is
    handed to the publisher.  Whenever the publisher was called, the
    device exists and is deployed. *)
Theorem telemetry_only_from_deployed
    (w : World) (env : Env) (request : TelemetryRequest.t) :
  let i := TelemetryRequest.device_id request in
  let r := receive_telemetry w env request in
  (DeviceDAO.get_device_by_id (session w) i = Return None ->
   r = (HTTPException 404 ("Device " ++ str i ++ " not found")%string, w))
  /\ (forall d,
        DeviceDAO.get_device_by_id (session w) i = Return (Some d) ->
        status d <> Some DEPLOYED ->
        r = (HTTPException 400 "Device must be 'deployed' to send telemetry",
             w))
  /\ (forall d,
        DeviceDAO.get_device_by_id (session w) i = Return (Some d) ->
        status d = Some DEPLOYED ->
        r = (if env_publish_ok env
             then Ok (ActionResponse true "Telemetry received and published"
                        None)
             else HTTPException 500 "Failed to publish telemetry",
             mkWorld (session w)
               (publisher_calls w
                ++ [Telemetry (id d) (name d)
                      (TelemetryRequest.data request)])))
  /\ (publisher_calls (snd r) <> publisher_calls w ->
      exists d,
        DeviceDAO.get_device_by_id (session w) i = Return (Some d)
        /\ status d = Some DEPLOYED)
  /\ session (snd r) = session w.
Proof.
  intros i r. subst r. unfold receive_telemetry, try_dao. fold i.
  split; [|split; [|split; [|split]]].
  - now intros ->.
  - intros d -> Hst.
    destruct (status_is DEPLOYED d) eqn:E; [|reflexivity].
    apply status_is_true in E. contradiction.
  - intros d -> Hst. apply status_is_true in Hst. rewrite Hst.
    unfold publish. now destruct (env_publish_ok env).
  - destruct (DeviceDAO.get_device_by_id (session w) i) as [[d|]|];
      cbn [snd]; try (intros H; now contradiction H).
    destruct (status_is DEPLOYED d) eqn:E;
      cbn [negb snd]; [|intros H; now contradiction H].
    intros _. exists d. split; [reflexivity | now apply status_is_true].
  - destruct (DeviceDAO.get_device_by_id (session w) i) as [[d|]|];
      cbn [snd]; try reflexivity.
    destruct (status_is DEPLOYED d); cbn [negb]; [|reflexivity].
    unfold publish. now destruct (env_publish_ok env).
Qed.

Lemma telemetry_only_from_deployed_witness :
  receive_telemetry Sample.world_one Sample.env_ok
    (TelemetryRequest.mk 1 (PyDict [("temperature", PyInt 21)]))
  = (HTTPException 400 "Device must be 'deployed' to send telemetry",
     Sample.world_one).
Proof.
  apply (proj1 (proj2 (telemetry_only_from_deployed Sample.world_one
                         Sample.env_ok
                         (TelemetryRequest.mk 1
                            (PyDict [("temperature", PyInt 21)]))))
           Sample.probe).
  - reflexivity.
  - discriminate.
Defined.

(** C10.  The device-event endpoint hands its event to the publisher in
    every case: one message is added to the publisher's calls whatever
    device id the request names, the database is left as it is and has
    no influence on the answer, the answer is success when the publish
    succeeds and 500 when it fails, never 404.  The telemetry endpoint,
    by contrast, answers 404 for an unknown device and publishes
    nothing. *)
Theorem receive_event_publishes_without_lookup
    (w : World) (env : Env) (request : DeviceEventRequest.t) :
  let i := DeviceEventRequest.device_id request in
  let r := handle w env (POST_events request) in
  let m :=
    DeviceEvent (Some i) (PyStr ("Device-" ++ str i)%string)
      (DeviceEventRequest.event_type request)
      (py_or (DeviceEventRequest.details request) (PyDict [])) in
  publisher_calls (snd r) = publisher_calls w ++ [m]
  /\ session (snd r) = session w
  /\ fst r = (if env_publish_ok env
             then Ok (ActionResponse true "Event received and published"
                        None)
             else HTTPException 500 "Failed to publish event")
  /\ (forall detail, fst r <> HTTPException 404 detail)
  /\ (forall db : Session,
        fst (handle (mkWorld db (publisher_calls w)) env
               (POST_events request)) = fst r
        /\ publisher_calls
             (snd (handle (mkWorld db (publisher_calls w)) env
                     (POST_events request)))
           = publisher_calls (snd r))
  /\ (forall data,
        DeviceDAO.get_device_by_id (session w) i = Return None ->
        receive_telemetry w env (TelemetryRequest.mk i data)
        = (HTTPException 404 ("Device " ++ str i ++ " not found")%string, w)).
Proof.
  intros i r m. subst r. cbn [handle]. unfold receive_event, publish.
  fold i. fold m.
  destruct (env_publish_ok env); cbn [negb fst snd publisher_calls session];
    repeat split; try reflexivity; try discriminate.
  - intros data H. unfold receive_telemetry, try_dao.
    cbn [TelemetryRequest.device_id]. now rewrite H.
  - intros data H. unfold receive_telemetry, try_dao.
    cbn [TelemetryRequest.device_id]. now rewrite H.
Qed.

Lemma receive_event_publishes_without_lookup_witness :
  DeviceDAO.get_device_by_id (session initial_world) 42 = Return None
  /\ fst (handle initial_world Sample.env_ok
            (POST_events (DeviceEventRequest.mk 42 "alert" PyNone)))
     = Ok (ActionResponse true "Event received and published" None)
  /\ publisher_calls
       (snd (handle initial_world Sample.env_ok
               (POST_events (DeviceEventRequest.mk 42 "alert" PyNone))))
     = [DeviceEvent (Some 42) (PyStr "Device-42") "alert" (PyDict [])]
  /\ receive_telemetry initial_world Sample.env_ok
       (TelemetryRequest.mk 42 PyNone)
     = (HTTPException 404 "Device 42 not found", initial_world).
Proof.
  destruct (receive_event_publishes_without_lookup initial_world
              Sample.env_ok (DeviceEventRequest.mk 42 "alert" PyNone))
    as (Hcalls & _ & Hfst & _ & _ & Htel).
  split; [reflexivity|]. split; [exact Hfst|]. split; [exact Hcalls|].
  exact (Htel PyNone eq_refl).
Defined.

End Events.

(** ** Update of the mutable fields *)

Section UpdateFields.

Import device_controller.

Lemma apply_kwargs_untouched (proj : Device -> PyVal) (f : string) :
  (forall d field value,
     field <> f -> proj (DeviceDAO.assign_allowed d (field, value)) = proj d) ->
  forall kwargs d,
    ~ In f (map fst kwargs) -> proj (apply_kwargs kwargs d) = proj d.
Proof.
  intros Hstep. unfold apply_kwargs.
  induction kwargs as [|[field value] kwargs IH]; intros d Hnot;
    cbn [fold_left]; [reflexivity|].
  cbn [map fst In] in Hnot.
  rewrite IH by tauto. apply Hstep. intros ->. tauto.
Qed.

Ltac assign_other :=
  intros d field value Hne;
  unfold DeviceDAO.assign_allowed, DeviceDAO.setattr;
  destruct (_ && _); [|reflexivity];
  repeat match goal with
         | |- context [(field =? ?c)%string] =>
             destruct (String.eqb_spec field c)
         end;
  try reflexivity; contradiction.

Lemma assign_allowed_name :
  forall d field value,
    field <> "name" ->
    name (DeviceDAO.assign_allowed d (field, value)) = name d.
Proof. assign_other. Qed.

Lemma assign_allowed_description :
  forall d field value,
    field <> "description" ->
    description (DeviceDAO.assign_allowed d (field, value)) = description d.
Proof. assign_other. Qed.

Lemma assign_allowed_location :
  forall d field value,
    field <> "location" ->
    location (DeviceDAO.assign_allowed d (field, value)) = location d.
Proof. assign_other. Qed.

Lemma assign_allowed_specifications :
  forall d field value,
    field <> "specifications" ->
    specifications (DeviceDAO.assign_allowed d (field, value))
    = specifications d.
Proof. assign_other. Qed.

Lemma update_device_eq (s : Session) (ok : bool) (i : Z)
    (kwargs : list (string * PyVal)) (d : Device) :
  DeviceDAO.get_device_by_id s i = Return (Some d) ->
  DeviceDAO.update_device s ok i kwargs
  = Return (DeviceDAO.commit_refresh s ok (apply_kwargs kwargs d)).
Proof.
  unfold DeviceDAO.get_device_by_id, DeviceDAO.update_device.
  now intros ->.
Qed.

(** C9.  [update_device] on a stored device assigns only attributes that
    are both named by a keyword of the call and among name, description,
    location and specifications: id, type, serial_number, status,
    purchase_date, deploy_date, last_maintenance_date and created_at are
    as before, a mutable field without a keyword is as before, and no
    other row and no audit entry changes.  Nothing is stated of
    [updated_at], which the store refreshes when the update commits.
    Through the endpoint, the four mutable fields take the values of the
    request body and the eight fields above are as before.  On a device
    that does not exist the DAO returns None, the endpoint answers 404
    and nothing changes. *)
Theorem update_device_touches_named_fields_only
    (w : World) (env : Env) (i : Z) (kwargs : list (string * PyVal))
    (ok : bool) (body : DeviceUpdateRequest.t) :
  let s := session w in
  (forall d : Device,
     DeviceDAO.get_device_by_id s i = Return (Some d) ->
     let d' := apply_kwargs kwargs d in
     let s' := snd (DeviceDAO.commit_refresh s true d') in
     DeviceDAO.update_device s ok i kwargs
     = Return (if ok then (Some d', s') else (None, s))
     /\ fixed_fields_equal d d'
     /\ (~ In "name" (map fst kwargs) -> name d' = name d)
     /\ (~ In "description" (map fst kwargs) ->
         description d' = description d)
     /\ (~ In "location" (map fst kwargs) -> location d' = location d)
     /\ (~ In "specifications" (map fst kwargs) ->
         specifications d' = specifications d)
     /\ DeviceDAO.get_device_by_id s' i = Return (Some d')
     /\ (forall j, j <> i ->
           DeviceDAO.get_device_by_id s' j = DeviceDAO.get_device_by_id s j)
     /\ device_logs s' = device_logs s
     /\ (env_commit_ok env = true ->
         let d2 :=
           set_specifications (DeviceUpdateRequest.specifications body)
             (set_location (DeviceUpdateRequest.location body)
                (set_description (DeviceUpdateRequest.description body)
                   (set_name (DeviceUpdateRequest.name body) d))) in
         fst (update_device w env i body) = Ok (DeviceResponse d2)
         /\ fixed_fields_equal d d2))
  /\ (DeviceDAO.get_device_by_id s i = Return None ->
      DeviceDAO.update_device s ok i kwargs = Return (None, s)
      /\ update_device w env i body = (not_found i, w)).
Proof.
  intros s. split.
  - intros d Hget d' s'.
    assert (Hfix : fixed_fields_equal d d') by apply apply_kwargs_fixed.
    assert (Hid : id d' = Some i).
    { destruct Hfix as (Hid & _). rewrite Hid.
      apply get_device_by_id_found in Hget. tauto. }
    split.
    { rewrite (update_device_eq s ok i kwargs d Hget).
      unfold DeviceDAO.commit_refresh. now destruct ok. }
    split; [exact Hfix|].
    split; [apply (apply_kwargs_untouched name), assign_allowed_name|].
    split; [apply (apply_kwargs_untouched description),
             assign_allowed_description|].
    split; [apply (apply_kwargs_untouched location),
             assign_allowed_location|].
    split; [apply (apply_kwargs_untouched specifications),
             assign_allowed_specifications|].
    destruct (commit_effect s i d d' Hget Hid) as (H1 & H2 & H3 & _).
    split; [exact H1|]. split; [exact H2|]. split; [exact H3|].
    intros Hok d2. unfold update_device, try_dao. fold s.
    rewrite (update_device_eq s _ i _ d Hget), Hok.
    split; [reflexivity|].
    unfold fixed_fields_equal. repeat split; reflexivity.
  - intros Hget. split.
    + unfold DeviceDAO.update_device.
      unfold DeviceDAO.get_device_by_id in Hget. now rewrite Hget.
    + unfold update_device, try_dao, DeviceDAO.update_device.
      unfold DeviceDAO.get_device_by_id in Hget. fold s. rewrite Hget.
      cbn [bind]. unfold s. now rewrite with_session_same.
Qed.

Lemma update_device_touches_named_fields_only_witness :
  DeviceDAO.get_device_by_id (session Sample.world_one) 1
  = Return (Some Sample.probe)
  /\ DeviceDAO.update_device (session Sample.world_one) true 1
       [("name", PyStr "Probe-2"); ("status", PyStr "retired")]
     = Return
         (Some (set_name (PyStr "Probe-2") Sample.probe),
          snd (DeviceDAO.commit_refresh (session Sample.world_one) true
                 (set_name (PyStr "Probe-2") Sample.probe)))
  /\ fixed_fields_equal Sample.probe
       (apply_kwargs [("name", PyStr "Probe-2"); ("status", PyStr "retired")]
          Sample.probe).
Proof.
  assert (Hget : DeviceDAO.get_device_by_id (session Sample.world_one) 1
                 = Return (Some Sample.probe)) by reflexivity.
  split; [exact Hget|].
  destruct (proj1 (update_device_touches_named_fields_only Sample.world_one
                     Sample.env_ok 1
                     [("name", PyStr "Probe-2"); ("status", PyStr "retired")]
                     true Sample.rename_request) Sample.probe Hget)
    as (H1 & H2 & _).
  split; [exact H1 | exact H2].
Defined.

End UpdateFields.

(** ** Listing with filters and pages *)

Section Pagination.

Import device_controller.

Lemma filter_filter_andb {A : Type} (p q : A -> bool) (l : list A) :
  filter q (filter p l) = filter (fun x => p x && q x) l.
Proof.
  induction l as [|a l IH]; [reflexivity|]. simpl.
  destruct (p a); simpl; [|exact IH].
  destruct (q a); now rewrite IH.
Qed.

Lemma status_is_by_value (v : DeviceStatus) (dto : DeviceStatusDto)
    (d : Device) :
  DeviceStatus_value v = DeviceStatusDto_value dto ->
  status_is v d =
  match status d with
  | Some st' => (DeviceStatus_value st' =? DeviceStatusDto_value dto)%string
  | None => false
  end.
Proof.
  intros <-. unfold status_is. destruct (status d) as [st'|]; [|reflexivity].
  now destruct st', v.
Qed.

Lemma type_is_by_value (v : DeviceType) (dto : DeviceTypeDto) (d : Device) :
  DeviceType_value v = DeviceTypeDto_value dto ->
  type_is v d =
  match type d with
  | Some t' => (DeviceType_value t' =? DeviceTypeDto_value dto)%string
  | None => false
  end.
Proof.
  intros <-. unfold type_is. destruct (type d) as [t'|]; [|reflexivity].
  now destruct t', v.
Qed.

Lemma DeviceType_call_dto_value (t : DeviceTypeDto) :
  exists t', DeviceType_call (DeviceTypeDto_value t) = Return t'
             /\ DeviceType_value t' = DeviceTypeDto_value t.
Proof. destruct t; eexists; split; reflexivity. Qed.

Lemma get_all_devices_eq (s : Session) (st : option DeviceStatusDto)
    (ty : option DeviceTypeDto) (page page_size : Z) :
  DeviceDAO.get_all_devices s st ty page page_size =
  Return (sql_limit page_size
            (sql_offset ((page - 1) * page_size)
               (filter (matches st ty) (devices s))),
          Z.of_nat (List.length (filter (matches st ty) (devices s)))).
Proof.
  unfold DeviceDAO.get_all_devices.
  assert (Hst : exists p,
             (match st with
              | Some st0 =>
                  v <- DeviceStatus_call (DeviceStatusDto_value st0) ;;
                  Return (filter (status_is v) (devices s))
              | None => Return (devices s)
              end) = Return (filter p (devices s))
             /\ forall d, p d = match st with
                                | None => true
                                | Some st0 =>
                                    match status d with
                                    | Some st' =>
                                        (DeviceStatus_value st' =?
                                         DeviceStatusDto_value st0)%string
                                    | None => false
                                    end
                                end).
  { destruct st as [st0|].
    - destruct (DeviceStatus_call_dto st0) as (v & -> & Hv).
      exists (status_is v). split; [reflexivity|].
      intros d. now apply status_is_by_value.
    - exists (fun _ => true). split; [|reflexivity].
      f_equal. induction (devices s) as [|a l IH]; simpl; congruence. }
  destruct Hst as (p & -> & Hp). cbn [bind].
  assert (Hty : exists q,
             (match ty with
              | Some t =>
                  v <- DeviceType_call (DeviceTypeDto_value t) ;;
                  Return (filter (type_is v) (filter p (devices s)))
              | None => Return (filter p (devices s))
              end) = Return (filter q (filter p (devices s)))
             /\ forall d, q d = match ty with
                                | None => true
                                | Some t =>
                                    match type d with
                                    | Some t' =>
                                        (DeviceType_value t' =?
                                         DeviceTypeDto_value t)%string
                                    | None => false
                                    end
                                end).
  { destruct ty as [t|].
    - destruct (DeviceType_call_dto_value t) as (v & -> & Hv).
      exists (type_is v). split; [reflexivity|].
      intros d. now apply type_is_by_value.
    - exists (fun _ => true). split; [|reflexivity].
      f_equal. induction (filter p (devices s)) as [|a l IH]; simpl;
        congruence. }
  destruct Hty as (q & -> & Hq). cbn [bind].
  rewrite filter_filter_andb.
  assert (Hm : filter (fun x => p x && q x) (devices s)
               = filter (matches st ty) (devices s)).
  { apply filter_ext. intros d. unfold matches. now rewrite Hp, Hq. }
  now rewrite Hm.
Qed.

Lemma firstn_skipn_add {A : Type} (a b : nat) (l : list A) :
  firstn a l ++ firstn b (skipn a l) = firstn (a + b) l.
Proof.
  revert l. induction a as [|a IH]; intros l; [reflexivity|].
  destruct l as [|x l]; simpl.
  - now rewrite firstn_nil.
  - now rewrite IH.
Qed.

Lemma concat_pages {A : Type} (p n : nat) (l : list A) :
  List.concat
    (map (fun k => firstn p (skipn ((k - 1) * p)%nat l)) (seq 1 n))
  = firstn (n * p)%nat l.
Proof.
  induction n as [|n IH]; [reflexivity|].
  rewrite seq_S, map_app, concat_app, IH. cbn [map List.concat].
  rewrite app_nil_r.
  replace ((1 + n - 1) * p)%nat with (n * p)%nat by lia.
  rewrite firstn_skipn_add. f_equal. lia.
Qed.

Lemma page_count_covers (n p : Z) : 1 <= p -> 0 <= n -> n <= page_count n p * p.
Proof.
  intros Hp Hn. unfold page_count.
  pose proof (Z.div_mod (n + p - 1) p ltac:(lia)) as Hdm.
  pose proof (Z.mod_pos_bound (n + p - 1) p ltac:(lia)) as Hb.
  nia.
Qed.

Lemma page_count_nonneg (n p : Z) : 1 <= p -> 0 <= n -> 0 <= page_count n p.
Proof.
  intros Hp Hn. unfold page_count. apply Z.div_pos; lia.
Qed.

Lemma StronglySorted_filter_key (p : Device -> bool) (l : list Device) :
  StronglySorted Z.lt (map key l) ->
  StronglySorted Z.lt (map key (filter p l)).
Proof.
  induction l as [|a l IH]; simpl; intros Hs; [constructor|].
  inversion Hs as [|? ? Hs' Hall]; subst.
  destruct (p a); [|now apply IH].
  simpl. constructor; [now apply IH|].
  rewrite Forall_forall in *. intros x Hx. apply Hall.
  apply in_map_iff in Hx. destruct Hx as (d & <- & Hd).
  apply filter_In in Hd. apply in_map. tauto.
Qed.

(** C8.  For every filter and every page size P >= 1, page k >= 1 of the
    listing is the window of P matching records that starts at offset
    (k-1)*P of the matching records taken in table order, which in a
    reachable world is the order of increasing key, that is of
    insertion; the total returned with every page, pages past the end
    included, is the number N of matching records; the ceil(N/P) first
    pages laid end to end are exactly the matching records, and every
    later page is empty. *)
Theorem get_all_devices_pagination
    (w : World) (st : option DeviceStatusDto) (ty : option DeviceTypeDto)
    (P : Z) :
  1 <= P ->
  let s := session w in
  let all := filter (matches st ty) (devices s) in
  let N := Z.of_nat (List.length all) in
  (reachable w -> StronglySorted Z.lt (map key all))
  /\ (forall k, 1 <= k ->
        DeviceDAO.get_all_devices s st ty k P
        = Return (firstn (Z.to_nat P) (skipn (Z.to_nat ((k - 1) * P)) all),
                  N))
  /\ List.concat
       (map (fun k => page_rows s st ty (Z.of_nat k) P)
          (seq 1 (Z.to_nat (page_count N P))))
     = all
  /\ (forall k, page_count N P < k -> page_rows s st ty k P = []).
Proof.
  intros HP s all N.
  assert (Hrows : forall k, page_rows s st ty k P
                  = firstn (Z.to_nat P) (skipn (Z.to_nat ((k - 1) * P)) all)).
  { intros k. unfold page_rows. now rewrite get_all_devices_eq. }
  assert (HN : 0 <= N) by (unfold N; lia).
  pose proof (page_count_covers N P HP HN) as Hcov.
  pose proof (page_count_nonneg N P HP HN) as Hnn.
  split; [|split; [|split]].
  - intros Hr. apply StronglySorted_filter_key.
    exact (keys_increasing _ (reachable_consistent w Hr)).
  - intros k Hk. now rewrite get_all_devices_eq.
  - rewrite (map_ext_in _
               (fun k => firstn (Z.to_nat P)
                           (skipn ((k - 1) * Z.to_nat P)%nat all))).
    + rewrite concat_pages. apply firstn_all2. unfold N in *. nia.
    + intros k Hk. apply in_seq in Hk. rewrite Hrows. do 2 f_equal. nia.
  - intros k Hk. rewrite Hrows.
    rewrite skipn_all2; [now rewrite firstn_nil|]. unfold N in *. nia.
Qed.

Lemma get_all_devices_pagination_witness :
  DeviceDAO.get_all_devices (session Sample.world_three) None None 2 2
  = Return ([Sample.hub], 3)
  /\ DeviceDAO.get_all_devices (session Sample.world_three) None None 7 2
     = Return ([], 3).
Proof.
  assert (H12 : 1 <= 2) by lia.
  assert (H17 : 1 <= 7) by lia.
  destruct (get_all_devices_pagination Sample.world_three None None 2 H12)
    as (_ & H & _).
  split; [exact (H 2 H12) | exact (H 7 H17)].
Defined.

End Pagination.

(** ** Recall and the direct status set *)

Section MoreTransitions.

Import device_controller.

Lemma optional_location_applied (loc : option string) (d : Device) :
  location
    (match loc with
     | Some l => if truthy_str loc then set_location (PyStr l) d else d
     | None => d
     end)
  = location_after loc (location d).
Proof.
  destruct loc as [l|]; [|reflexivity]. unfold truthy_str, location_after.
  now destruct (l =? "")%string.
Qed.

(** X1.  For a stored device, recall succeeds exactly when the status is
    deployed (the store committing).  It sets the status to in_stock and
    clears [deploy_date]; the location is replaced only when the request
    gives a non-empty one (an empty string, like no location, leaves the
    old location); id, name, type, serial_number, description,
    specifications, purchase_date, created_at and last_maintenance_date
    are as before (nothing is stated of [updated_at], which the store
    refreshes).  From any other status the DAO returns None, the endpoint
    answers 400 and the world is unchanged. *)
Theorem recall_device_only_from_deployed
    (w : World) (env : Env) (i : Z) (d : Device) (req : RecallRequest.t) :
  DeviceDAO.get_device_by_id (session w) i = Return (Some d) ->
  let s := session w in
  let loc := RecallRequest.location req in
  let illegal :=
    HTTPException 400
      "Device cannot be recalled. It must be in 'deployed' status." in
  ((exists d1 s1, DeviceDAO.recall_device s true i loc = Return (Some d1, s1))
   <-> status d = Some DEPLOYED)
  /\ (status d = Some DEPLOYED ->
      exists d' : Device,
        DeviceDAO.recall_device s true i loc
        = Return (Some d', snd (DeviceDAO.commit_refresh s true d'))
        /\ status d' = Some IN_STOCK /\ deploy_date d' = None
        /\ location d' = location_after loc (location d)
        /\ last_maintenance_date d' = last_maintenance_date d
        /\ descriptive_fields_equal d d'
        /\ DeviceDAO.get_device_by_id
             (snd (DeviceDAO.commit_refresh s true d')) i
           = Return (Some d'))
  /\ (status d <> Some DEPLOYED ->
      (forall ok, DeviceDAO.recall_device s ok i loc = Return (None, s))
      /\ recall_device w env i req = (illegal, w)).
Proof.
  intros Hget s loc illegal. subst s. set (s := session w) in *.
  pose proof (recall_device_eq s true i loc d Hget) as Heq.
  split; [|split].
  - rewrite Heq. split.
    + intros (d1 & s1 & H). apply status_is_true.
      destruct (status_is DEPLOYED d); [reflexivity | discriminate].
    + intros H. apply status_is_true in H. rewrite H.
      cbn [DeviceDAO.commit_refresh]. now eexists _, _.
  - intros H. apply status_is_true in H. rewrite Heq, H.
    eexists. split; [reflexivity|].
    assert (Hsame : forall x : Device,
              match loc with
              | Some l => if truthy_str loc then set_location (PyStr l) x
                          else x
              | None => x
              end = x
              \/ exists l, match loc with
                           | Some l => if truthy_str loc
                                       then set_location (PyStr l) x else x
                           | None => x
                           end = set_location (PyStr l) x).
    { intros x. destruct loc as [l|]; [|now left].
      destruct (truthy_str (Some l)); [right; now exists l | now left]. }
    split; [|split; [|split; [|split; [|split]]]].
    + destruct (Hsame (set_status (Some IN_STOCK) d)) as [->|[l ->]];
        reflexivity.
    + reflexivity.
    + cbn [location set_deploy_date].
      now rewrite optional_location_applied.
    + destruct (Hsame (set_status (Some IN_STOCK) d)) as [->|[l ->]];
        reflexivity.
    + destruct (Hsame (set_status (Some IN_STOCK) d)) as [->|[l ->]];
        unfold descriptive_fields_equal; repeat split; reflexivity.
    + apply (commit_effect s i d); [exact Hget|].
      apply get_device_by_id_found in Hget. destruct Hget as (_ & _ & Hid).
      destruct (Hsame (set_status (Some IN_STOCK) d)) as [->|[l ->]];
        exact Hid.
  - intros H.
    assert (Hn : status_is DEPLOYED d = false).
    { apply not_true_is_false. intros E. apply H. now apply status_is_true. }
    split.
    + intros ok. now rewrite (recall_device_eq s ok i loc d Hget), Hn.
    + unfold recall_device, try_dao. fold s. rewrite Hget.
      fold loc. rewrite (recall_device_eq s _ i loc d Hget), Hn.
      unfold illegal, s. now rewrite with_session_same.
Qed.

Lemma recall_device_only_from_deployed_witness :
  DeviceDAO.get_device_by_id (session MoreSamples.world_deployed) 1
  = Return (Some MoreSamples.probe_deployed)
  /\ exists d' : Device,
       DeviceDAO.recall_device (session MoreSamples.world_deployed) true 1
         (Some "")
       = Return (Some d',
                 snd (DeviceDAO.commit_refresh
                        (session MoreSamples.world_deployed) true d'))
       /\ status d' = Some IN_STOCK /\ deploy_date d' = None
       /\ location d' = PyStr "Field-7".
Proof.
  assert (Hget : DeviceDAO.get_device_by_id
                   (session MoreSamples.world_deployed) 1
                 = Return (Some MoreSamples.probe_deployed)) by reflexivity.
  split; [exact Hget|].
  destruct (proj1 (proj2 (recall_device_only_from_deployed
                            MoreSamples.world_deployed Sample.env_ok 1
                            MoreSamples.probe_deployed
                            (RecallRequest.mk (Some "") None) Hget))
              eq_refl)
    as (d' & H1 & H2 & H3 & H4 & _).
  exists d'.
  split; [exact H1|]. split; [exact H2|]. split; [exact H3 | exact H4].
Defined.

(** X2.  The direct status set has no guard: for a stored device in any
    status and any requested status it succeeds (the store committing),
    and the stored status then has the requested value.  The location is
    replaced only by a non-empty requested location.  The method assigns
    nothing else: id, name, type, serial_number, description,
    specifications, purchase_date and created_at are as before, and in
    particular [deploy_date] is neither set when the status becomes
    deployed nor cleared when it leaves deployed.  Nothing is stated of
    [updated_at], which the store refreshes. *)
Theorem update_device_status_unguarded
    (w : World) (env : Env) (i : Z) (d : Device)
    (req : DeviceStatusUpdateRequest.t) :
  DeviceDAO.get_device_by_id (session w) i = Return (Some d) ->
  let s := session w in
  let dto := DeviceStatusUpdateRequest.status req in
  let loc := DeviceStatusUpdateRequest.location req in
  exists d' : Device,
    DeviceDAO.update_device_status s true i dto loc
    = Return (Some d', snd (DeviceDAO.commit_refresh s true d'))
    /\ status_value d' = Some (DeviceStatusDto_value dto)
    /\ location d' = location_after loc (location d)
    /\ deploy_date d' = deploy_date d
    /\ last_maintenance_date d' = last_maintenance_date d
    /\ descriptive_fields_equal d d'
    /\ DeviceDAO.get_device_by_id
         (snd (DeviceDAO.commit_refresh s true d')) i
       = Return (Some d')
    /\ (env_commit_ok env = true ->
        fst (update_device_status w env i req) = Ok (DeviceResponse d')).
Proof.
  intros Hget s dto loc. subst s. set (s := session w) in *.
  destruct (update_device_status_eq s true i dto loc d Hget)
    as (st & Hv & Heq).
  eexists. split; [exact Heq|].
  assert (Hid : id d = Some i)
    by (apply get_device_by_id_found in Hget; tauto).
  split; [|split; [|split; [|split; [|split; [|split]]]]].
  - rewrite <- Hv. destruct loc as [l|];
      [destruct (truthy_str (Some l))|]; reflexivity.
  - now rewrite optional_location_applied.
  - destruct loc as [l|]; [destruct (truthy_str (Some l))|]; reflexivity.
  - destruct loc as [l|]; [destruct (truthy_str (Some l))|]; reflexivity.
  - destruct loc as [l|]; [destruct (truthy_str (Some l))|];
      unfold descriptive_fields_equal; repeat split; reflexivity.
  - apply (commit_effect s i d); [exact Hget|].
    destruct loc as [l|]; [destruct (truthy_str (Some l))|]; exact Hid.
  - intros Hok. unfold update_device_status, try_dao. fold s.
    rewrite Hget. fold dto loc.
    destruct (update_device_status_eq s (env_commit_ok env) i dto loc d Hget)
      as (st2 & Hv2 & Heq2).
    assert (st2 = st) as ->.
    { rewrite <- Hv in Hv2. now destruct st2, st. }
    rewrite Heq2, Hok. reflexivity.
Qed.

Lemma update_device_status_unguarded_witness :
  status Sample.probe_retired = Some RETIRED
  /\ exists d' : Device,
       DeviceDAO.update_device_status (session Sample.world_retired) true 1
         Dto_DEPLOYED None
       = Return (Some d',
                 snd (DeviceDAO.commit_refresh (session Sample.world_retired)
                        true d'))
       /\ status_value d' = Some "deployed"
       /\ deploy_date d' = None.
Proof.
  split; [reflexivity|].
  destruct (update_device_status_unguarded Sample.world_retired
              Sample.env_ok 1 Sample.probe_retired
              (DeviceStatusUpdateRequest.mk Dto_DEPLOYED None None) eq_refl)
    as (d' & H1 & H2 & _ & H4 & _).
  exists d'. split; [exact H1|]. split; [exact H2 | exact H4].
Defined.

End MoreTransitions.

(** ** Failed commits and escaping exceptions *)

Section Failures.

Import device_controller.

Lemma commit_refresh_fails (s : Session) (d : Device) :
  DeviceDAO.commit_refresh s false d = (None, s).
Proof. reflexivity. Qed.

Ltac split_scrutinee :=
  match goal with
  | |- context [match ?x with _ => _ end] =>
      lazymatch x with
      | context [match _ with _ => _ end] => fail
      | _ => destruct x eqn:?
      end
  end.

(** X3.  When the commit of the DAO method fails, no request changes the
    database.  The failure is not told apart from the ordinary refusals:
    an update or a retire of a stored device is answered 404 "not found",
    a create with a new serial number is answered 400 "already exists",
    and none of the five transition endpoints answers with success. *)
Theorem failed_commit_rolled_back_and_misreported
    (w : World) (env : Env) (request : Request) :
  env_commit_ok env = false ->
  session (snd (handle w env request)) = session w
  /\ (forall i body d,
        request = PUT_device i body ->
        DeviceDAO.get_device_by_id (session w) i = Return (Some d) ->
        fst (handle w env request) = not_found i)
  /\ (forall i d,
        request = DELETE_device i ->
        DeviceDAO.get_device_by_id (session w) i = Return (Some d) ->
        fst (handle w env request) = not_found i)
  /\ (forall body,
        request = POST_device body ->
        DeviceDAO.get_device_by_serial (session w)
          (DeviceRequest.serial_number body) = Return None ->
        fst (handle w env request)
        = HTTPException 400 "Device with this serial number already exists")
  /\ (forall i act nt body,
        audited_transition request = Some (i, act, nt) ->
        fst (handle w env request) <> Ok body).
Proof.
  intros Hfail. split; [|split; [|split; [|split]]].
  - destruct request; cbn [handle];
      unfold get_all_devices, get_in_stock_devices, get_deployed_devices,
        get_maintenance_devices, get_device_by_id, create_device,
        update_device, delete_device, update_device_status, deploy_device,
        recall_device, send_to_maintenance, reserve_device,
        receive_telemetry, receive_event, get_device_type, try_dao,
        DeviceDAO.create_device, DeviceDAO.update_device,
        DeviceDAO.delete_device, DeviceDAO.update_device_status,
        DeviceDAO.deploy_device, DeviceDAO.recall_device,
        DeviceDAO.send_to_maintenance, DeviceDAO.reserve_device,
        DeviceDAO.get_device_by_id, publish, bind;
      rewrite ?Hfail, ?commit_refresh_fails;
      repeat (split_scrutinee; rewrite ?commit_refresh_fails;
              cbn [fst snd session with_session negb] in *);
      try reflexivity; try congruence.
  - intros i body d -> Hget. cbn [handle]. unfold update_device, try_dao.
    now rewrite (update_device_eq _ _ i _ d Hget), Hfail.
  - intros i d -> Hget. cbn [handle]. unfold delete_device, try_dao.
    now rewrite (delete_device_eq _ _ i d Hget), Hfail.
  - intros body -> Hnew. cbn [handle]. unfold create_device, try_dao.
    destruct (DeviceType_call_dto (DeviceRequest.type body)) as [t ->].
    unfold DeviceDAO.get_device_by_serial in Hnew.
    unfold DeviceDAO.create_device. cbn [serial_number].
    now rewrite Hnew, Hfail.
  - intros i act nt body Hact.
    destruct request; try discriminate Hact; cbn [handle];
      unfold update_device_status, deploy_device, recall_device,
        send_to_maintenance, reserve_device, try_dao;
      (destruct (DeviceDAO.get_device_by_id _ _) as [[d|]|] eqn:Hget;
       [|discriminate|discriminate]).
    + destruct (update_device_status_eq _ (env_commit_ok env) device_id
                  (DeviceStatusUpdateRequest.status body0)
                  (DeviceStatusUpdateRequest.location body0) d Hget)
        as (st & _ & ->).
      rewrite Hfail. discriminate.
    + rewrite (deploy_device_eq _ _ _ _ _ d Hget), Hfail.
      destruct (DeviceDAO.status_in d _); discriminate.
    + rewrite (recall_device_eq _ _ _ _ d Hget), Hfail.
      destruct (status_is DEPLOYED d); discriminate.
    + rewrite (send_to_maintenance_eq _ _ _ _ d Hget), Hfail. discriminate.
    + rewrite (reserve_device_eq _ _ _ d Hget), Hfail.
      destruct (status_is IN_STOCK d); discriminate.
Qed.

Lemma failed_commit_rolled_back_and_misreported_witness :
  DeviceDAO.get_device_by_id (session Sample.world_one) 1
  = Return (Some Sample.probe)
  /\ fst (handle Sample.world_one MoreSamples.env_commit_fails
            (PUT_device 1 Sample.rename_request))
     = HTTPException 404 "Device with ID 1 not found"
  /\ session (snd (handle Sample.world_one MoreSamples.env_commit_fails
                     (PUT_device 1 Sample.rename_request)))
     = session Sample.world_one.
Proof.
  destruct (failed_commit_rolled_back_and_misreported Sample.world_one
              MoreSamples.env_commit_fails
              (PUT_device 1 Sample.rename_request) eq_refl)
    as (Hs & Hu & _).
  split; [reflexivity|]. split; [|exact Hs].
  exact (Hu 1 Sample.rename_request Sample.probe eq_refl eq_refl).
Defined.

Lemma filter_at_most_one {A B : Type} (f : A -> B) (p : A -> bool)
    (c : B) (l : list A) :
  NoDup (map f l) -> (forall x, p x = true -> f x = c) ->
  exists r, one_or_none (filter p l) = Return r.
Proof.
  intros Hnd Hc. destruct (filter p l) as [|x rest] eqn:Hf.
  - now exists None.
  - assert (Hx : In x (filter p l)) by (rewrite Hf; now left).
    apply filter_In in Hx. destruct Hx as [Hin Hp].
    assert (Hu : filter p l = [x]).
    { apply (filter_unique f); try assumption.
      intros y _ Hy. now rewrite (Hc y Hy), (Hc x Hp). }
    rewrite Hu in Hf. inversion Hf. now exists (Some x).
Qed.

Lemma query_by_id_returns (s : Session) (i : Z) :
  consistent s ->
  exists r, one_or_none (filter (id_is i) (devices s)) = Return r.
Proof.
  intros Hc. apply (filter_at_most_one key _ i).
  - apply StronglySorted_lt_NoDup. exact (keys_increasing s Hc).
  - intros x Hx. apply id_is_true in Hx. now apply key_of_id.
Qed.

Lemma query_by_serial_returns (s : Session) (sn : string) :
  consistent s ->
  exists r, one_or_none (filter (serial_is sn) (devices s)) = Return r.
Proof.
  intros Hc. apply (filter_at_most_one serial_number _ sn).
  - exact (serials_unique s Hc).
  - intros x Hx. now apply serial_is_true.
Qed.

Lemma DeviceStatus_call_returns (dto : DeviceStatusDto) :
  exists st, DeviceStatus_call (DeviceStatusDto_value dto) = Return st.
Proof. destruct dto; eexists; reflexivity. Qed.

Ltac answer_not_raised Hc :=
  cbn [handle];
  unfold get_all_devices, get_in_stock_devices, get_deployed_devices,
    get_maintenance_devices, get_device_by_id, create_device,
    update_device, delete_device, update_device_status, deploy_device,
    recall_device, send_to_maintenance, reserve_device,
    receive_telemetry, receive_event, get_device_type, try_dao,
    DeviceDAO.create_device, DeviceDAO.update_device,
    DeviceDAO.delete_device, DeviceDAO.update_device_status,
    DeviceDAO.deploy_device, DeviceDAO.recall_device,
    DeviceDAO.send_to_maintenance, DeviceDAO.reserve_device,
    DeviceDAO.get_device_by_id, DeviceDAO.get_devices_by_status,
    DeviceDAO.commit_refresh, publish;
  try rewrite get_all_devices_eq;
  try match goal with
      | |- context [DeviceType_call (DeviceTypeDto_value ?t)] =>
          destruct (DeviceType_call_dto t) as [? ->]
      end;
  try match goal with
      | |- context [DeviceStatus_call (DeviceStatusDto_value ?t)] =>
          destruct (DeviceStatus_call_returns t) as [? ->]
      end;
  try match goal with
      | |- context [one_or_none (filter (id_is ?i) (devices ?s))] =>
          destruct (query_by_id_returns s i Hc) as [? ->]
      end;
  try match goal with
      | |- context [one_or_none (filter (serial_is ?sn) (devices ?s))] =>
          destruct (query_by_serial_returns s sn Hc) as [? ->]
      end;
  cbn [bind fst snd];
  repeat (split_scrutinee; cbn [bind fst snd negb]);
  discriminate.

Lemma one_or_none_returns_length {A : Type} (rows : list A) :
  (exists r, one_or_none rows = Return r) -> (List.length rows <= 1)%nat.
Proof.
  destruct rows as [|a [|b rest]]; cbn; intros [r H];
    [lia | lia | discriminate H].
Qed.

(** X5.  In a world the service can reach a lookup by id and a lookup by
    serial number meet at most one row each, so [one_or_none()] never
    raises [MultipleResultsFound]; and every value of a DTO enumeration
    is the value of a member of the entity enumeration, so the
    enumeration calls never raise [ValueError].  Hence neither of these
    two exceptions escapes from any endpoint.  (Errors of the database
    driver are outside the embedding; nothing is stated about them.) *)
Theorem lookups_meet_at_most_one_row
    (w : World) (env : Env) (request : Request) (i : Z) (serial : string) :
  reachable w ->
  (List.length (filter (id_is i) (devices (session w))) <= 1)%nat
  /\ (List.length (filter (serial_is serial) (devices (session w))) <= 1)%nat
  /\ DeviceDAO.get_device_by_id (session w) i <> Raise MultipleResultsFound
  /\ DeviceDAO.get_device_by_serial (session w) serial
     <> Raise MultipleResultsFound
  /\ fst (handle w env request) <> Unhandled MultipleResultsFound
  /\ fst (handle w env request) <> Unhandled ValueError.
Proof.
  intros Hr. pose proof (reachable_consistent w Hr) as Hc.
  split; [apply one_or_none_returns_length, query_by_id_returns, Hc|].
  split; [apply one_or_none_returns_length, query_by_serial_returns, Hc|].
  split.
  { unfold DeviceDAO.get_device_by_id.
    destruct (query_by_id_returns (session w) i Hc) as [r ->].
    discriminate. }
  split.
  { unfold DeviceDAO.get_device_by_serial.
    destruct (query_by_serial_returns (session w) serial Hc) as [r ->].
    discriminate. }
  split.
  - destruct request; answer_not_raised Hc.
  - destruct request; answer_not_raised Hc.
Qed.

Lemma lookups_meet_at_most_one_row_witness :
  (List.length (filter (id_is 1) (devices (session Sample.world_one)))
   <= 1)%nat
  /\ fst (handle Sample.world_one Sample.env_ok (GET_device 1))
     <> Unhandled MultipleResultsFound.
Proof.
  destruct (lookups_meet_at_most_one_row Sample.world_one Sample.env_ok
              (GET_device 1) 1 "SN-1" world_one_reachable)
    as (H1 & _ & _ & _ & H5 & _).
  split; [exact H1 | exact H5].
Defined.

End Failures.

(** ** What a request may add to the audit log and to the publisher *)

Section Effects.

Import device_controller.

Ltac open_request :=
  cbn [handle];
  unfold get_all_devices, get_in_stock_devices, get_deployed_devices,
    get_maintenance_devices, get_device_by_id, create_device,
    update_device, delete_device, update_device_status, deploy_device,
    recall_device, send_to_maintenance, reserve_device,
    receive_telemetry, receive_event, get_device_type, try_dao,
    log_transition, DeviceDAO.log_action,
    DeviceDAO.create_device, DeviceDAO.update_device,
    DeviceDAO.delete_device, DeviceDAO.update_device_status,
    DeviceDAO.deploy_device, DeviceDAO.recall_device,
    DeviceDAO.send_to_maintenance, DeviceDAO.reserve_device,
    DeviceDAO.get_device_by_id, DeviceDAO.commit_refresh, publish, bind.

Ltac split_all :=
  repeat (match goal with
          | |- context [match ?x with _ => _ end] =>
              lazymatch x with
              | context [match _ with _ => _ end] => fail
              | _ => destruct x eqn:?
              end
          end;
          cbn [fst snd negb session with_session device_logs
               publisher_calls devices] in *).

(** X7.  The audit log is append-only.  Whatever the request and the
    surroundings, the log afterwards is the log before followed by at
    most one new entry, and an entry is added only by one of the five
    transition endpoints, only when it answers with success and both its
    commits went through.  Create, update of fields, retire, telemetry
    and device events never write to the log. *)
Theorem audit_log_append_only (w : World) (env : Env) (request : Request) :
  exists suffix : list DeviceLog,
    device_logs (session (snd (handle w env request)))
    = device_logs (session w) ++ suffix
    /\ (List.length suffix <= 1)%nat
    /\ (suffix <> [] ->
        (exists i act nt, audited_transition request = Some (i, act, nt))
        /\ env_commit_ok env = true /\ env_log_commit_ok env = true
        /\ exists body, fst (handle w env request) = Ok body).
Proof.
  destruct request; open_request; split_all;
    first
      [ exists []; split; [symmetry; apply app_nil_r|];
        split; [cbn; lia|]; intros H; now contradiction H
      | eexists [_]; split; [reflexivity|]; split; [cbn; lia|]; intros _;
        split; [do 3 eexists; reflexivity|];
        split; [first [assumption | reflexivity]|];
        split; [first [assumption | reflexivity]|];
        eexists; reflexivity ].
Qed.

Lemma audit_log_append_only_witness :
  exists suffix : list DeviceLog,
    device_logs
      (session (snd (handle Sample.world_one Sample.env_ok
                       (DELETE_device 1))))
    = device_logs (session Sample.world_one) ++ suffix
    /\ (List.length suffix <= 1)%nat.
Proof.
  destruct (audit_log_append_only Sample.world_one Sample.env_ok
              (DELETE_device 1)) as (suffix & H1 & H2 & _).
  exists suffix. split; [exact H1 | exact H2].
Defined.

(** X9.  The publisher is called at most once per request, and only by
    the reserve, telemetry and device-event endpoints; earlier calls are
    never dropped or reordered.  A GET request changes neither the
    database nor the publisher. *)
Theorem publisher_calls_append_only
    (w : World) (env : Env) (request : Request) :
  (exists suffix : list Message,
     publisher_calls (snd (handle w env request))
     = publisher_calls w ++ suffix
     /\ (List.length suffix <= 1)%nat
     /\ (suffix <> [] -> publishing_request request = true))
  /\ (get_request request = true -> snd (handle w env request) = w).
Proof.
  split.
  - destruct request; open_request; split_all;
      first
        [ exists []; split; [symmetry; apply app_nil_r|];
          split; [cbn; lia|]; intros H; now contradiction H
        | eexists [_]; split; [reflexivity|]; split; [cbn; lia|];
          intros _; reflexivity ].
  - destruct request; try discriminate; intros _; open_request;
      try rewrite get_all_devices_eq;
      unfold DeviceDAO.get_devices_by_status, bind; split_all; reflexivity.
Qed.

Lemma publisher_calls_append_only_witness :
  snd (handle Sample.world_one Sample.env_ok (GET_type 1))
  = Sample.world_one.
Proof.
  exact (proj2 (publisher_calls_append_only Sample.world_one Sample.env_ok
                  (GET_type 1)) eq_refl).
Defined.

(** X10.  For the five transition endpoints the audit entry and the
    reservation event are best effort: the answer and the stored devices
    are the same whether or not the commit of the log entry and the
    publish succeed.  When the commit of the log entry fails, the
    transition stays committed and the log is left as it was. *)
Theorem log_and_publish_failures_not_fatal
    (w : World) (request : Request) (utcnow : Z)
    (commit_ok log_ok log_ok' publish_ok publish_ok' : bool) :
  audited_transition request <> None ->
  let r := handle w (mkEnv utcnow commit_ok log_ok publish_ok) request in
  let r' := handle w (mkEnv utcnow commit_ok log_ok' publish_ok') request in
  fst r = fst r'
  /\ devices (session (snd r)) = devices (session (snd r'))
  /\ (log_ok = false ->
      device_logs (session (snd r)) = device_logs (session w)).
Proof.
  intros Hact r r'. subst r r'.
  destruct request; try (now contradiction Hact); clear Hact;
    open_request;
    cbn [env_utcnow env_commit_ok env_log_commit_ok env_publish_ok];
    split_all;
    (split; [reflexivity | split; [reflexivity|]]);
    first [reflexivity | intros H; discriminate H | intros ->; reflexivity].
Qed.

Lemma log_and_publish_failures_not_fatal_witness :
  fst (handle Sample.world_one MoreSamples.env_side_effects_fail
         (PUT_reserve 1 (ReserveRequest.mk None)))
  = fst (handle Sample.world_one Sample.env_ok
           (PUT_reserve 1 (ReserveRequest.mk None)))
  /\ device_logs
       (session (snd (handle Sample.world_one
                        MoreSamples.env_side_effects_fail
                        (PUT_reserve 1 (ReserveRequest.mk None)))))
     = device_logs (session Sample.world_one).
Proof.
  assert (Hact : audited_transition (PUT_reserve 1 (ReserveRequest.mk None))
                 <> None) by discriminate.
  destruct (log_and_publish_failures_not_fatal Sample.world_one
              (PUT_reserve 1 (ReserveRequest.mk None)) 1000 true false true
              false true Hact) as (H1 & _ & H3).
  split; [exact H1 | exact (H3 eq_refl)].
Defined.

End Effects.

(** ** Records are kept, and found again *)

Section Storage.

Import device_controller.

Lemma flush_update_identity (rows : list Device) (i : Z) (d d' : Device) :
  one_or_none (filter (id_is i) rows) = Return (Some d) ->
  identity d' = identity d ->
  map identity (flush_update d' rows) = map identity rows.
Proof.
  intros Hq Hsame. apply one_or_none_some in Hq.
  assert (Hd : id d = Some i).
  { apply filter_singleton_in in Hq. now apply id_is_true. }
  assert (Hid : id d' = Some i).
  { rewrite <- Hd. unfold identity in Hsame. congruence. }
  unfold flush_update. rewrite Hid, map_map. apply map_ext_in.
  intros r Hr. destruct (id_is i r) eqn:Hri; [|reflexivity].
  assert (Hin : In r (filter (id_is i) rows)) by now apply filter_In.
  rewrite Hq in Hin. destruct Hin as [<-|[]]. exact Hsame.
Qed.

Ltac open_mutation :=
  cbn [handle];
  unfold get_all_devices, get_in_stock_devices, get_deployed_devices,
    get_maintenance_devices, get_device_by_id, create_device,
    update_device, delete_device, update_device_status, deploy_device,
    recall_device, send_to_maintenance, reserve_device,
    receive_telemetry, receive_event, get_device_type, try_dao,
    log_transition, DeviceDAO.log_action,
    DeviceDAO.create_device, DeviceDAO.update_device,
    DeviceDAO.delete_device, DeviceDAO.update_device_status,
    DeviceDAO.deploy_device, DeviceDAO.recall_device,
    DeviceDAO.send_to_maintenance, DeviceDAO.reserve_device,
    DeviceDAO.get_device_by_id, DeviceDAO.commit_refresh, publish, bind.

Ltac split_mutation :=
  repeat (match goal with
          | |- context [match ?x with _ => _ end] =>
              lazymatch x with
              | context [match _ with _ => _ end] => fail
              | _ => destruct x eqn:?
              end
          end;
          cbn [fst snd negb session with_session device_logs
               publisher_calls devices] in *).

(** X8.  No request removes a record or changes what identifies one.  The
    list of (id, serial_number, type, purchase_date, created_at) of the
    stored devices, in table order, is after any request the list before
    followed by at most one new item, and an item is added only by a
    create request that answers with success.  Retire keeps the row. *)
Theorem records_kept_with_their_identity
    (w : World) (env : Env) (request : Request) :
  exists added : list Device,
    map identity (devices (session (snd (handle w env request))))
    = map identity (devices (session w)) ++ map identity added
    /\ (List.length added <= 1)%nat
    /\ (added <> [] ->
        exists body d,
          request = POST_device body
          /\ fst (handle w env request) = Ok (DeviceResponse d)
          /\ added = [d]).
Proof.
  destruct request; open_mutation; split_mutation;
    first
      [ exists []; split; [symmetry; apply app_nil_r|];
        split; [cbn; lia|]; intros H; now contradiction H
      | exists []; split;
        [ cbn [map]; rewrite app_nil_r;
          eapply flush_update_identity; [eassumption | reflexivity]
        | split; [cbn; lia|]; intros H; now contradiction H ]
      | eexists [_]; split; [rewrite map_app; reflexivity|];
        split; [cbn; lia|]; intros _; do 2 eexists;
        split; [reflexivity|]; split; reflexivity ].
Qed.

Lemma records_kept_with_their_identity_witness :
  exists added : list Device,
    map identity
      (devices (session (snd (handle Sample.world_one Sample.env_ok
                                (DELETE_device 1)))))
    = map identity (devices (session Sample.world_one)) ++ map identity added
    /\ (List.length added <= 1)%nat.
Proof.
  destruct (records_kept_with_their_identity Sample.world_one Sample.env_ok
              (DELETE_device 1)) as (added & H1 & H2 & _).
  exists added. split; [exact H1 | exact H2].
Defined.

(** X14.  In a world the service can reach every stored device is the
    one row returned by the lookup by its id and by the lookup by its
    serial number, and a lookup returns only stored rows that carry the
    key asked for. *)
Theorem stored_device_found_by_id_and_serial
    (w : World) (d : Device) :
  reachable w -> In d (devices (session w)) ->
  DeviceDAO.get_device_by_id (session w) (key d) = Return (Some d)
  /\ DeviceDAO.get_device_by_serial (session w) (serial_number d)
     = Return (Some d)
  /\ (forall i d',
        DeviceDAO.get_device_by_id (session w) i = Return (Some d') ->
        In d' (devices (session w)) /\ id d' = Some i)
  /\ (forall sn d',
        DeviceDAO.get_device_by_serial (session w) sn = Return (Some d') ->
        In d' (devices (session w)) /\ serial_number d' = sn).
Proof.
  intros Hr Hin. pose proof (reachable_consistent w Hr) as Hc.
  split; [|split; [|split]].
  - unfold DeviceDAO.get_device_by_id.
    pose proof (keys_assigned _ Hc) as Hk. rewrite Forall_forall in Hk.
    destruct (Hk d Hin) as [Hid _].
    rewrite (filter_unique key (id_is (key d)) (devices (session w)) d).
    + reflexivity.
    + apply StronglySorted_lt_NoDup. exact (keys_increasing _ Hc).
    + exact Hin.
    + now apply id_is_true.
    + intros y _ Hy. apply id_is_true in Hy. now apply key_of_id.
  - unfold DeviceDAO.get_device_by_serial.
    now rewrite (filter_serial_unique _ _ Hc Hin).
  - intros i d' H. apply get_device_by_id_found in H. tauto.
  - intros sn d' H. unfold DeviceDAO.get_device_by_serial in H.
    apply one_or_none_some, filter_singleton_in in H.
    split; [tauto|]. now apply serial_is_true.
Qed.

Lemma stored_device_found_by_id_and_serial_witness :
  DeviceDAO.get_device_by_id (session Sample.world_three) 3
  = Return (Some Sample.hub)
  /\ DeviceDAO.get_device_by_serial (session Sample.world_three) "SN-3"
     = Return (Some Sample.hub).
Proof.
  assert (Hr : reachable Sample.world_three).
  { exact (reachable_handle _ Sample.env_ok
             (POST_device Sample.gateway_request)
             (reachable_handle _ Sample.env_ok
                (POST_device Sample.valve_request) world_one_reachable)). }
  destruct (stored_device_found_by_id_and_serial Sample.world_three
              Sample.hub Hr) as (H1 & H2 & _).
  - cbn. right. right. left. reflexivity.
  - split; [exact H1 | exact H2].
Defined.

End Storage.

(** ** Create and look up; maintenance and deploy; listing; keywords *)

Section Compositions.

Import device_controller.

(** X4.  A create request with a serial number that is not stored, the
    store committing, stores one new device at the end of the table: it
    carries the fields of the request, the next id of the store, status
    in_stock and no deploy date.  Afterwards the lookups by that id and by
    that serial number return it, the type endpoint returns the type of
    the request, every other id is looked up as before, and neither the
    audit log nor the publisher was touched. *)
Theorem create_then_lookup
    (w : World) (env : Env) (request : DeviceRequest.t) :
  reachable w ->
  DeviceDAO.get_device_by_serial (session w)
    (DeviceRequest.serial_number request) = Return None ->
  env_commit_ok env = true ->
  let i := next_device_id (session w) in
  let w0 := snd (create_device w env request) in
  exists d0 : Device,
    fst (create_device w env request) = Ok (DeviceResponse d0)
    /\ devices (session w0) = devices (session w) ++ [d0]
    /\ id d0 = Some i /\ status d0 = Some IN_STOCK
    /\ name d0 = PyStr (DeviceRequest.name request)
    /\ serial_number d0 = DeviceRequest.serial_number request
    /\ description d0 = DeviceRequest.description request
    /\ location d0 = DeviceRequest.location request
    /\ specifications d0 = DeviceRequest.specifications request
    /\ deploy_date d0 = None
    /\ DeviceDAO.get_device_by_id (session w0) i = Return (Some d0)
    /\ DeviceDAO.get_device_by_serial (session w0)
         (DeviceRequest.serial_number request) = Return (Some d0)
    /\ fst (get_device_type w0 i)
       = Ok (DeviceTypeResponse i
               (DeviceTypeDto_value (DeviceRequest.type request)))
    /\ (forall j, j <> i ->
          DeviceDAO.get_device_by_id (session w0) j
          = DeviceDAO.get_device_by_id (session w) j)
    /\ device_logs (session w0) = device_logs (session w)
    /\ publisher_calls w0 = publisher_calls w.
Proof.
  intros Hr Hnew Hok. cbv zeta.
  pose proof (reachable_consistent w Hr) as Hc.
  set (i := next_device_id (session w)).
  destruct (DeviceType_call_dto_value (DeviceRequest.type request))
    as (t & Ht & Hv).
  unfold DeviceDAO.get_device_by_serial in *.
  unfold create_device, try_dao. rewrite Ht.
  unfold DeviceDAO.create_device. cbn [serial_number].
  rewrite Hnew. cbn [bind]. rewrite Hok.
  cbn [negb fst snd session with_session devices device_logs
       publisher_calls].
  fold i. eexists. split; [reflexivity|]. split; [reflexivity|].
  do 8 (split; [reflexivity|]).
  assert (Hf : filter (id_is i) (devices (session w)) = [])
    by exact (filter_id_fresh _ Hc).
  apply one_or_none_none in Hnew.
  split; [|split; [|split; [|split; [|split]]]].
  - unfold DeviceDAO.get_device_by_id. cbn [devices].
    rewrite filter_app, Hf. cbn [filter app]. unfold id_is.
    cbn [id flush_insert set_created_at set_status set_id].
    now rewrite Z.eqb_refl.
  - rewrite filter_app, Hnew. cbn [filter app]. unfold serial_is.
    cbn [serial_number flush_insert set_created_at set_status set_id].
    now rewrite String.eqb_refl.
  - unfold get_device_type, try_dao, DeviceDAO.get_device_by_id.
    cbn [session with_session devices]. rewrite filter_app, Hf.
    cbn [filter app]. unfold id_is.
    cbn [id flush_insert set_created_at set_status set_id].
    rewrite Z.eqb_refl.
    cbn [one_or_none fst type flush_insert set_created_at set_status set_id].
    now rewrite Hv.
  - intros j Hj. unfold DeviceDAO.get_device_by_id. cbn [devices].
    rewrite filter_app. cbn [filter]. unfold id_is at 2.
    cbn [id flush_insert set_created_at set_status set_id].
    apply Z.eqb_neq in Hj. rewrite Z.eqb_sym, Hj. now rewrite app_nil_r.
  - reflexivity.
  - reflexivity.
Qed.

Lemma create_then_lookup_witness :
  exists d0 : Device,
    fst (create_device initial_world Sample.env_ok Sample.probe_request)
    = Ok (DeviceResponse d0)
    /\ DeviceDAO.get_device_by_serial
         (session (snd (create_device initial_world Sample.env_ok
                          Sample.probe_request))) "SN-1"
       = Return (Some d0).
Proof.
  destruct (create_then_lookup initial_world Sample.env_ok
              Sample.probe_request reachable_initial eq_refl eq_refl)
    as (d0 & H1 & _ & _ & _ & _ & _ & _ & _ & _ & _ & _ & H2 & _).
  exists d0. split; [exact H1 | exact H2].
Defined.

(** X11.  No status is final: whatever the status of a stored device,
    retired included, sending it to maintenance and then deploying it
    succeeds (the store committing), and leaves it deployed at the
    requested location with both dates set and with its id, name, type,
    serial_number, description, specifications, purchase_date and
    created_at as before.  Nothing is stated of [updated_at], which the
    store refreshes at each of the two commits. *)
Theorem any_device_deployable_through_maintenance
    (w : World) (env1 env2 : Env) (i : Z) (d : Device)
    (mreq : MaintenanceRequest.t) (dreq : DeployRequest.t) :
  DeviceDAO.get_device_by_id (session w) i = Return (Some d) ->
  env_commit_ok env1 = true -> env_commit_ok env2 = true ->
  let w1 := snd (send_to_maintenance w env1 i mreq) in
  let w2 := snd (deploy_device w1 env2 i dreq) in
  exists d2 : Device,
    fst (deploy_device w1 env2 i dreq)
    = Ok (ActionResponse true
            ("Device " ++ str i ++ " deployed to "
             ++ DeployRequest.location dreq)%string (Some d2))
    /\ status d2 = Some DEPLOYED
    /\ location d2 = PyStr (DeployRequest.location dreq)
    /\ last_maintenance_date d2 = Some (env_utcnow env1)
    /\ deploy_date d2 = Some (env_utcnow env2)
    /\ descriptive_fields_equal d d2
    /\ DeviceDAO.get_device_by_id (session w2) i = Return (Some d2).
Proof.
  intros Hget Hok1 Hok2. cbv zeta.
  assert (Hid : id d = Some i)
    by (apply get_device_by_id_found in Hget; tauto).
  set (dm := set_last_maintenance_date (Some (env_utcnow env1))
               (set_status (Some MAINTENANCE) d)).
  assert (Hw1 : exists logs,
             snd (send_to_maintenance w env1 i mreq)
             = mkWorld
                 (mkSession (flush_update dm (devices (session w))) logs
                    (next_device_id (session w)))
                 (publisher_calls w)).
  { unfold send_to_maintenance, try_dao. rewrite Hget.
    rewrite (send_to_maintenance_eq _ _ _ i d Hget), Hok1.
    unfold log_transition, DeviceDAO.log_action.
    destruct (env_log_commit_ok env1); eexists; reflexivity. }
  destruct Hw1 as [logs ->].
  set (w1 := mkWorld _ _).
  assert (Hget1 : DeviceDAO.get_device_by_id (session w1) i
                  = Return (Some dm)).
  { unfold DeviceDAO.get_device_by_id in *. cbn [session w1 devices].
    apply one_or_none_some in Hget.
    now rewrite (filter_after_flush _ i d dm Hget Hid). }
  unfold deploy_device, try_dao. rewrite Hget1.
  rewrite (deploy_device_eq _ _ _ i _ dm Hget1), Hok2.
  cbn [DeviceDAO.status_in status dm set_last_maintenance_date set_status
       existsb DeviceStatus_eqb orb DeviceDAO.commit_refresh fst snd].
  match goal with
  | |- context [ActionResponse true _ (Some ?x)] => set (d2 := x)
  end.
  assert (Hid2 : id d2 = Some i) by exact Hid.
  exists d2. split; [reflexivity|].
  do 4 (split; [reflexivity|]).
  split; [unfold descriptive_fields_equal; repeat split; reflexivity|].
  unfold log_transition, DeviceDAO.log_action, DeviceDAO.get_device_by_id.
  apply one_or_none_some in Hget1. cbn [session w1 devices] in Hget1.
  destruct (env_log_commit_ok env2); unfold w1;
    cbn [snd session with_session devices];
    now rewrite (filter_after_flush _ i dm d2 Hget1 Hid2).
Qed.

Lemma any_device_deployable_through_maintenance_witness :
  status Sample.probe_retired = Some RETIRED
  /\ exists d2 : Device,
       fst (deploy_device
              (snd (send_to_maintenance Sample.world_retired Sample.env_ok 1
                      (MaintenanceRequest.mk None)))
              Sample.env_ok 1 (DeployRequest.mk "Field-7" None))
       = Ok (ActionResponse true "Device 1 deployed to Field-7" (Some d2))
       /\ status d2 = Some DEPLOYED.
Proof.
  split; [reflexivity|].
  destruct (any_device_deployable_through_maintenance Sample.world_retired
              Sample.env_ok Sample.env_ok 1 Sample.probe_retired
              (MaintenanceRequest.mk None) (DeployRequest.mk "Field-7" None)
              eq_refl eq_refl eq_refl) as (d2 & H1 & H2 & _).
  exists d2. split; [exact H1 | exact H2].
Defined.

End Compositions.

(** ** Listings and keyword updates *)

Section Listings.

Import device_controller.

Lemma in_firstn {A : Type} (n : nat) (l : list A) (x : A) :
  In x (firstn n l) -> In x l.
Proof.
  intros H. rewrite <- (firstn_skipn n l). apply in_or_app. now left.
Qed.

Lemma in_skipn {A : Type} (n : nat) (l : list A) (x : A) :
  In x (skipn n l) -> In x l.
Proof.
  intros H. rewrite <- (firstn_skipn n l). apply in_or_app. now right.
Qed.

(** X12.  The listing endpoint refuses with 422 a page below 1 and a page
    size outside 1..100, without looking at the database.  Otherwise it
    answers with at most [page_size] devices, hence at most 100, never
    more than the total it reports; the total is the number of stored
    devices matching the filter, and every device returned is a stored
    device matching the filter.  In both cases the world is unchanged. *)
Theorem get_all_devices_endpoint_bounds
    (w : World) (st : option DeviceStatusDto) (ty : option DeviceTypeDto)
    (page page_size : Z) :
  let total :=
    Z.of_nat (List.length (filter (matches st ty) (devices (session w)))) in
  (page < 1 \/ page_size < 1 \/ 100 < page_size ->
   exists detail,
     get_all_devices w st ty page page_size = (HTTPException 422 detail, w))
  /\ (1 <= page -> 1 <= page_size <= 100 ->
      exists rows : list Device,
        get_all_devices w st ty page page_size
        = (Ok (DeviceListResponse rows total page page_size), w)
        /\ Z.of_nat (List.length rows) <= page_size
        /\ Z.of_nat (List.length rows) <= total
        /\ forall d, In d rows ->
             In d (devices (session w)) /\ matches st ty d = true).
Proof.
  intros total. unfold get_all_devices, try_dao. split.
  - intros H.
    assert (Hb : (page <? 1) || (page_size <? 1) || (100 <? page_size) = true).
    { destruct H as [H|[H|H]]; apply Z.ltb_lt in H; rewrite H;
        now rewrite ?orb_true_r. }
    rewrite Hb. now eexists.
  - intros Hp [Hs1 Hs2].
    assert (Hb : (page <? 1) || (page_size <? 1) || (100 <? page_size)
                 = false).
    { assert (H1 : (page <? 1) = false) by (apply Z.ltb_ge; lia).
      assert (H2 : (page_size <? 1) = false) by (apply Z.ltb_ge; lia).
      assert (H3 : (100 <? page_size) = false) by (apply Z.ltb_ge; lia).
      now rewrite H1, H2, H3. }
    rewrite Hb, get_all_devices_eq. fold total.
    eexists. split; [reflexivity|]. unfold sql_limit, sql_offset.
    split; [|split].
    + pose proof (firstn_le_length (Z.to_nat page_size)
                    (skipn (Z.to_nat ((page - 1) * page_size))
                       (filter (matches st ty) (devices (session w))))).
      lia.
    + rewrite length_firstn, length_skipn. unfold total. lia.
    + intros d Hd. apply in_firstn, in_skipn in Hd.
      now apply filter_In in Hd.
Qed.

Lemma get_all_devices_endpoint_bounds_witness :
  (exists detail,
     get_all_devices Sample.world_three None None 1 101
     = (HTTPException 422 detail, Sample.world_three))
  /\ exists rows : list Device,
       get_all_devices Sample.world_three None None 2 2
       = (Ok (DeviceListResponse rows 3 2 2), Sample.world_three)
       /\ Z.of_nat (List.length rows) <= 2.
Proof.
  destruct (get_all_devices_endpoint_bounds Sample.world_three None None
              1 101) as [H1 _].
  destruct (get_all_devices_endpoint_bounds Sample.world_three None None
              2 2) as [_ H2].
  split.
  - apply H1. right. right. lia.
  - destruct H2 as (rows & Ha & Hb & _); [lia | lia |].
    exists rows. split; [exact Ha | exact Hb].
Defined.

Lemma matches_status_only (dto : DeviceStatusDto) (v : DeviceStatus)
    (d : Device) :
  DeviceStatus_value v = DeviceStatusDto_value dto ->
  matches (Some dto) None d = status_is v d.
Proof.
  intros Hv. unfold matches. rewrite andb_true_r.
  symmetry. now apply status_is_by_value.
Qed.

Lemma get_devices_by_status_eq (s : Session) (dto : DeviceStatusDto) :
  DeviceDAO.get_devices_by_status s dto
  = Return (filter (matches (Some dto) None) (devices s)).
Proof.
  unfold DeviceDAO.get_devices_by_status.
  destruct (DeviceStatus_call_dto dto) as (v & -> & Hv). cbn [bind].
  f_equal. apply filter_ext. intros d. symmetry.
  now apply matches_status_only.
Qed.

(** X6.  The query by status and the listing agree: the rows
    [get_devices_by_status] returns for a status are, in the same order,
    the first page of [get_all_devices] filtered on that status when the
    page is large enough to hold them, and they are exactly the stored
    devices whose status has that value.  The in-stock, deployed and
    maintenance endpoints answer with these rows and change nothing. *)
Theorem status_views_agree_with_listing
    (w : World) (dto : DeviceStatusDto) (P : Z) :
  let s := session w in
  let rows := filter (matches (Some dto) None) (devices s) in
  Z.of_nat (List.length rows) <= P ->
  DeviceDAO.get_devices_by_status s dto = Return rows
  /\ DeviceDAO.get_all_devices s (Some dto) None 1 P
     = Return (rows, Z.of_nat (List.length rows))
  /\ (forall d, In d rows <->
                In d (devices s)
                /\ status_value d = Some (DeviceStatusDto_value dto))
  /\ get_in_stock_devices w
     = (Ok (DeviceResponseList
              (filter (matches (Some Dto_IN_STOCK) None) (devices s))), w)
  /\ get_deployed_devices w
     = (Ok (DeviceResponseList
              (filter (matches (Some Dto_DEPLOYED) None) (devices s))), w)
  /\ get_maintenance_devices w
     = (Ok (DeviceResponseList
              (filter (matches (Some Dto_MAINTENANCE) None) (devices s))), w).
Proof.
  intros s rows HP. split; [apply get_devices_by_status_eq|].
  split; [|split; [|split; [|split]]].
  - rewrite get_all_devices_eq. fold s rows. f_equal. f_equal.
    unfold sql_limit, sql_offset. cbn [Z.sub Z.mul Z.to_nat Z.opp Z.add
      Z.pos_sub skipn].
    change (Z.to_nat ((1 - 1) * P)) with 0%nat. cbn [skipn].
    apply firstn_all2. lia.
  - intros d. unfold rows. rewrite filter_In.
    assert (Hm : matches (Some dto) None d = true
                 <-> status_value d = Some (DeviceStatusDto_value dto)).
    { unfold matches, status_value. rewrite andb_true_r.
      destruct (status d) as [st'|]; cbn [option_map].
      - rewrite String.eqb_eq. split; [now intros ->|].
        intros H. now inversion H.
      - split; discriminate. }
    now rewrite Hm.
  - unfold get_in_stock_devices, try_dao.
    now rewrite get_devices_by_status_eq.
  - unfold get_deployed_devices, try_dao.
    now rewrite get_devices_by_status_eq.
  - unfold get_maintenance_devices, try_dao.
    now rewrite get_devices_by_status_eq.
Qed.

Lemma status_views_agree_with_listing_witness :
  DeviceDAO.get_devices_by_status (session MoreSamples.world_deployed)
    Dto_DEPLOYED
  = Return [MoreSamples.probe_deployed]
  /\ DeviceDAO.get_all_devices (session MoreSamples.world_deployed)
       (Some Dto_DEPLOYED) None 1 20
     = Return ([MoreSamples.probe_deployed], 1).
Proof.
  assert (H20 : Z.of_nat
                  (List.length
                     (filter (matches (Some Dto_DEPLOYED) None)
                        (devices (session MoreSamples.world_deployed))))
                <= 20) by (cbn; lia).
  destruct (status_views_agree_with_listing MoreSamples.world_deployed
              Dto_DEPLOYED 20 H20) as (H1 & H2 & _).
  split; [exact H1 | exact H2].
Defined.

(** X15.  In a world the service can reach the five queries by status
    split the table: every stored device is returned for exactly one
    status, so the five row counts add up to the number of stored
    devices. *)
Theorem status_views_partition_the_table (w : World) :
  reachable w ->
  (count_by_status (session w) Dto_IN_STOCK
   + count_by_status (session w) Dto_RESERVED
   + count_by_status (session w) Dto_DEPLOYED
   + count_by_status (session w) Dto_MAINTENANCE
   + count_by_status (session w) Dto_RETIRED)%nat
  = List.length (devices (session w)).
Proof.
  intros Hr. pose proof (status_assigned _ (reachable_consistent w Hr)) as Hs.
  unfold count_by_status, DeviceDAO.get_devices_by_status.
  change (DeviceStatus_call (DeviceStatusDto_value Dto_IN_STOCK))
    with (Return IN_STOCK).
  change (DeviceStatus_call (DeviceStatusDto_value Dto_RESERVED))
    with (Return RESERVED).
  change (DeviceStatus_call (DeviceStatusDto_value Dto_DEPLOYED))
    with (Return DEPLOYED).
  change (DeviceStatus_call (DeviceStatusDto_value Dto_MAINTENANCE))
    with (Return MAINTENANCE).
  change (DeviceStatus_call (DeviceStatusDto_value Dto_RETIRED))
    with (Return RETIRED).
  cbn [bind]. unfold status_is.
  induction (devices (session w)) as [|a l IH]; [reflexivity|].
  inversion Hs as [|? ? Ha Hl]; subst. specialize (IH Hl).
  cbn [filter].
  destruct (status a) as [[]|]; [..|contradiction];
    cbn [DeviceStatus_eqb List.length]; lia.
Qed.

Lemma status_views_partition_the_table_witness :
  (count_by_status (session Sample.world_three) Dto_IN_STOCK
   + count_by_status (session Sample.world_three) Dto_RESERVED
   + count_by_status (session Sample.world_three) Dto_DEPLOYED
   + count_by_status (session Sample.world_three) Dto_MAINTENANCE
   + count_by_status (session Sample.world_three) Dto_RETIRED)%nat
  = 3%nat.
Proof.
  apply (status_views_partition_the_table Sample.world_three).
  exact (reachable_handle _ Sample.env_ok
           (POST_device Sample.gateway_request)
           (reachable_handle _ Sample.env_ok
              (POST_device Sample.valve_request) world_one_reachable)).
Defined.

End Listings.

(** ** Keyword updates, the reservation event, retiring twice *)

Section Keywords.

Import device_controller.

Lemma apply_kwargs_assigned (proj : Device -> PyVal) (f : string) :
  (forall d v, proj (DeviceDAO.assign_allowed d (f, v)) = v) ->
  (forall d field value,
     field <> f -> proj (DeviceDAO.assign_allowed d (field, value)) = proj d) ->
  forall kwargs d v,
    NoDup (map fst kwargs) -> In (f, v) kwargs ->
    proj (apply_kwargs kwargs d) = v.
Proof.
  intros Hset Hother.
  induction kwargs as [|item kwargs IH]; intros d v Hnd Hin; [contradiction|].
  cbn [map] in Hnd. inversion Hnd as [|? ? Hnot Hnd']; subst.
  destruct Hin as [->|Hin].
  - change (apply_kwargs ((f, v) :: kwargs) d)
      with (apply_kwargs kwargs (DeviceDAO.assign_allowed d (f, v))).
    rewrite (apply_kwargs_untouched proj f Hother); [apply Hset|exact Hnot].
  - change (apply_kwargs (item :: kwargs) d)
      with (apply_kwargs kwargs (DeviceDAO.assign_allowed d item)).
    now apply IH.
Qed.

Lemma apply_kwargs_allowed_only (kwargs : list (string * PyVal))
    (d : Device) :
  apply_kwargs (filter allowed_keyword kwargs) d = apply_kwargs kwargs d.
Proof.
  revert d. induction kwargs as [|[field value] kwargs IH]; intros d;
    [reflexivity|].
  cbn [filter]. unfold allowed_keyword at 1. cbn [fst].
  destruct (existsb (String.eqb field) DeviceDAO.allowed_fields) eqn:Ha.
  - change (apply_kwargs ((field, value) :: filter allowed_keyword kwargs) d)
      with (apply_kwargs (filter allowed_keyword kwargs)
              (DeviceDAO.assign_allowed d (field, value))).
    now rewrite IH.
  - rewrite IH.
    change (apply_kwargs ((field, value) :: kwargs) d)
      with (apply_kwargs kwargs (DeviceDAO.assign_allowed d (field, value))).
    unfold DeviceDAO.assign_allowed. now rewrite Ha.
Qed.

(** X13.  [update_device] on a stored device, the store committing,
    returns the device in which each of name, description, location and
    specifications given as a keyword holds the keyword's value, [None]
    included.  Keywords outside these four are ignored: dropping them
    from the call gives the same result. *)
Theorem update_device_assigns_keywords
    (s : Session) (i : Z) (d : Device) (kwargs : list (string * PyVal)) :
  DeviceDAO.get_device_by_id s i = Return (Some d) ->
  NoDup (map fst kwargs) ->
  exists d' : Device,
    DeviceDAO.update_device s true i kwargs
    = Return (Some d', snd (DeviceDAO.commit_refresh s true d'))
    /\ (forall v, In ("name", v) kwargs -> name d' = v)
    /\ (forall v, In ("description", v) kwargs -> description d' = v)
    /\ (forall v, In ("location", v) kwargs -> location d' = v)
    /\ (forall v, In ("specifications", v) kwargs -> specifications d' = v)
    /\ DeviceDAO.update_device s true i (filter allowed_keyword kwargs)
       = DeviceDAO.update_device s true i kwargs.
Proof.
  intros Hget Hnd. exists (apply_kwargs kwargs d).
  split; [exact (update_device_eq s true i kwargs d Hget)|].
  split; [|split; [|split; [|split]]].
  - intros v Hin.
    apply (apply_kwargs_assigned name "name"); try assumption.
    + reflexivity.
    + apply assign_allowed_name.
  - intros v Hin.
    apply (apply_kwargs_assigned description "description");
      try assumption.
    + reflexivity.
    + apply assign_allowed_description.
  - intros v Hin.
    apply (apply_kwargs_assigned location "location"); try assumption.
    + reflexivity.
    + apply assign_allowed_location.
  - intros v Hin.
    apply (apply_kwargs_assigned specifications "specifications");
      try assumption.
    + reflexivity.
    + apply assign_allowed_specifications.
  - rewrite !(update_device_eq s true i _ d Hget).
    now rewrite apply_kwargs_allowed_only.
Qed.

Lemma update_device_assigns_keywords_witness :
  exists d' : Device,
    DeviceDAO.update_device (session Sample.world_one) true 1
      [("location", PyNone); ("owner", PyStr "lab")]
    = Return (Some d',
              snd (DeviceDAO.commit_refresh (session Sample.world_one)
                     true d'))
    /\ location d' = PyNone.
Proof.
  assert (Hnd : NoDup (map fst [("location", PyNone);
                                ("owner", PyStr "lab")])).
  { cbn. constructor.
    - intros [H|[]]. discriminate H.
    - constructor; [intros [] | constructor]. }
  destruct (update_device_assigns_keywords (session Sample.world_one) 1
              Sample.probe [("location", PyNone); ("owner", PyStr "lab")]
              eq_refl Hnd) as (d' & H1 & _ & _ & H3 & _).
  exists d'. split; [exact H1|]. apply H3. left. reflexivity.
Defined.

(** X16.  The reservation event goes out exactly when the reservation is
    committed: for a stored device the reserve endpoint hands to the
    publisher one "device_reserved" event with the id and name of the
    device and the notes of the request when the device was in stock and
    the commit went through, and nothing otherwise; the event is sent
    even when the audit entry could not be written. *)
Theorem reserve_publishes_iff_committed
    (w : World) (env : Env) (i : Z) (d : Device) (req : ReserveRequest.t) :
  DeviceDAO.get_device_by_id (session w) i = Return (Some d) ->
  publisher_calls (snd (reserve_device w env i req))
  = if status_is IN_STOCK d && env_commit_ok env
    then publisher_calls w
         ++ [DeviceEvent (Some i) (name d) "device_reserved"
               (PyDict [("notes", py_of_notes (ReserveRequest.notes req))])]
    else publisher_calls w.
Proof.
  intros Hget.
  assert (Hid : id d = Some i)
    by (apply get_device_by_id_found in Hget; tauto).
  unfold reserve_device, try_dao. rewrite Hget.
  rewrite (reserve_device_eq _ _ i d Hget).
  destruct (status_is IN_STOCK d); [|reflexivity].
  destruct (env_commit_ok env); [|reflexivity].
  cbn [DeviceDAO.commit_refresh andb publish snd publisher_calls
       log_transition with_session id name set_status].
  now rewrite Hid.
Qed.

Lemma reserve_publishes_iff_committed_witness :
  publisher_calls
    (snd (reserve_device Sample.world_one MoreSamples.env_side_effects_fail 1
            (ReserveRequest.mk (Some "order 7"))))
  = [DeviceEvent (Some 1) (PyStr "Probe") "device_reserved"
       (PyDict [("notes", PyStr "order 7")])].
Proof.
  exact (reserve_publishes_iff_committed Sample.world_one
           MoreSamples.env_side_effects_fail 1 Sample.probe
           (ReserveRequest.mk (Some "order 7")) eq_refl).
Defined.

Lemma flush_update_twice (d' : Device) (i : Z) (rows : list Device) :
  id d' = Some i ->
  flush_update d' (flush_update d' rows) = flush_update d' rows.
Proof.
  intros Hid. unfold flush_update. rewrite Hid, map_map.
  apply map_ext. intros r. destruct (id_is i r) eqn:Hr.
  - assert (Hd : id_is i d' = true) by now apply id_is_true.
    now rewrite Hd.
  - now rewrite Hr.
Qed.

(** X17.  Retiring is idempotent: for a stored device, the store
    committing, a second delete request answers with success like the
    first and leaves the world exactly as the first left it. *)
Theorem delete_device_idempotent
    (w : World) (env env2 : Env) (i : Z) (d : Device) :
  DeviceDAO.get_device_by_id (session w) i = Return (Some d) ->
  env_commit_ok env = true -> env_commit_ok env2 = true ->
  let w1 := snd (delete_device w env i) in
  delete_device w1 env2 i
  = (Ok (ActionResponse true
           ("Device " ++ str i ++ " has been retired")%string None), w1)
  /\ fst (delete_device w env i) = fst (delete_device w1 env2 i).
Proof.
  intros Hget Hok Hok2. cbv zeta.
  set (dr := set_status (Some RETIRED) d).
  assert (Hid : id dr = Some i)
    by (apply get_device_by_id_found in Hget; tauto).
  assert (H1 : delete_device w env i
               = (Ok (ActionResponse true
                        ("Device " ++ str i ++ " has been retired")%string
                        None),
                  mkWorld
                    (mkSession (flush_update dr (devices (session w)))
                       (device_logs (session w))
                       (next_device_id (session w)))
                    (publisher_calls w))).
  { unfold delete_device, try_dao.
    now rewrite (delete_device_eq _ _ i d Hget), Hok. }
  rewrite H1. cbn [fst snd].
  set (w1 := mkWorld _ _).
  assert (Hget1 : DeviceDAO.get_device_by_id (session w1) i
                  = Return (Some dr)).
  { unfold DeviceDAO.get_device_by_id in *. cbn [session w1 devices].
    apply one_or_none_some in Hget.
    now rewrite (filter_after_flush _ i d dr Hget Hid). }
  unfold delete_device, try_dao.
  rewrite (delete_device_eq _ _ i dr Hget1), Hok2.
  cbn [negb fst snd DeviceDAO.commit_refresh with_session].
  split; [|reflexivity]. f_equal. unfold w1.
  cbn [session devices device_logs next_device_id publisher_calls].
  change (set_status (Some RETIRED) dr) with dr.
  now rewrite (flush_update_twice dr i _ Hid).
Qed.

Lemma delete_device_idempotent_witness :
  delete_device (snd (delete_device Sample.world_one Sample.env_ok 1))
    Sample.env_ok 1
  = (Ok (ActionResponse true "Device 1 has been retired" None),
     snd (delete_device Sample.world_one Sample.env_ok 1)).
Proof.
  exact (proj1 (delete_device_idempotent Sample.world_one Sample.env_ok
                  Sample.env_ok 1 Sample.probe eq_refl eq_refl eq_refl)).
Defined.

End Keywords.
